(** * rice_monitor_app: the submission service and its spreadsheet mirror

    A shallow embedding of the Go backend (package [models], [utils],
    [services] and [handlers]) and the properties of its row codec, its
    spreadsheet synchronisation and its submission handlers.

    Go strings are byte strings and are modelled by [string]; Go [int] by
    [Z]; slices by lists ([nil] is the empty list unless the code tests for
    it, in which case the slice is an [option]); a Go [map[string]bool] by
    the list of its entries in the order in which [range] yields them. *)

From stdpp Require Import gmap strings list fin_maps.
From Stdlib Require Import ZArith String Ascii List Lia DecimalString DecimalZ.
Import ListNotations.

Local Open Scope string_scope.
Local Open Scope list_scope.
Local Open Scope Z_scope.

(** ** The pieces of the Go library the code formats its cells with *)

Module gofmt.

(** [strings.Join]: nothing for no element, the element itself for one,
    and otherwise the elements written one after the other with [sep]
    between every two of them. *)
Fixpoint Join (elems : list string) (sep : string) : string :=
  match elems with
  | [] => ""
  | [x] => x
  | x :: rest => x +:+ sep +:+ Join rest sep
  end.

(** [strconv.Itoa], [%d]: the decimal numeral of an integer. *)
Definition Itoa (n : Z) : string := NilEmpty.string_of_int (Z.to_int n).

(** What [strconv.Atoi] reads back from a numeral. *)
Definition Atoi (s : string) : option Z :=
  option_map Z.of_int (NilEmpty.int_of_string s).

(** [strconv.FormatBool], [%t]. *)
Definition FormatBool (b : bool) : string := if b then "true" else "false".

Fixpoint zeros (n : nat) : string :=
  match n with
  | O => ""
  | S k => String "0" (zeros k)
  end.

(** The decimal numeral of a natural number, padded with zeros on the left
    up to [width] digits. *)
Definition padded (width : nat) (n : Z) : string :=
  let digits := Itoa n in
  zeros (width - String.length digits) +:+ digits.

(** [appendInt] of package [time]: a sign for a negative number, then its
    absolute value on at least [width] digits. *)
Definition appendInt (x : Z) (width : nat) : string :=
  if x <? 0 then "-" +:+ padded width (- x) else padded width x.

Definition digit (d : Z) : ascii := ascii_of_nat (48 + Z.to_nat d).

(** The last [width] decimal digits of [n], one character for each
    position, zeros included. *)
Fixpoint fixed (width : nat) (n : Z) : string :=
  match width with
  | O => ""
  | S k => fixed k (n / 10) +:+ String (digit (n mod 10)) ""
  end.

(** A [float64]: not-a-number, an infinity, or the finite number
    [(-1)^neg * mant * 2^exp] (the sign is kept apart, as IEEE 754 does,
    so that there is a negative zero). *)
Inductive float64 : Type :=
| NaN
| Inf (neg : bool)
| Fin (neg : bool) (mant : N) (exp : Z).

(** The nearest integer to [num / den], ties to the even one
    ([decimal.Round] of package [strconv]); [0 <= num], [0 < den]. *)
Definition round_half_even (num den : Z) : Z :=
  let q := num / den in
  let r := num mod den in
  if 2 * r <? den then q
  else if den <? 2 * r then q + 1
  else if Z.even q then q else q + 1.

(** [mant * 2^exp] counted in millionths, rounded to the nearest. *)
Definition millionths (mant : N) (exp : Z) : Z :=
  if 0 <=? exp then Z.of_N mant * 2 ^ exp * 1000000
  else round_half_even (Z.of_N mant * 1000000) (2 ^ (- exp)).

(** [fmt.Sprintf("%f", x)]: the verb's default precision is six digits
    after the point; the digits before the point are those of the whole
    part, the six after it are written position by position. *)
Definition Sprintf_f (x : float64) : string :=
  match x with
  | NaN => "NaN"
  | Inf false => "+Inf"
  | Inf true => "-Inf"
  | Fin neg mant exp =>
      let q := millionths mant exp in
      (if neg then "-" else "") +:+
      Itoa (q / 1000000) +:+ "." +:+ fixed 6 (q mod 1000000)
  end.

(** The zero value of the type. *)
Definition zero : float64 := Fin false 0 0.

(** The exact value of a finite [float64], as a fraction
    [numerator / denominator] with a denominator that is a power of two. *)
Definition numerator (mant : N) (exp : Z) : Z :=
  if 0 <=? exp then Z.of_N mant * 2 ^ exp else Z.of_N mant.

Definition denominator (exp : Z) : Z :=
  if 0 <=? exp then 1 else 2 ^ (- exp).

(** A number is written without rounding when the millionths that are
    written are its exact value. *)
Definition unrounded (x : float64) : Prop :=
  match x with
  | Fin _ mant exp =>
      millionths mant exp * denominator exp = numerator mant exp * 1000000
  | _ => True
  end.

End gofmt.

(** A [time.Time], as [Format] sees it: the civil date and clock reading in
    the time's own location and that location's offset from UTC in seconds. *)
Module Time.

Record t : Type := mk {
  year : Z; month : Z; day : Z;
  hour : Z; minute : Z; second : Z;
  offset : Z
}.

(** The zero [time.Time]: January 1 of year 1, midnight, UTC. *)
Definition zero : t := mk 1 1 1 0 0 0 0.

(** A [time.Time] that the decoder of a request has filled, as the
    validator and [Format] see it: the zero value of the struct,
    [time.Time{}], which is what the decoder leaves when the body has no
    date or the date [0001-01-01T00:00:00Z], or any other value, with what
    [Format] sees of it. A value that is
    not the zero struct can still be the first instant of year 1: the date
    [0001-01-01T00:00:00+00:00] decodes to a struct with a location. *)
Inductive Value : Type :=
| ZeroValue
| Of (a : t).

(** [reflect.Value.IsZero] on the struct, the test of the [required] tag. *)
Definition IsZero (v : Value) : bool :=
  match v with
  | ZeroValue => true
  | Of _ => false
  end.

(** What [Format] sees of the value. *)
Definition view (v : Value) : t :=
  match v with
  | ZeroValue => zero
  | Of a => a
  end.

(** The days from 1970-01-01 to a date of the proleptic Gregorian calendar,
    and back. *)
Definition days (y m d : Z) : Z :=
  let y := if m <=? 2 then y - 1 else y in
  let era := y / 400 in
  let yoe := y - era * 400 in
  let doy := (153 * (if 2 <? m then m - 3 else m + 9) + 2) / 5 + d - 1 in
  let doe := yoe * 365 + yoe / 4 - yoe / 100 + doy in
  era * 146097 + doe - 719468.

Definition civil (n : Z) : Z * Z * Z :=
  let z := n + 719468 in
  let era := z / 146097 in
  let doe := z - era * 146097 in
  let yoe := (doe - doe / 1460 + doe / 36524 - doe / 146096) / 365 in
  let doy := doe - (365 * yoe + yoe / 4 - yoe / 100) in
  let mp := (5 * doy + 2) / 153 in
  let d := doy - (153 * mp + 2) / 5 + 1 in
  let m := if mp <? 10 then mp + 3 else mp - 9 in
  (if m <=? 2 then yoe + era * 400 + 1 else yoe + era * 400, m, d).

(** [t.UTC()]: the same instant, in UTC. *)
Definition UTC (a : t) : t :=
  let seconds :=
    days (year a) (month a) (day a) * 86400 +
    hour a * 3600 + minute a * 60 + second a - offset a in
  let '(y, m, d) := civil (seconds / 86400) in
  let clock := seconds mod 86400 in
  mk y m d (clock / 3600) (clock mod 3600 / 60) (clock mod 60) 0.

(** The zone of layout [Z07:00]: [Z] for UTC, otherwise the offset in
    hours and minutes (Go divides towards zero). *)
Definition zone (off : Z) : string :=
  if off =? 0 then "Z"
  else
    let z := Z.quot off 60 in
    (if z <? 0 then "-" else "+") +:+
    gofmt.appendInt (Z.quot (Z.abs z) 60) 2 +:+ ":" +:+
    gofmt.appendInt (Z.rem (Z.abs z) 60) 2.

(** [t.Format(time.RFC3339)], layout [2006-01-02T15:04:05Z07:00]. *)
Definition FormatRFC3339 (a : t) : string :=
  gofmt.appendInt (year a) 4 +:+ "-" +:+
  gofmt.appendInt (month a) 2 +:+ "-" +:+
  gofmt.appendInt (day a) 2 +:+ "T" +:+
  gofmt.appendInt (hour a) 2 +:+ ":" +:+
  gofmt.appendInt (minute a) 2 +:+ ":" +:+
  gofmt.appendInt (second a) 2 +:+
  zone (offset a).

(** The shape of a string: a decimal digit, a sign, or a given byte at
    each position. *)
Inductive Shape : Type :=
| Digit
| Sign
| Byte (c : ascii).

Definition is_digit (c : ascii) : bool :=
  let n := nat_of_ascii c in ((48 <=? n) && (n <=? 57))%nat.

Definition fits (p : Shape) (c : ascii) : bool :=
  match p with
  | Digit => is_digit c
  | Sign => Ascii.eqb c "+" || Ascii.eqb c "-"
  | Byte b => Ascii.eqb c b
  end.

(** What is left of [s] after a prefix of the given shape, if it has one. *)
Fixpoint after (shape : list Shape) (s : string) : option string :=
  match shape, s with
  | [], _ => Some s
  | p :: shape', String c s' => if fits p c then after shape' s' else None
  | _ :: _, EmptyString => None
  end.

(** The strings that have exactly the given shape. *)
Definition shaped (shape : list Shape) (s : string) : bool :=
  match after shape s with
  | Some "" => true
  | _ => false
  end.

(** The strings of RFC 3339: [dddd-dd-ddTdd:dd:dd] and then [Z] or an
    offset [+dd:dd] or [-dd:dd]. *)
Definition is_rfc3339 (s : string) : bool :=
  match
    after [Digit; Digit; Digit; Digit; Byte "-"; Digit; Digit; Byte "-";
           Digit; Digit; Byte "T"; Digit; Digit; Byte ":"; Digit; Digit;
           Byte ":"; Digit; Digit] s
  with
  | Some rest =>
      String.eqb rest "Z" ||
      match after [Sign; Digit; Digit; Byte ":"; Digit; Digit] rest with
      | Some "" => true
      | _ => false
      end
  | None => false
  end.

(** A time of the common era whose fields are in their ranges. *)
Definition wf (a : t) : Prop :=
  0 <= year a <= 9999 /\ 1 <= month a <= 12 /\ 1 <= day a <= 31 /\
  0 <= hour a <= 23 /\ 0 <= minute a <= 59 /\ 0 <= second a <= 59 /\
  -86400 < offset a < 86400.

End Time.

(** ** Package [models] *)

Module Location.
Record t : Type := mk {
  Latitude : gofmt.float64;
  Longitude : gofmt.float64
}.
End Location.

(** A [map[string]bool]: [nil], or a map with its entries in the order in
    which the next [range] over it yields them. Go picks that order anew for
    every loop: a value that is ranged a second time is, in this model,
    another value, with the same entries in another order. *)
Module gomap.

Inductive t : Type :=
| Nil
| Map (entries : list (string * bool)).

(** What [range] yields: nothing for the [nil] map. *)
Definition range (m : t) : list (string * bool) :=
  match m with
  | Nil => []
  | Map entries => entries
  end.

End gomap.

Module PlantConditions.
Record t : Type := mk {
  Healthy : bool;
  Unhealthy : bool;
  SignsOfPestInfestation : bool;
  PestDetails : gomap.t;
  OtherPest : string;
  SignsOfNutrientDeficiency : bool;
  NutrientDeficiencyDetails : gomap.t;
  OtherNutrient : string;
  WaterStress : bool;
  WaterStressLevel : string;
  Lodging : bool;
  LodgingLevel : string;
  WeedInfestation : bool;
  WeedInfestationLevel : string;
  DiseaseSymptoms : bool;
  DiseaseDetails : gomap.t;
  OtherDisease : string;
  Other : bool;
  OtherConditionText : string
}.
End PlantConditions.

Module TraitMeasurements.
Record t : Type := mk {
  CulmLength : gofmt.float64;
  PanicleLength : gofmt.float64;
  PaniclesPerHill : Z;
  HillsObserved : Z
}.
End TraitMeasurements.

Module Submission.
Record t : Type := mk {
  ID : string;
  UserID : string;
  FieldID : string;
  OtherFieldName : string;
  Coordinates : Location.t;
  Date : Time.t;
  GrowthStage : string;
  PlantConditions : PlantConditions.t;
  TraitMeasurements : TraitMeasurements.t;
  Notes : string;
  ObserverName : string;
  Images : list string;
  Videos : list string;
  Audio : list string;
  Status : string;
  CreatedAt : Time.t;
  UpdatedAt : Time.t
}.
End Submission.

Module User.
Record t : Type := mk {
  ID : string;
  Email : string;
  Name : string;
  Picture : string;
  Role : string;
  CreatedAt : Time.t;
  UpdatedAt : Time.t;
  LastLoginAt : Time.t
}.
End User.

Module Field.
Record t : Type := mk {
  ID : string;
  Name : string;
  Location : string;
  Coordinates : Location.t;
  Area : gofmt.float64;
  RiceVariety : string;
  TentativeDate : string;
  OwnerID : string;
  CreatedAt : Time.t;
  UpdatedAt : Time.t
}.
End Field.

Module Sheet.
Record t : Type := mk {
  SpreadsheetID : string;
  SpreadsheetName : string
}.
End Sheet.

(** [CreateSubmissionRequest] after JSON decoding: a key the body does not
    have leaves the zero value of its type. [Date] is the one [time.Time]
    that the validator looks at. *)
Module CreateSubmissionRequest.
Record t : Type := mk {
  FieldID : string;
  OtherFieldName : string;
  Date : Time.Value;
  GrowthStage : string;
  PlantConditions : PlantConditions.t;
  TraitMeasurements : TraitMeasurements.t;
  Coordinates : Location.t;
  Notes : string;
  ObserverName : string;
  Images : list string;
  Videos : list string;
  Audio : list string
}.
End CreateSubmissionRequest.

(** [UpdateSubmissionRequest] after JSON decoding: every member is a pointer
    or a slice, [None] is Go's [nil]. *)
Module UpdateSubmissionRequest.
Record t : Type := mk {
  FieldID : option string;
  OtherFieldName : option string;
  Date : option Time.t;
  GrowthStage : option string;
  PlantConditions : option PlantConditions.t;
  TraitMeasurements : option TraitMeasurements.t;
  Coordinates : option Location.t;
  Notes : option string;
  Images : option (list string);
  Videos : option (list string);
  Audio : option (list string);
  Status : option string
}.
End UpdateSubmissionRequest.

(** ** The spreadsheet backend

    The Google Sheets client is outside the repository. A spreadsheet tab is
    the list of its rows, a row the list of its cells, the empty string an
    empty cell. Only the three calls the service makes are modelled, on the
    ranges it makes them with. Any call can fail: [outages] says, call after
    call, which ones do ([true] is a failure; an exhausted list means no
    failure any more), and a call on a tab that does not exist fails. *)

Module sheets.

Inductive Range : Type :=
| A1_A1                (* 'name'!A1:A1 *)
| A_A                  (* 'name'!A:A *)
| A_row (n : Z).       (* 'name'!A<n>, rows are numbered from 1 *)

Record Service : Type := mk {
  tabs : gmap (string * string) (list (list string));
  outages : list bool
}.

(** Trailing elements that satisfy [p] are dropped: the API leaves out
    the empty cells at the end of a row and the empty rows at the end of a
    range. *)
Definition rstrip {A : Type} (p : A -> bool) (l : list A) : list A :=
  fold_right
    (fun x acc =>
       match acc with
       | [] => if p x then [] else [x]
       | _ :: _ => x :: acc
       end) [] l.

Definition empty_cell (c : string) : bool := String.eqb c "".

Definition empty_row (r : list string) : bool :=
  match r with [] => true | _ :: _ => false end.

(** The content of the cell of a row in column A, if the cell has one. *)
Definition cell_A (r : list string) : option string :=
  match r with
  | c :: _ => if empty_cell c then None else Some c
  | [] => None
  end.

(** The first row whose cell in column A is [id], as the specification
    words the scan of an update: its index, counted from 0. *)
Definition first_row_with (id : string) (g : list (list string)) : option nat :=
  fst <$> list_find (fun r => cell_A r = Some id) g.

(** The number of rows whose cell in column A is [id]. *)
Definition rows_with (id : string) (g : list (list string)) : nat :=
  length (List.filter (fun r => bool_decide (cell_A r = Some id)) g).

(** The values of column A over the given rows. *)
Definition column_A (g : list (list string)) : list (list string) :=
  rstrip empty_row (map (fun r => rstrip empty_cell (take 1 r)) g).

Definition read (rg : Range) (g : list (list string)) : list (list string) :=
  match rg with
  | A1_A1 => column_A (take 1 g)
  | A_A => column_A g
  | A_row n => column_A (take 1 (drop (Z.to_nat (n - 1)) g))
  end.

(** Writing [cells] from column A of row [i] (counted from 0) on: the
    cells beyond the written ones keep their content, and a row below the
    last one is reached through empty rows. *)
Definition write_row (i : nat) (cells : list string) (g : list (list string))
  : list (list string) :=
  if decide (i < length g)%nat
  then alter (fun old => cells ++ drop (length cells) old) i g
  else g ++ replicate (i - length g) [] ++ [cells].

Fixpoint write_rows (i : nat) (rows : list (list string))
  (g : list (list string)) : list (list string) :=
  match rows with
  | [] => g
  | cells :: rest => write_rows (S i) rest (write_row i cells g)
  end.

Definition start_row (rg : Range) : nat :=
  match rg with
  | A1_A1 | A_A => 0%nat
  | A_row n => Z.to_nat (n - 1)
  end.

Definition next (s : Service) : Service :=
  mk (tabs s) (tail (outages s)).

Definition fails (s : Service) : bool :=
  match outages s with
  | true :: _ => true
  | _ => false
  end.

(** [Spreadsheets.Values.Get(id, range).Do()]: [None] is an error. *)
Definition Get (id name : string) (rg : Range) (s : Service)
  : option (list (list string)) * Service :=
  if fails s then (None, next s)
  else (read rg <$> tabs s !! (id, name), next s).

(** [Spreadsheets.Values.Update(id, range, values).ValueInputOption("RAW").Do()];
    the result is the error, [true] for one. *)
Definition Update (id name : string) (rg : Range)
  (values : list (list string)) (s : Service) : bool * Service :=
  if fails s then (true, next s)
  else
    match tabs s !! (id, name) with
    | None => (true, next s)
    | Some g =>
        (false,
         mk (<[(id, name) := write_rows (start_row rg) values g]> (tabs s))
            (tail (outages s)))
    end.

(** [Spreadsheets.Values.Append(id, range, values).ValueInputOption("RAW").Do()]
    on range [A:A]: the rows go below the last row of the tab. *)
Definition Append (id name : string) (values : list (list string))
  (s : Service) : bool * Service :=
  if fails s then (true, next s)
  else
    match tabs s !! (id, name) with
    | None => (true, next s)
    | Some g =>
        (false, mk (<[(id, name) := g ++ values]> (tabs s)) (tail (outages s)))
    end.

End sheets.

(** ** Package [services]: the Google Sheets mirror *)

Module services.

(** What [iter.Next()] yields over the [sheets] collection: a document,
    decoded by [DataTo] or not, or an error of the iteration. *)
Inductive SheetDoc : Type :=
| Doc (decoded : option Sheet.t)
| IterError.

(** [fetchSheets]: an error of the iteration is the function's error, a
    document that does not decode is skipped. *)
Fixpoint fetchSheets (docs : list SheetDoc) : option (list Sheet.t) :=
  match docs with
  | [] => Some []
  | IterError :: _ => None
  | Doc None :: rest => fetchSheets rest
  | Doc (Some sheet) :: rest => cons sheet <$> fetchSheets rest
  end.

(** The tab a registered sheet designates. *)
Definition tab (sheet : Sheet.t) : string * string :=
  (Sheet.SpreadsheetID sheet, Sheet.SpreadsheetName sheet).

(** The header row written by [ensureHeaders]. *)
Definition headers : list string :=
  [ "ID"; "UserID"; "FieldID"; "FieldName"; "Date"; "GrowthStage";
    "Notes"; "ObserverName"; "Status"; "CreatedAt"; "UpdatedAt";
    "Latitude"; "Longitude";
    "CulmLength"; "PanicleLength"; "PaniclesPerHill"; "HillsObserved";
    "Healthy"; "Unhealthy"; "SignsOfPestInfestation"; "PestDetails"; "OtherPest";
    "SignsOfNutrientDeficiency"; "NutrientDeficiencyDetails"; "OtherNutrient";
    "WaterStress"; "WaterStressLevel"; "Lodging"; "LodgingLevel";
    "WeedInfestation"; "WeedInfestationLevel"; "DiseaseSymptoms"; "DiseaseDetails"; "OtherDisease";
    "Other"; "OtherConditionText";
    "Images"; "Videos"; "Audio" ].

(** [mapToString]: the keys whose value is true, in the order in which
    [range] yields the entries, joined by a comma and a space. *)
Definition mapToString (m : gomap.t) : string :=
  let parts :=
    fold_left
      (fun (parts : list string) (entry : string * bool) =>
         if snd entry then parts ++ [fst entry] else parts)
      (gomap.range m) []
  in
  gofmt.Join parts ", ".

Definition submissionToRow (submission : Submission.t) (fieldName : string)
  : list string :=
  let coordinates := Submission.Coordinates submission in
  let traits := Submission.TraitMeasurements submission in
  let conditions := Submission.PlantConditions submission in
  [ Submission.ID submission;
    Submission.UserID submission;
    Submission.FieldID submission;
    fieldName;
    Time.FormatRFC3339 (Submission.Date submission);
    Submission.GrowthStage submission;
    Submission.Notes submission;
    Submission.ObserverName submission;
    Submission.Status submission;
    Time.FormatRFC3339 (Submission.CreatedAt submission);
    Time.FormatRFC3339 (Submission.UpdatedAt submission);
    gofmt.Sprintf_f (Location.Latitude coordinates);
    gofmt.Sprintf_f (Location.Longitude coordinates);
    gofmt.Sprintf_f (TraitMeasurements.CulmLength traits);
    gofmt.Sprintf_f (TraitMeasurements.PanicleLength traits);
    gofmt.Itoa (TraitMeasurements.PaniclesPerHill traits);
    gofmt.Itoa (TraitMeasurements.HillsObserved traits);
    gofmt.FormatBool (PlantConditions.Healthy conditions);
    gofmt.FormatBool (PlantConditions.Unhealthy conditions);
    gofmt.FormatBool (PlantConditions.SignsOfPestInfestation conditions);
    mapToString (PlantConditions.PestDetails conditions);
    PlantConditions.OtherPest conditions;
    gofmt.FormatBool (PlantConditions.SignsOfNutrientDeficiency conditions);
    mapToString (PlantConditions.NutrientDeficiencyDetails conditions);
    PlantConditions.OtherNutrient conditions;
    gofmt.FormatBool (PlantConditions.WaterStress conditions);
    PlantConditions.WaterStressLevel conditions;
    gofmt.FormatBool (PlantConditions.Lodging conditions);
    PlantConditions.LodgingLevel conditions;
    gofmt.FormatBool (PlantConditions.WeedInfestation conditions);
    PlantConditions.WeedInfestationLevel conditions;
    gofmt.FormatBool (PlantConditions.DiseaseSymptoms conditions);
    mapToString (PlantConditions.DiseaseDetails conditions);
    PlantConditions.OtherDisease conditions;
    gofmt.FormatBool (PlantConditions.Other conditions);
    PlantConditions.OtherConditionText conditions;
    gofmt.Join (Submission.Images submission) ",";
    gofmt.Join (Submission.Videos submission) ",";
    gofmt.Join (Submission.Audio submission) "," ].

(** The test of [ensureHeaders] on what it read from [A1:A1]. *)
Definition no_header (values : list (list string)) : bool :=
  match values with
  | [] => true
  | [] :: _ => true
  | (cell :: _) :: _ => String.eqb cell ""
  end.

(** [ensureHeaders]; the result is the error, [None] for [nil]. *)
Definition ensureHeaders (spreadsheetID sheetName : string)
  (s : sheets.Service) : option string * sheets.Service :=
  match sheets.Get spreadsheetID sheetName sheets.A1_A1 s with
  | (None, s1) => (Some "unable to retrieve data from sheet", s1)
  | (Some values, s1) =>
      if no_header values then
        match sheets.Update spreadsheetID sheetName (sheets.A_row 1) [headers] s1 with
        | (true, s2) => (Some "unable to write headers to sheet", s2)
        | (false, s2) => (None, s2)
        end
      else (None, s1)
  end.

(** [ensureAllHeaders]: the error of one sheet is logged and the loop goes
    on with the next. *)
Definition ensureAllHeaders (docs : list SheetDoc) (s : sheets.Service)
  : option string * sheets.Service :=
  match fetchSheets docs with
  | None => (Some "failed to iterate sheets", s)
  | Some registered =>
      (None,
       fold_left
         (fun s (sheet : Sheet.t) =>
            snd (ensureHeaders (Sheet.SpreadsheetID sheet) (Sheet.SpreadsheetName sheet) s))
         registered s)
  end.

(** [appendRow]: the error of the call is logged, not returned. *)
Definition appendRow (spreadsheetID sheetName : string) (row : list string)
  (s : sheets.Service) : sheets.Service :=
  snd (sheets.Append spreadsheetID sheetName [row] s).

Definition AppendSubmission (docs : list SheetDoc)
  (submission : Submission.t) (fieldName : string) (s : sheets.Service)
  : option string * sheets.Service :=
  match fetchSheets docs with
  | None => (Some "failed to iterate sheets", s)
  | Some registered =>
      let row := submissionToRow submission fieldName in
      (None,
       fold_left
         (fun s (sheet : Sheet.t) =>
            snd (sheets.Append (Sheet.SpreadsheetID sheet) (Sheet.SpreadsheetName sheet) [row] s))
         registered s)
  end.

(** The scan of [UpdateSubmission] over the values of column A: the index
    of the first row that has a cell equal to the identifier, [-1] when
    there is none. *)
Fixpoint rowIndex (values : list (list string)) (id : string) (i : Z) : Z :=
  match values with
  | [] => -1
  | row :: rest =>
      match row with
      | cell :: _ => if String.eqb cell id then i else rowIndex rest id (i + 1)
      | [] => rowIndex rest id (i + 1)
      end
  end.

(** The body of the loop of [UpdateSubmission] for one registered sheet. *)
Definition updateSheet (submission : Submission.t) (fieldName : string)
  (s : sheets.Service) (sheet : Sheet.t) : sheets.Service :=
  let id := Sheet.SpreadsheetID sheet in
  let name := Sheet.SpreadsheetName sheet in
  match sheets.Get id name sheets.A_A s with
  | (None, s1) => s1
  | (Some values, s1) =>
      let found := rowIndex values (Submission.ID submission) 0 in
      if found =? -1 then
        appendRow id name (submissionToRow submission fieldName) s1
      else
        let rowToUpdate := submissionToRow submission fieldName in
        snd (sheets.Update id name (sheets.A_row (found + 1)) [rowToUpdate] s1)
  end.

(** What an update makes of one tab, as the specification words it: the
    first row whose cell in column A is the identifier of the submission
    has its first 39 cells overwritten in place, and when there is no such
    row a new row goes below the last one. *)
Definition updated (submission : Submission.t) (fieldName : string)
  (g : list (list string)) : list (list string) :=
  let row := submissionToRow submission fieldName in
  match sheets.first_row_with (Submission.ID submission) g with
  | Some i => alter (fun old => row ++ drop 39 old) i g
  | None => g ++ [row]
  end.

Definition UpdateSubmission (docs : list SheetDoc)
  (submission : Submission.t) (fieldName : string) (s : sheets.Service)
  : option string * sheets.Service :=
  match fetchSheets docs with
  | None => (Some "failed to iterate sheets", s)
  | Some registered =>
      (None, fold_left (updateSheet submission fieldName) registered s)
  end.

End services.

(** ** The document store

    The Firestore client is outside the repository too. The [submissions]
    and [fields] collections are maps from document identifier to the
    document as it was written; a read hands the timestamps of the document
    back in UTC. [outages] is as for the spreadsheet backend. *)

Module firestore.

(** The value of a [firestore.Update]. *)
Inductive Value : Type :=
| VString (v : string)
| VTime (v : Time.t)
| VStrings (v : list string)
| VLocation (v : Location.t)
| VPlantConditions (v : PlantConditions.t)
| VTraitMeasurements (v : TraitMeasurements.t).

Record Update : Type := mkUpdate { Path : string; UpdateValue : Value }.

(** The documents of the two collections, each as the struct that was
    written, and the calls that are going to fail. A timestamp is stored as
    an instant: what a read makes of a document is [decoded], with the
    timestamps in UTC. *)
Record Client : Type := mk {
  submissions : gmap string Submission.t;
  fields : gmap string Field.t;
  outages : list bool
}.

Definition next (c : Client) : Client :=
  mk (submissions c) (fields c) (tail (outages c)).

Definition fails (c : Client) : bool :=
  match outages c with
  | true :: _ => true
  | _ => false
  end.

(** One member of the stored document replaced, by the name the struct
    tags of [models.Submission] give it; a path or a value that fits no
    member leaves the document as it is. *)
Definition set (u : Update) (d : Submission.t) : Submission.t :=
  let '(Submission.mk id user_id field_id other_field_name coordinates date
          growth_stage plant_conditions trait_measurements notes observer_name
          images videos audio status created_at updated_at) := d in
  let path := Path u in
  match UpdateValue u with
  | VString v =>
      Submission.mk id user_id
        (if String.eqb path "field_id" then v else field_id)
        (if String.eqb path "other_field_name" then v else other_field_name)
        coordinates date
        (if String.eqb path "growth_stage" then v else growth_stage)
        plant_conditions trait_measurements
        (if String.eqb path "notes" then v else notes)
        observer_name images videos audio
        (if String.eqb path "status" then v else status)
        created_at updated_at
  | VTime v =>
      Submission.mk id user_id field_id other_field_name coordinates
        (if String.eqb path "date" then v else date)
        growth_stage plant_conditions trait_measurements notes observer_name
        images videos audio status created_at
        (if String.eqb path "updated_at" then v else updated_at)
  | VStrings v =>
      Submission.mk id user_id field_id other_field_name coordinates date
        growth_stage plant_conditions trait_measurements notes observer_name
        (if String.eqb path "images" then v else images)
        (if String.eqb path "videos" then v else videos)
        (if String.eqb path "audio" then v else audio)
        status created_at updated_at
  | VLocation v =>
      Submission.mk id user_id field_id other_field_name
        (if String.eqb path "coordinates" then v else coordinates)
        date growth_stage plant_conditions trait_measurements notes
        observer_name images videos audio status created_at updated_at
  | VPlantConditions v =>
      Submission.mk id user_id field_id other_field_name coordinates date
        growth_stage
        (if String.eqb path "plant_conditions" then v else plant_conditions)
        trait_measurements notes observer_name images videos audio status
        created_at updated_at
  | VTraitMeasurements v =>
      Submission.mk id user_id field_id other_field_name coordinates date
        growth_stage plant_conditions
        (if String.eqb path "trait_measurements" then v else trait_measurements)
        notes observer_name images videos audio status created_at updated_at
  end.

(** The update of a member that a request may or may not carry. *)
Definition perhaps {A : Type} (member : option A) (path : string)
  (value : A -> Value) (d : Submission.t) : Submission.t :=
  match member with
  | Some v => set (mkUpdate path (value v)) d
  | None => d
  end.

(** The updates of one call, applied in the order of the slice. *)
Definition apply (updates : list Update) (d : Submission.t) : Submission.t :=
  fold_left (fun d u => set u d) updates d.

(** [doc.DataTo(&v)] for a new [v]: the members are those of the document
    as it was written, but for the timestamps, which come back in UTC. *)
Definition decoded (d : Submission.t) : Submission.t :=
  Submission.mk
    (Submission.ID d) (Submission.UserID d) (Submission.FieldID d)
    (Submission.OtherFieldName d) (Submission.Coordinates d)
    (Time.UTC (Submission.Date d))
    (Submission.GrowthStage d) (Submission.PlantConditions d)
    (Submission.TraitMeasurements d) (Submission.Notes d)
    (Submission.ObserverName d) (Submission.Images d) (Submission.Videos d)
    (Submission.Audio d) (Submission.Status d)
    (Time.UTC (Submission.CreatedAt d))
    (Time.UTC (Submission.UpdatedAt d)).

Definition decodedField (f : Field.t) : Field.t :=
  Field.mk
    (Field.ID f) (Field.Name f) (Field.Location f) (Field.Coordinates f)
    (Field.Area f) (Field.RiceVariety f) (Field.TentativeDate f) (Field.OwnerID f)
    (Time.UTC (Field.CreatedAt f))
    (Time.UTC (Field.UpdatedAt f)).

(** [SetMapIndex] on a map: the value of a key that the map has is
    replaced, another key is added. *)
Definition SetMapIndex (key : string) (value : bool) (m : list (string * bool))
  : list (string * bool) :=
  if existsb (fun entry => String.eqb (fst entry) key) m
  then map (fun entry => if String.eqb (fst entry) key then (key, value) else entry) m
  else m ++ [(key, value)].

(** What [DataTo] does to a map member. A map of the document is
    populated: its entries are set in the map that the struct holds, made if
    the struct holds none, and the keys that only this map has stay. The
    null that a [nil] map was written as makes the member [nil]. The next
    [range] over the populated map takes an order of its own, as over every
    map; the list has the entries in the order in which [SetMapIndex] has
    put them. *)
Definition populateMap (into doc : gomap.t) : gomap.t :=
  match doc with
  | gomap.Nil => gomap.Nil
  | gomap.Map entries =>
      gomap.Map
        (fold_left (fun m (entry : string * bool) => SetMapIndex (fst entry) (snd entry) m)
           entries (gomap.range into))
  end.

Definition populateConditions (into doc : PlantConditions.t) : PlantConditions.t :=
  PlantConditions.mk
    (PlantConditions.Healthy doc)
    (PlantConditions.Unhealthy doc)
    (PlantConditions.SignsOfPestInfestation doc)
    (populateMap (PlantConditions.PestDetails into) (PlantConditions.PestDetails doc))
    (PlantConditions.OtherPest doc)
    (PlantConditions.SignsOfNutrientDeficiency doc)
    (populateMap (PlantConditions.NutrientDeficiencyDetails into)
       (PlantConditions.NutrientDeficiencyDetails doc))
    (PlantConditions.OtherNutrient doc)
    (PlantConditions.WaterStress doc)
    (PlantConditions.WaterStressLevel doc)
    (PlantConditions.Lodging doc)
    (PlantConditions.LodgingLevel doc)
    (PlantConditions.WeedInfestation doc)
    (PlantConditions.WeedInfestationLevel doc)
    (PlantConditions.DiseaseSymptoms doc)
    (populateMap (PlantConditions.DiseaseDetails into) (PlantConditions.DiseaseDetails doc))
    (PlantConditions.OtherDisease doc)
    (PlantConditions.Other doc)
    (PlantConditions.OtherConditionText doc).

(** [doc.DataTo(&into)] for a struct that holds a document already, with
    [doc] as a new struct receives it: every member is set from the
    document, the lists too, but the three maps of the plant conditions are
    populated: one that the document has as a map keeps the keys that only
    the struct had. *)
Definition DataTo (into doc : Submission.t) : Submission.t :=
  Submission.mk
    (Submission.ID doc) (Submission.UserID doc) (Submission.FieldID doc)
    (Submission.OtherFieldName doc) (Submission.Coordinates doc)
    (Submission.Date doc)
    (Submission.GrowthStage doc)
    (populateConditions (Submission.PlantConditions into) (Submission.PlantConditions doc))
    (Submission.TraitMeasurements doc) (Submission.Notes doc)
    (Submission.ObserverName doc) (Submission.Images doc) (Submission.Videos doc)
    (Submission.Audio doc) (Submission.Status doc)
    (Submission.CreatedAt doc)
    (Submission.UpdatedAt doc).

(** [Submissions().Doc(id).Get(ctx)] and the [DataTo] of the document into
    a new struct: an error for a document that does not exist. *)
Definition GetSubmission (id : string) (c : Client)
  : option Submission.t * Client :=
  if fails c then (None, next c) else (decoded <$> submissions c !! id, next c).

(** [Fields().Doc(id).Get(ctx)] and the [DataTo] of the document. *)
Definition GetField (id : string) (c : Client) : option Field.t * Client :=
  if fails c then (None, next c) else (decodedField <$> fields c !! id, next c).

(** [Submissions().Doc(id).Set(ctx, doc)]; the result is the error. *)
Definition SetSubmission (id : string) (doc : Submission.t) (c : Client)
  : bool * Client :=
  if fails c then (true, next c)
  else (false, mk (<[id := doc]> (submissions c)) (fields c) (tail (outages c))).

(** [Submissions().Doc(id).Update(ctx, updates)]: an error for a document
    that does not exist. *)
Definition UpdateSubmission (id : string) (updates : list Update) (c : Client)
  : bool * Client :=
  if fails c then (true, next c)
  else
    match submissions c !! id with
    | None => (true, next c)
    | Some d =>
        (false,
         mk (<[id := apply updates d]> (submissions c)) (fields c)
            (tail (outages c)))
    end.

(** [Submissions().Doc(id).Delete(ctx)]. *)
Definition DeleteSubmission (id : string) (c : Client) : bool * Client :=
  if fails c then (true, next c)
  else (false, mk (delete id (submissions c)) (fields c) (tail (outages c))).

End firestore.

(** ** Package [utils] *)

Module utils.

Definition slash : ascii := "/"%char.
Definition dot : ascii := "."%char.

(** The scan of [filepath.Ext] from the last byte of the path backwards:
    up to the last dot of the last element of the path. *)
Fixpoint ext_scan (backwards suffix : list ascii) : list ascii :=
  match backwards with
  | [] => []
  | c :: rest =>
      if Ascii.eqb c slash then []
      else if Ascii.eqb c dot then c :: suffix
      else ext_scan rest (c :: suffix)
  end.

Definition Ext (path : string) : string :=
  string_of_list_ascii (ext_scan (rev (list_ascii_of_string path)) []).

(** [strings.ToLower] on the letters A to Z; the other bytes are kept. *)
Definition lower (c : ascii) : ascii :=
  let n := nat_of_ascii c in
  if ((65 <=? n) && (n <=? 90))%nat then ascii_of_nat (n + 32) else c.

Definition ToLower (s : string) : string :=
  string_of_list_ascii (map lower (list_ascii_of_string s)).

(** [checkExtension]: the lower-cased extension is a key of the map. *)
Definition checkExtension (filename : string) (allowedExtensions : list string)
  : bool :=
  let ext := ToLower (Ext filename) in
  existsb (String.eqb ext) allowedExtensions.

Definition IsImageFile (filename : string) : bool :=
  checkExtension filename [".jpg"; ".jpeg"; ".png"; ".webp"].

Definition IsVideoFile (filename : string) : bool :=
  checkExtension filename [".mp4"; ".mov"; ".webm"].

Definition IsAudioFile (filename : string) : bool :=
  checkExtension filename [".mp3"; ".wav"; ".ogg"; ".webm"].

Definition ValidateMediaType (filename fileType : string) : bool :=
  if String.eqb fileType "image" then IsImageFile filename
  else if String.eqb fileType "video" then IsVideoFile filename
  else if String.eqb fileType "audio" then IsAudioFile filename
  else false.

End utils.

Module SubmissionResponse.
Record t : Type := mk {
  ID : string;
  UserID : string;
  FieldID : string;
  Field : option Field.t;
  OtherFieldName : string;
  Date : Time.t;
  GrowthStage : string;
  PlantConditions : PlantConditions.t;
  TraitMeasurements : TraitMeasurements.t;
  Notes : string;
  ObserverName : string;
  Images : list string;
  Videos : list string;
  Audio : list string;
  Status : string;
  Coordinates : Location.t;
  CreatedAt : Time.t;
  UpdatedAt : Time.t
}.
End SubmissionResponse.

(** ** What a handler hands back *)

Module http.

Definition StatusOK : Z := 200.
Definition StatusCreated : Z := 201.
Definition StatusBadRequest : Z := 400.
Definition StatusForbidden : Z := 403.
Definition StatusNotFound : Z := 404.
Definition StatusInternalServerError : Z := 500.

(** The [Data] member of [models.SuccessResponse]. *)
Inductive Data : Type :=
| NoData
| OfSubmission (submission : Submission.t)
| OfSubmissionResponse (submission : SubmissionResponse.t)
| OfMedia (filename url file_type : string).

Inductive Body : Type :=
| ErrorResponse (Error Message : string)
| SuccessResponse (data : Data) (Message : string).

(** [c.JSON(code, body)]. *)
Record Response : Type := JSON { Code : Z; Payload : Body }.

(** The request body as [encoding/json] decodes it into the request
    struct, or the decoder's error. *)
Inductive Decoded (A : Type) : Type :=
| Malformed (err : string)
| Parsed (req : A).
Arguments Malformed {A} err.
Arguments Parsed {A} req.

(** The work a handler leaves to a goroutine of its own. *)
Inductive Job : Type :=
| AppendJob (submission : Submission.t) (fieldName : string)
| UpdateJob (submission : Submission.t) (fieldName : string).

(** A handler either writes a response or panics. *)
Inductive Outcome : Type :=
| Responds (r : Response)
| Panics (reason : string).

End http.

(** ** Package [handlers] *)

Module handlers.

Import http.

(** [s[:n]] on a string: a run-time panic when [n] is beyond its length. *)
Definition prefix (s : string) (n : nat) : option string :=
  if decide (n <= String.length s)%nat then Some (substring 0 n s) else None.

(** *** Media *)

(** The multipart file of the request. *)
Record FileHeader : Type := mkFile {
  Filename : string;
  ContentType : string
}.

(** How the calls on the object store turn out: the copy of the bytes, the
    close of the writer, the ACL. *)
Record Upload : Type := mkUpload {
  copied : bool;
  closed : bool;
  published : bool
}.

(** [addMediaToSubmission]: a transaction that reads the submission, adds
    the URL to the list of its kind, stamps [UpdatedAt] and writes the
    document back; the result is the error. *)
Definition addMediaToSubmission (submissionID mediaURL fileType : string)
  (now : Time.t) (c : firestore.Client) : bool * firestore.Client :=
  match firestore.GetSubmission submissionID c with
  | (None, c1) => (true, c1)
  | (Some submission, c1) =>
      let '(Submission.mk id user_id field_id other_field_name coordinates
              date growth_stage plant_conditions trait_measurements notes
              observer_name images videos audio status created_at _) :=
        submission in
      let images' :=
        if String.eqb fileType "image" then images ++ [mediaURL] else images in
      let videos' :=
        if String.eqb fileType "video" then videos ++ [mediaURL] else videos in
      let audio' :=
        if String.eqb fileType "audio" then audio ++ [mediaURL] else audio in
      firestore.SetSubmission submissionID
        (Submission.mk id user_id field_id other_field_name coordinates
           date growth_stage plant_conditions trait_measurements notes
           observer_name images' videos' audio' status created_at now)
        c1
  end.

(** Layout [20060102_150405] of the file names. *)
Definition stamp (a : Time.t) : string :=
  gofmt.appendInt (Time.year a) 4 +:+ gofmt.appendInt (Time.month a) 2 +:+
  gofmt.appendInt (Time.day a) 2 +:+ "_" +:+
  gofmt.appendInt (Time.hour a) 2 +:+ gofmt.appendInt (Time.minute a) 2 +:+
  gofmt.appendInt (Time.second a) 2.

(** [UploadMedia]. [submissionID] and [fileType] are the form values,
    [file] the form file when there is one, [generated] what
    [utils.GenerateID] returns, [uploaded] and [stored] the two readings of
    the clock. *)
Definition UploadMedia (bucketName submissionID fileType : string)
  (file : option FileHeader) (generated : string) (uploaded stored : Time.t)
  (up : Upload) (c : firestore.Client) : Outcome * firestore.Client :=
  if String.eqb submissionID "" then
    (Responds (JSON StatusBadRequest
       (ErrorResponse "invalid_request" "submission_id is required")), c)
  else if String.eqb fileType "" then
    (Responds (JSON StatusBadRequest
       (ErrorResponse "invalid_request" "file_type is required")), c)
  else
    match file with
    | None =>
        (Responds (JSON StatusBadRequest
           (ErrorResponse "invalid_request" "No file uploaded")), c)
    | Some header =>
        let ext := utils.Ext (Filename header) in
        if negb (utils.ValidateMediaType (Filename header) fileType) then
          (Responds (JSON StatusBadRequest
             (ErrorResponse "invalid_file_type"
                ("Unsupported file type for " +:+ fileType))), c)
        else
          let filename :=
            submissionID +:+ "/" +:+ generated +:+ "_" +:+ stamp uploaded +:+ ext in
          if negb (copied up) then
            (Responds (JSON StatusInternalServerError
               (ErrorResponse "upload_failed" "Failed to upload file")), c)
          else if negb (closed up) then
            (Responds (JSON StatusInternalServerError
               (ErrorResponse "upload_failed" "Failed to finalize upload")), c)
          else
            let mediaURL :=
              "https://storage.googleapis.com/" +:+ bucketName +:+ "/" +:+ filename in
            let uploaded_ok :=
              Responds (JSON StatusOK
                (SuccessResponse (OfMedia filename mediaURL fileType)
                   "Media uploaded successfully")) in
            if negb (String.eqb submissionID "") then
              match prefix submissionID 5 with
              | None => (Panics "slice bounds out of range", c)
              | Some head =>
                  if negb (String.eqb head "temp_") then
                    match addMediaToSubmission submissionID mediaURL fileType stored c with
                    | (true, c1) =>
                        (Responds (JSON StatusInternalServerError
                           (ErrorResponse "internal_error"
                              "Failed to update submission with media")), c1)
                    | (false, c1) => (uploaded_ok, c1)
                    end
                  else (uploaded_ok, c)
              end
            else (uploaded_ok, c)
    end.

(** *** Submissions *)

(** The [binding:"required"] tags of [CreateSubmissionRequest]: a member
    that still has the zero value of its type fails the validation. *)
Definition required_failures (req : CreateSubmissionRequest.t) : list string :=
  (if Time.IsZero (CreateSubmissionRequest.Date req) then ["Date"] else []) ++
  (if String.eqb (CreateSubmissionRequest.GrowthStage req) "" then ["GrowthStage"] else []) ++
  (if String.eqb (CreateSubmissionRequest.ObserverName req) "" then ["ObserverName"] else []).

(** The message of the validator for one member. *)
Definition required_error (member : string) : string :=
  "Key: 'CreateSubmissionRequest." +:+ member +:+
  "' Error:Field validation for '" +:+ member +:+ "' failed on the 'required' tag".

Definition newline : string := String (ascii_of_nat 10) "".

(** [c.ShouldBindJSON(&req)] for a create request: the error of the decoder
    or of the validator, if any. *)
Definition ShouldBindJSON_create (body : Decoded CreateSubmissionRequest.t)
  : string + CreateSubmissionRequest.t :=
  match body with
  | Malformed err => inl err
  | Parsed req =>
      match required_failures req with
      | [] => inr req
      | failed => inl (gofmt.Join (map required_error failed) newline)
      end
  end.

(** [c.ShouldBindJSON(&req)] for an update request: no member has a
    binding tag. *)
Definition ShouldBindJSON_update (body : Decoded UpdateSubmissionRequest.t)
  : string + UpdateSubmissionRequest.t :=
  match body with
  | Malformed err => inl err
  | Parsed req => inr req
  end.

(** The field name the handlers pass on to the spreadsheet mirror. *)
Definition sheetFieldName (submission : Submission.t) (c : firestore.Client)
  : string * firestore.Client :=
  if negb (String.eqb (Submission.FieldID submission) "") &&
     negb (String.eqb (Submission.FieldID submission) "others")
  then
    match firestore.GetField (Submission.FieldID submission) c with
    | (Some field, c1) => (Field.Name field, c1)
    | (None, c1) => ("", c1)
    end
  else (Submission.OtherFieldName submission, c).

(** [CreateSubmission]. [generated] is what [utils.GenerateID] returns,
    [created] and [updated] the two readings of the clock. *)
Definition CreateSubmission (user : User.t)
  (body : Decoded CreateSubmissionRequest.t) (generated : string)
  (created updated : Time.t) (c : firestore.Client)
  : Response * firestore.Client * option Job :=
  match ShouldBindJSON_create body with
  | inl err =>
      (JSON StatusBadRequest (ErrorResponse "invalid_request" err), c, None)
  | inr req =>
      let submission :=
        Submission.mk
          generated
          (User.ID user)
          (CreateSubmissionRequest.FieldID req)
          (CreateSubmissionRequest.OtherFieldName req)
          (CreateSubmissionRequest.Coordinates req)
          (Time.view (CreateSubmissionRequest.Date req))
          (CreateSubmissionRequest.GrowthStage req)
          (CreateSubmissionRequest.PlantConditions req)
          (CreateSubmissionRequest.TraitMeasurements req)
          (CreateSubmissionRequest.Notes req)
          (CreateSubmissionRequest.ObserverName req)
          (CreateSubmissionRequest.Images req)
          (CreateSubmissionRequest.Videos req)
          (CreateSubmissionRequest.Audio req)
          "submitted"
          created
          updated in
      match firestore.SetSubmission (Submission.ID submission) submission c with
      | (true, c1) =>
          (JSON StatusInternalServerError
             (ErrorResponse "internal_error" "Failed to create submission"),
           c1, None)
      | (false, c1) =>
          let '(fieldName, c2) := sheetFieldName submission c1 in
          (JSON StatusCreated
             (SuccessResponse (OfSubmission submission)
                "Submission created successfully"),
           c2, Some (AppendJob submission fieldName))
      end
  end.

(** The access check of the read, update and delete handlers. *)
Definition denied (user : User.t) (submission : Submission.t) : bool :=
  negb (String.eqb (User.Role user) "admin") &&
  negb (String.eqb (Submission.UserID submission) (User.ID user)).

Definition forbidden : Response :=
  JSON StatusForbidden (ErrorResponse "forbidden" "Access denied").

Definition not_found : Response :=
  JSON StatusNotFound (ErrorResponse "not_found" "Submission not found").

Definition toResponse (submission : Submission.t) (field : option Field.t)
  : SubmissionResponse.t :=
  SubmissionResponse.mk
    (Submission.ID submission)
    (Submission.UserID submission)
    (Submission.FieldID submission)
    field
    (Submission.OtherFieldName submission)
    (Submission.Date submission)
    (Submission.GrowthStage submission)
    (Submission.PlantConditions submission)
    (Submission.TraitMeasurements submission)
    (Submission.Notes submission)
    (Submission.ObserverName submission)
    (Submission.Images submission)
    (Submission.Videos submission)
    (Submission.Audio submission)
    (Submission.Status submission)
    (Submission.Coordinates submission)
    (Submission.CreatedAt submission)
    (Submission.UpdatedAt submission).

(** [GetSubmission]. *)
Definition GetSubmission (user : User.t) (submissionID : string)
  (c : firestore.Client) : Response * firestore.Client :=
  match firestore.GetSubmission submissionID c with
  | (None, c1) => (not_found, c1)
  | (Some submission, c1) =>
      if denied user submission then (forbidden, c1)
      else
        let found (field : option Field.t) :=
          JSON StatusOK
            (SuccessResponse (OfSubmissionResponse (toResponse submission field)) "") in
        if negb (String.eqb (Submission.FieldID submission) "others") &&
           negb (String.eqb (Submission.FieldID submission) "")
        then
          match firestore.GetField (Submission.FieldID submission) c1 with
          | (Some field, c2) => (found (Some field), c2)
          | (None, c2) =>
              (JSON StatusInternalServerError
                 (ErrorResponse "internal_error"
                    "Failed to retrieve associated field data"), c2)
          end
        else if negb (String.eqb (Submission.OtherFieldName submission) "") then
          (found (Some (Field.mk "others" (Submission.OtherFieldName submission)
                          "" (Location.mk gofmt.zero gofmt.zero) gofmt.zero
                          "" "" "" Time.zero Time.zero)), c1)
        else (found None, c1)
  end.

Definition when {A : Type} (member : option A) (path : string)
  (value : A -> firestore.Value) (updates : list firestore.Update)
  : list firestore.Update :=
  match member with
  | Some v => updates ++ [firestore.mkUpdate path (value v)]
  | None => updates
  end.

(** The [updates] slice of [UpdateSubmission], member after member. *)
Definition updatesOf (req : UpdateSubmissionRequest.t) (now : Time.t)
  : list firestore.Update :=
  let updates := [] in
  let updates := when (UpdateSubmissionRequest.Date req) "date" firestore.VTime updates in
  let updates := when (UpdateSubmissionRequest.GrowthStage req) "growth_stage" firestore.VString updates in
  let updates := when (UpdateSubmissionRequest.PlantConditions req) "plant_conditions" firestore.VPlantConditions updates in
  let updates := when (UpdateSubmissionRequest.TraitMeasurements req) "trait_measurements" firestore.VTraitMeasurements updates in
  let updates := when (UpdateSubmissionRequest.Coordinates req) "coordinates" firestore.VLocation updates in
  let updates := when (UpdateSubmissionRequest.Notes req) "notes" firestore.VString updates in
  let updates := when (UpdateSubmissionRequest.Images req) "images" firestore.VStrings updates in
  let updates := when (UpdateSubmissionRequest.Videos req) "videos" firestore.VStrings updates in
  let updates := when (UpdateSubmissionRequest.Audio req) "audio" firestore.VStrings updates in
  let updates := when (UpdateSubmissionRequest.Status req) "status" firestore.VString updates in
  let updates :=
    match UpdateSubmissionRequest.OtherFieldName req with
    | Some name =>
        (updates ++ [firestore.mkUpdate "other_field_name" (firestore.VString name)])
          ++ [firestore.mkUpdate "field_id" (firestore.VString "others")]
    | None =>
        when (UpdateSubmissionRequest.FieldID req) "field_id" firestore.VString updates
    end in
  updates ++ [firestore.mkUpdate "updated_at" (firestore.VTime now)].

(** What the updates of a request make of a stored document, member by
    member: a member of the request that is [nil] leaves the member of the
    document, [other_field_name] also sets [field_id], and [updated_at] is
    the time of the request. *)
Definition patched (req : UpdateSubmissionRequest.t) (now : Time.t)
  (old : Submission.t) : Submission.t :=
  Submission.mk
    (Submission.ID old)
    (Submission.UserID old)
    (match UpdateSubmissionRequest.OtherFieldName req with
     | Some _ => "others"
     | None => default (Submission.FieldID old) (UpdateSubmissionRequest.FieldID req)
     end)
    (default (Submission.OtherFieldName old) (UpdateSubmissionRequest.OtherFieldName req))
    (default (Submission.Coordinates old) (UpdateSubmissionRequest.Coordinates req))
    (default (Submission.Date old) (UpdateSubmissionRequest.Date req))
    (default (Submission.GrowthStage old) (UpdateSubmissionRequest.GrowthStage req))
    (default (Submission.PlantConditions old) (UpdateSubmissionRequest.PlantConditions req))
    (default (Submission.TraitMeasurements old) (UpdateSubmissionRequest.TraitMeasurements req))
    (default (Submission.Notes old) (UpdateSubmissionRequest.Notes req))
    (Submission.ObserverName old)
    (default (Submission.Images old) (UpdateSubmissionRequest.Images req))
    (default (Submission.Videos old) (UpdateSubmissionRequest.Videos req))
    (default (Submission.Audio old) (UpdateSubmissionRequest.Audio req))
    (default (Submission.Status old) (UpdateSubmissionRequest.Status req))
    (Submission.CreatedAt old)
    now.

(** [UpdateSubmission]. The document that is read again after the update is
    decoded into the variable [submission], which holds the document of the
    first read; the response and the goroutine get this variable. *)
Definition UpdateSubmission (user : User.t) (submissionID : string)
  (body : Decoded UpdateSubmissionRequest.t) (now : Time.t)
  (c : firestore.Client) : Response * firestore.Client * option Job :=
  match ShouldBindJSON_update body with
  | inl err =>
      (JSON StatusBadRequest (ErrorResponse "invalid_request" err), c, None)
  | inr req =>
      match firestore.GetSubmission submissionID c with
      | (None, c1) => (not_found, c1, None)
      | (Some submission, c1) =>
          if denied user submission then (forbidden, c1, None)
          else
            match firestore.UpdateSubmission submissionID (updatesOf req now) c1 with
            | (true, c2) =>
                (JSON StatusInternalServerError
                   (ErrorResponse "internal_error" "Failed to update submission"),
                 c2, None)
            | (false, c2) =>
                match firestore.GetSubmission submissionID c2 with
                | (None, c3) =>
                    (JSON StatusInternalServerError
                       (ErrorResponse "internal_error"
                          "Failed to retrieve updated submission"),
                     c3, None)
                | (Some updated, c3) =>
                    let submission := firestore.DataTo submission updated in
                    let '(fieldName, c4) := sheetFieldName submission c3 in
                    (JSON StatusOK
                       (SuccessResponse (OfSubmission submission)
                          "Submission updated successfully"),
                     c4, Some (UpdateJob submission fieldName))
                end
            end
      end
  end.

(** [DeleteSubmission]. *)
Definition DeleteSubmission (user : User.t) (submissionID : string)
  (c : firestore.Client) : Response * firestore.Client :=
  match firestore.GetSubmission submissionID c with
  | (None, c1) => (not_found, c1)
  | (Some submission, c1) =>
      if denied user submission then (forbidden, c1)
      else
        match firestore.DeleteSubmission submissionID c1 with
        | (true, c2) =>
            (JSON StatusInternalServerError
               (ErrorResponse "internal_error" "Failed to delete submission"), c2)
        | (false, c2) =>
            (JSON StatusOK (SuccessResponse NoData "Submission deleted successfully"), c2)
        end
  end.

(** The header of [ExportSubmissions]. *)
Definition header : list string :=
  [ "ID"; "UserID"; "FieldID"; "FieldName"; "Date"; "GrowthStage";
    "Notes"; "ObserverName"; "Status"; "CreatedAt"; "UpdatedAt";
    "Latitude"; "Longitude";
    "CulmLength"; "PanicleLength"; "PaniclesPerHill"; "HillsObserved";
    "Healthy"; "Unhealthy"; "SignsOfPestInfestation"; "PestDetails"; "OtherPest";
    "SignsOfNutrientDeficiency"; "NutrientDeficiencyDetails"; "OtherNutrient";
    "WaterStress"; "WaterStressLevel"; "Lodging"; "LodgingLevel";
    "WeedInfestation"; "WeedInfestationLevel"; "DiseaseSymptoms"; "DiseaseDetails"; "OtherDisease";
    "Other"; "OtherConditionText";
    "Images"; "Videos"; "Audio" ].

(** The copy of [mapToString] in package [handlers]. *)
Definition mapToString (m : gomap.t) : string :=
  let parts :=
    fold_left
      (fun (parts : list string) (entry : string * bool) =>
         if snd entry then parts ++ [fst entry] else parts)
      (gomap.range m) []
  in
  gofmt.Join parts ", ".

(** One [record] of [ExportSubmissions]. *)
Definition record (submission : Submission.t) (fieldName : string)
  : list string :=
  let coordinates := Submission.Coordinates submission in
  let traits := Submission.TraitMeasurements submission in
  let conditions := Submission.PlantConditions submission in
  [ Submission.ID submission;
    Submission.UserID submission;
    Submission.FieldID submission;
    fieldName;
    Time.FormatRFC3339 (Submission.Date submission);
    Submission.GrowthStage submission;
    Submission.Notes submission;
    Submission.ObserverName submission;
    Submission.Status submission;
    Time.FormatRFC3339 (Submission.CreatedAt submission);
    Time.FormatRFC3339 (Submission.UpdatedAt submission);
    gofmt.Sprintf_f (Location.Latitude coordinates);
    gofmt.Sprintf_f (Location.Longitude coordinates);
    gofmt.Sprintf_f (TraitMeasurements.CulmLength traits);
    gofmt.Sprintf_f (TraitMeasurements.PanicleLength traits);
    gofmt.Itoa (TraitMeasurements.PaniclesPerHill traits);
    gofmt.Itoa (TraitMeasurements.HillsObserved traits);
    gofmt.FormatBool (PlantConditions.Healthy conditions);
    gofmt.FormatBool (PlantConditions.Unhealthy conditions);
    gofmt.FormatBool (PlantConditions.SignsOfPestInfestation conditions);
    mapToString (PlantConditions.PestDetails conditions);
    PlantConditions.OtherPest conditions;
    gofmt.FormatBool (PlantConditions.SignsOfNutrientDeficiency conditions);
    mapToString (PlantConditions.NutrientDeficiencyDetails conditions);
    PlantConditions.OtherNutrient conditions;
    gofmt.FormatBool (PlantConditions.WaterStress conditions);
    PlantConditions.WaterStressLevel conditions;
    gofmt.FormatBool (PlantConditions.Lodging conditions);
    PlantConditions.LodgingLevel conditions;
    gofmt.FormatBool (PlantConditions.WeedInfestation conditions);
    PlantConditions.WeedInfestationLevel conditions;
    gofmt.FormatBool (PlantConditions.DiseaseSymptoms conditions);
    mapToString (PlantConditions.DiseaseDetails conditions);
    PlantConditions.OtherDisease conditions;
    gofmt.FormatBool (PlantConditions.Other conditions);
    PlantConditions.OtherConditionText conditions;
    gofmt.Join (Submission.Images submission) ",";
    gofmt.Join (Submission.Videos submission) ",";
    gofmt.Join (Submission.Audio submission) "," ].

(** The field name of one exported record. *)
Definition exportFieldName (submission : Submission.t) (c : firestore.Client)
  : string * firestore.Client :=
  if negb (String.eqb (Submission.FieldID submission) "") then
    match firestore.GetField (Submission.FieldID submission) c with
    | (Some field, c1) => (Field.Name field, c1)
    | (None, c1) => ("", c1)
    end
  else ("", c).

(** The rows [ExportSubmissions] hands to the CSV writer for the documents
    the query yields: the header, then one record for each document. *)
Fixpoint exportRecords (docs : list Submission.t) (c : firestore.Client)
  : list (list string) * firestore.Client :=
  match docs with
  | [] => ([], c)
  | submission :: rest =>
      let '(fieldName, c1) := exportFieldName submission c in
      let '(records, c2) := exportRecords rest c1 in
      (record submission fieldName :: records, c2)
  end.

Definition ExportSubmissions (docs : list Submission.t) (c : firestore.Client)
  : list (list string) * firestore.Client :=
  let '(records, c1) := exportRecords docs c in
  (header :: records, c1).


End handlers.

(** ** Sample data *)

Module sample.

Definition conditions : PlantConditions.t :=
  PlantConditions.mk true false true
    (gomap.Map [("Stem borer", true); ("Rats", false); ("Birds", true)]) ""
    false (gomap.Map []) "" false "" false "" false "" false (gomap.Map []) "" false "".

Definition traits (culm : gofmt.float64) : TraitMeasurements.t :=
  TraitMeasurements.mk culm (gofmt.Fin false 1 (-7)) 14 20.

Definition march : Time.t := Time.mk 2024 3 1 10 5 9 19800.

(** A submission of user [u-1] with the given identifier, field and culm
    length. *)
Definition submission (id field_id : string) (culm : gofmt.float64)
  : Submission.t :=
  Submission.mk id "u-1" field_id "Lower paddy"
    (Location.mk (gofmt.Fin false 0 0) (gofmt.Fin true 0 0))
    march "Tillering" conditions (traits culm) "" "Alice"
    ["a,b"; "c"] [] [] "submitted" march march.

Definition one : gofmt.float64 := gofmt.Fin false 1 0.

(** [1 + 2^-23], that is 1.00000011920928955078125. *)
Definition above_one : gofmt.float64 := gofmt.Fin false 8388609 (-23).

Definition sheet : Sheet.t := Sheet.mk "sheet-1" "Observations".

Definition docs : list services.SheetDoc := [services.Doc (Some sheet)].

(** A backend with the one tab of [sheet], with the given rows, that
    answers every call. *)
Definition service (g : list (list string)) : sheets.Service :=
  sheets.mk {[ services.tab sheet := g ]} [].

(** A tab with the header row, a stale row of submission [s-1] with a
    remark in column AN, and a row of submission [s-2]. *)
Definition stale : list (list string) :=
  [ services.headers;
    "s-1" :: replicate 38 "" ++ ["checked"];
    ["s-2"] ].

Definition alice : User.t :=
  User.mk "u-1" "alice@example.org" "Alice" "" "observer" Time.zero Time.zero Time.zero.

Definition bob : User.t :=
  User.mk "u-2" "bob@example.org" "Bob" "" "researcher" Time.zero Time.zero Time.zero.

(** A document store with the given submissions and fields that answers
    every call. *)
Definition client (submissions : list Submission.t) (fields : list Field.t)
  : firestore.Client :=
  firestore.mk
    (list_to_map (map (fun s => (Submission.ID s, s)) submissions))
    (list_to_map (map (fun f => (Field.ID f, f)) fields))
    [].

(** An update request that carries [other_field_name] and nothing else. *)
Definition rename (name : string) : UpdateSubmissionRequest.t :=
  UpdateSubmissionRequest.mk None (Some name) None None None None None None
    None None None None.

(** An update request that carries [field_id] and [other_field_name]. *)
Definition relink (field_id name : string) : UpdateSubmissionRequest.t :=
  UpdateSubmissionRequest.mk (Some field_id) (Some name) None None None None
    None None None None None None.

(** A create request for the given field with the growth stage, the
    observer and the date of the scenario of the specification. *)
Definition request (field_id : string) : CreateSubmissionRequest.t :=
  CreateSubmissionRequest.mk field_id "" (Time.Of (Time.mk 2024 3 1 0 0 0 0)) "Tillering"
    conditions (traits one)
    (Location.mk (gofmt.Fin false 0 0) (gofmt.Fin false 0 0))
    "" "Alice" [] [] [].

Definition uuid : string := "0b0e7a54-7c1c-4f0e-9d53-0c0a4f6f2a11".

End sample.

(** * Properties *)

(** ** The models on known values *)

Example Sprintf_f_half : gofmt.Sprintf_f (gofmt.Fin false 3 (-1)) = "1.500000".
Proof. reflexivity. Qed.

Example Sprintf_f_negative : gofmt.Sprintf_f (gofmt.Fin true 5 (-2)) = "-1.250000".
Proof. reflexivity. Qed.

(** The [float64] nearest to one tenth. *)
Example Sprintf_f_tenth :
  gofmt.Sprintf_f (gofmt.Fin false 7205759403792794 (-56)) = "0.100000".
Proof. reflexivity. Qed.

(** 0.0078125 and 0.0234375 are halfway between two millionths. *)
Example Sprintf_f_ties :
  gofmt.Sprintf_f (gofmt.Fin false 1 (-7)) = "0.007812"
  /\ gofmt.Sprintf_f (gofmt.Fin false 3 (-7)) = "0.023438".
Proof. split; reflexivity. Qed.

Example Sprintf_f_large : gofmt.Sprintf_f (gofmt.Fin false 3 40) = "3298534883328.000000".
Proof. reflexivity. Qed.

Example Sprintf_f_special :
  gofmt.Sprintf_f gofmt.NaN = "NaN"
  /\ gofmt.Sprintf_f (gofmt.Inf false) = "+Inf"
  /\ gofmt.Sprintf_f (gofmt.Fin true 0 0) = "-0.000000".
Proof. repeat split. Qed.

Example FormatRFC3339_examples :
  Time.FormatRFC3339 Time.zero = "0001-01-01T00:00:00Z"
  /\ Time.FormatRFC3339 (Time.mk 2024 3 1 10 5 9 19800) = "2024-03-01T10:05:09+05:30"
  /\ Time.FormatRFC3339 (Time.mk 2024 12 31 23 59 59 (-12600)) = "2024-12-31T23:59:59-03:30".
Proof. repeat split. Qed.

Example Ext_examples :
  utils.Ext "photos/leaf.final.JPG" = ".JPG"
  /\ utils.Ext "dir.v2/readme" = ""
  /\ utils.Ext "archive." = ".".
Proof. repeat split. Qed.

Example ValidateMediaType_examples :
  utils.ValidateMediaType "leaf.JPG" "image" = true
  /\ utils.ValidateMediaType "clip.webm" "audio" = true
  /\ utils.ValidateMediaType "clip.webm" "image" = false
  /\ utils.ValidateMediaType "leaf.jpg" "photo" = false.
Proof. repeat split. Qed.

Example mapToString_example :
  services.mapToString (gomap.Map [("Stem borer", true); ("Rats", false); ("Birds", true)])
  = "Stem borer, Birds".
Proof. reflexivity. Qed.

Example UTC_example :
  Time.UTC (Time.mk 2024 3 1 0 30 0 19800) = Time.mk 2024 2 29 19 0 0 0
  /\ Time.UTC (Time.mk 2023 12 31 23 30 0 (-3600)) = Time.mk 2024 1 1 0 30 0 0
  /\ Time.FormatRFC3339 (Time.UTC (Time.mk 2024 3 1 10 5 9 19800)) = "2024-03-01T04:35:09Z"
  /\ Time.UTC Time.zero = Time.zero.
Proof. repeat split. Qed.

Example populateMap_example :
  firestore.populateMap (gomap.Map [("a", true); ("b", false)])
    (gomap.Map [("b", true); ("c", true)])
  = gomap.Map [("a", true); ("b", true); ("c", true)]
  /\ firestore.populateMap gomap.Nil (gomap.Map [("c", true)]) = gomap.Map [("c", true)]
  /\ firestore.populateMap (gomap.Map [("a", true)]) (gomap.Map []) = gomap.Map [("a", true)]
  /\ firestore.populateMap (gomap.Map [("a", true)]) gomap.Nil = gomap.Nil.
Proof. repeat split. Qed.

Example column_A_example :
  sheets.column_A [["ID"; "UserID"]; []; [""; "note"]; ["s-1"]; [""]; []]
  = [["ID"]; []; []; ["s-1"]].
Proof. reflexivity. Qed.

Example rowIndex_example :
  services.rowIndex [["ID"]; []; ["s-1"]; ["s-2"]; ["s-1"]] "s-1" 0 = 2
  /\ services.rowIndex [["ID"]; []; ["s-1"]] "s-9" 0 = -1.
Proof. split; reflexivity. Qed.

Example prefix_examples :
  handlers.prefix "temp_42" 5 = Some "temp_" /\ handlers.prefix "ab12" 5 = None.
Proof. split; reflexivity. Qed.

(** ** The row codec *)

Section RowCodec.

Variable submission : Submission.t.
Variable fieldName : string.

Lemma submissionToRow_length :
  length (services.submissionToRow submission fieldName) = 39%nat.
Proof. reflexivity. Qed.

Lemma record_submissionToRow :
  handlers.record submission fieldName =
  services.submissionToRow submission fieldName.
Proof. reflexivity. Qed.

End RowCodec.

Lemma header_headers : handlers.header = services.headers.
Proof. reflexivity. Qed.

(** C1, as the specification words it: the row has 37 cells. It has not: the
    row of the sample submission has 39 cells, one for each of the 39
    columns the specification lists. *)
Lemma submissionToRow_not_37_cells :
  length (services.submissionToRow (sample.submission "s-1" "" sample.one) "Lower paddy")
    <> 37%nat
  /\ length services.headers <> 37%nat.
Proof. split; vm_compute; discriminate. Qed.

(** C1, amended: for every submission and every field name the row codec
    returns exactly 39 cells, each under the column of the header row that
    names it, in the published order; the header row of the CSV export is
    the same 39 columns and an exported record is the same row. *)
Theorem submissionToRow_39_cells_in_column_order :
  forall (s : Submission.t) (fieldName : string),
    let conditions := Submission.PlantConditions s in
    let traits := Submission.TraitMeasurements s in
    length (services.submissionToRow s fieldName) = 39%nat
    /\ length services.headers = 39%nat
    /\ handlers.header = services.headers
    /\ handlers.record s fieldName = services.submissionToRow s fieldName
    /\ zip services.headers (services.submissionToRow s fieldName) =
       [ ("ID", Submission.ID s);
         ("UserID", Submission.UserID s);
         ("FieldID", Submission.FieldID s);
         ("FieldName", fieldName);
         ("Date", Time.FormatRFC3339 (Submission.Date s));
         ("GrowthStage", Submission.GrowthStage s);
         ("Notes", Submission.Notes s);
         ("ObserverName", Submission.ObserverName s);
         ("Status", Submission.Status s);
         ("CreatedAt", Time.FormatRFC3339 (Submission.CreatedAt s));
         ("UpdatedAt", Time.FormatRFC3339 (Submission.UpdatedAt s));
         ("Latitude", gofmt.Sprintf_f (Location.Latitude (Submission.Coordinates s)));
         ("Longitude", gofmt.Sprintf_f (Location.Longitude (Submission.Coordinates s)));
         ("CulmLength", gofmt.Sprintf_f (TraitMeasurements.CulmLength traits));
         ("PanicleLength", gofmt.Sprintf_f (TraitMeasurements.PanicleLength traits));
         ("PaniclesPerHill", gofmt.Itoa (TraitMeasurements.PaniclesPerHill traits));
         ("HillsObserved", gofmt.Itoa (TraitMeasurements.HillsObserved traits));
         ("Healthy", gofmt.FormatBool (PlantConditions.Healthy conditions));
         ("Unhealthy", gofmt.FormatBool (PlantConditions.Unhealthy conditions));
         ("SignsOfPestInfestation", gofmt.FormatBool (PlantConditions.SignsOfPestInfestation conditions));
         ("PestDetails", services.mapToString (PlantConditions.PestDetails conditions));
         ("OtherPest", PlantConditions.OtherPest conditions);
         ("SignsOfNutrientDeficiency", gofmt.FormatBool (PlantConditions.SignsOfNutrientDeficiency conditions));
         ("NutrientDeficiencyDetails", services.mapToString (PlantConditions.NutrientDeficiencyDetails conditions));
         ("OtherNutrient", PlantConditions.OtherNutrient conditions);
         ("WaterStress", gofmt.FormatBool (PlantConditions.WaterStress conditions));
         ("WaterStressLevel", PlantConditions.WaterStressLevel conditions);
         ("Lodging", gofmt.FormatBool (PlantConditions.Lodging conditions));
         ("LodgingLevel", PlantConditions.LodgingLevel conditions);
         ("WeedInfestation", gofmt.FormatBool (PlantConditions.WeedInfestation conditions));
         ("WeedInfestationLevel", PlantConditions.WeedInfestationLevel conditions);
         ("DiseaseSymptoms", gofmt.FormatBool (PlantConditions.DiseaseSymptoms conditions));
         ("DiseaseDetails", services.mapToString (PlantConditions.DiseaseDetails conditions));
         ("OtherDisease", PlantConditions.OtherDisease conditions);
         ("Other", gofmt.FormatBool (PlantConditions.Other conditions));
         ("OtherConditionText", PlantConditions.OtherConditionText conditions);
         ("Images", gofmt.Join (Submission.Images s) ",");
         ("Videos", gofmt.Join (Submission.Videos s) ",");
         ("Audio", gofmt.Join (Submission.Audio s) ",") ].
Proof.
  intros s fieldName conditions traits.
  repeat split.
Qed.

(** ** The formats of the cells *)

Lemma FormatBool_true (b : bool) : gofmt.FormatBool b = "true" <-> b = true.
Proof. destruct b; simpl; split; intros H; try reflexivity; discriminate. Qed.

Lemma FormatBool_false (b : bool) : gofmt.FormatBool b = "false" <-> b = false.
Proof. destruct b; simpl; split; intros H; try reflexivity; discriminate. Qed.

(** An integer is read back from its numeral as it was. *)
Lemma Atoi_Itoa (n : Z) : gofmt.Atoi (gofmt.Itoa n) = Some n.
Proof.
  unfold gofmt.Atoi, gofmt.Itoa.
  rewrite NilEmpty.isi. simpl. f_equal. apply DecimalZ.of_to.
Qed.

Lemma length_append (a b : string) :
  String.length (a +:+ b) = (String.length a + String.length b)%nat.
Proof. induction a as [|c a IH]; simpl; [reflexivity | now rewrite IH]. Qed.

Lemma fixed_length (width : nat) (n : Z) :
  String.length (gofmt.fixed width n) = width.
Proof.
  revert n. induction width as [|k IH]; intros n; simpl; [reflexivity|].
  rewrite length_append, IH. simpl. lia.
Qed.

(** [round_half_even] is within half a unit of the quotient. *)
Lemma round_half_even_nearest (num den : Z) :
  0 < den ->
  Z.abs (2 * (gofmt.round_half_even num den * den - num)) <= den.
Proof.
  intros Hden. unfold gofmt.round_half_even.
  pose proof (Z.div_mod num den ltac:(lia)) as Hdm.
  pose proof (Z.mod_pos_bound num den Hden) as Hr.
  set (q := num / den) in *. set (r := num mod den) in *.
  destruct (2 * r <? den) eqn:H1; [apply Z.ltb_lt in H1; nia|].
  apply Z.ltb_ge in H1.
  destruct (den <? 2 * r) eqn:H2; [apply Z.ltb_lt in H2; nia|].
  apply Z.ltb_ge in H2.
  destruct (Z.even q); nia.
Qed.

(** The tie goes to the even neighbour. *)
Lemma round_half_even_tie (num den : Z) :
  0 < den -> 2 * (num mod den) = den ->
  Z.even (gofmt.round_half_even num den) = true.
Proof.
  intros Hden Htie. unfold gofmt.round_half_even.
  rewrite Htie, Z.ltb_irrefl.
  destruct (Z.even (num / den)) eqn:He; [exact He|].
  rewrite Z.even_add, He. reflexivity.
Qed.

(** The millionths of a finite number are the nearest to its exact value
    [numerator / denominator]. *)
Lemma millionths_nearest (mant : N) (exp : Z) :
  Z.abs (2 * (gofmt.millionths mant exp * gofmt.denominator exp
              - gofmt.numerator mant exp * 1000000))
  <= gofmt.denominator exp.
Proof.
  unfold gofmt.millionths, gofmt.denominator, gofmt.numerator.
  destruct (0 <=? exp) eqn:He.
  - replace (Z.of_N mant * 2 ^ exp * 1000000 * 1 - Z.of_N mant * 2 ^ exp * 1000000)
      with 0 by ring.
    simpl. lia.
  - apply Z.leb_gt in He.
    apply round_half_even_nearest. apply Z.pow_pos_nonneg; lia.
Qed.

Lemma selected_keys_from (m : list (string * bool)) (acc : list string) :
  fold_left
    (fun (parts : list string) (entry : string * bool) =>
       if snd entry then parts ++ [fst entry] else parts) m acc
  = acc ++ map fst (List.filter snd m).
Proof.
  revert acc. induction m as [|[k v] m IH]; intros acc; simpl.
  - now rewrite app_nil_r.
  - destruct v; rewrite IH; simpl; [now rewrite <- app_assoc | reflexivity].
Qed.

(** [mapToString] keeps the keys whose value is true and their order. *)
Lemma mapToString_selected (m : gomap.t) :
  services.mapToString m = gofmt.Join (map fst (List.filter snd (gomap.range m))) ", ".
Proof. unfold services.mapToString. now rewrite selected_keys_from. Qed.

(** [strings.Join] neither quotes nor escapes: it is the plain
    concatenation of the standard library. *)
Lemma Join_concat (elems : list string) (sep : string) :
  gofmt.Join elems sep = String.concat sep elems.
Proof.
  induction elems as [|x [|y rest] IH]; simpl; try reflexivity.
  simpl in IH. now rewrite IH.
Qed.

(** *** The layout of the timestamps *)

Section Layout.

Import Time.

Lemma after_app (shape shape' : list Shape) (a rest : string) :
  after shape a = Some "" ->
  after (shape ++ shape') (a +:+ rest) = after shape' rest.
Proof.
  revert a. induction shape as [|p shape IH]; intros a H.
  - destruct a; simpl in H; [reflexivity | discriminate].
  - destruct a as [|c a]; simpl in H; [discriminate|].
    simpl. destruct (fits p c); [now apply IH | discriminate].
Qed.

Lemma after_2_digits (shape' : list Shape) (a rest : string) :
  after [Digit; Digit] a = Some "" ->
  after (Digit :: Digit :: shape') (a +:+ rest) = after shape' rest.
Proof. exact (after_app [Digit; Digit] shape' a rest). Qed.

Lemma after_4_digits (shape' : list Shape) (a rest : string) :
  after [Digit; Digit; Digit; Digit] a = Some "" ->
  after (Digit :: Digit :: Digit :: Digit :: shape') (a +:+ rest) = after shape' rest.
Proof. exact (after_app [Digit; Digit; Digit; Digit] shape' a rest). Qed.

Lemma after_byte (c : ascii) (shape' : list Shape) (rest : string) :
  after (Byte c :: shape') (String c rest) = after shape' rest.
Proof. simpl. now rewrite Ascii.eqb_refl. Qed.

(** A property checked on every number below a bound holds of every
    number in the range. *)
Lemma below_checked (P : Z -> bool) (bound n : Z) :
  forallb (fun k => P (Z.of_nat k)) (seq 0 (Z.to_nat bound)) = true ->
  0 <= n < bound -> P n = true.
Proof.
  intros Hall Hn. rewrite forallb_forall in Hall.
  specialize (Hall (Z.to_nat n)).
  rewrite Z2Nat.id in Hall by lia. apply Hall.
  apply in_seq. lia.
Qed.

Lemma shaped_after (shape : list Shape) (s : string) :
  shaped shape s = true -> after shape s = Some "".
Proof.
  unfold shaped. destruct (after shape s) as [[|c r]|]; intros H;
    [reflexivity | discriminate | discriminate].
Qed.

Lemma appendInt_2_digits (n : Z) :
  0 <= n <= 99 -> after [Digit; Digit] (gofmt.appendInt n 2) = Some "".
Proof.
  intros Hn. apply shaped_after.
  apply (below_checked (fun n => shaped [Digit; Digit] (gofmt.appendInt n 2)) 100);
    [vm_compute; reflexivity | lia].
Qed.

Lemma appendInt_4_digits (n : Z) :
  0 <= n <= 9999 ->
  after [Digit; Digit; Digit; Digit] (gofmt.appendInt n 4) = Some "".
Proof.
  intros Hn. apply shaped_after.
  apply (below_checked
           (fun n => shaped [Digit; Digit; Digit; Digit] (gofmt.appendInt n 4)) 10000);
    [vm_compute; reflexivity | lia].
Qed.

Lemma zone_shape (off : Z) :
  -86400 < off < 86400 ->
  zone off = "Z" \/
  after [Sign; Digit; Digit; Byte ":"; Digit; Digit] (zone off) = Some "".
Proof.
  intros Hoff. unfold zone.
  destruct (off =? 0) eqn:H0; [now left | right].
  set (z := Z.quot off 60).
  assert (Hz : -1440 <= z <= 1440).
  { unfold z. split.
    - apply Z.quot_le_lower_bound; lia.
    - apply Z.quot_le_upper_bound; lia. }
  assert (Hh : 0 <= Z.quot (Z.abs z) 60 <= 99).
  { split; [apply Z.quot_pos; lia | apply Z.quot_le_upper_bound; lia]. }
  assert (Hm : 0 <= Z.rem (Z.abs z) 60 <= 99).
  { pose proof (Z.rem_bound_pos (Z.abs z) 60 ltac:(lia) ltac:(lia)). lia. }
  assert (Hsign : forall rest,
             after (Sign :: [Digit; Digit; Byte ":"; Digit; Digit])
               ((if z <? 0 then "-" else "+") +:+ rest)
             = after [Digit; Digit; Byte ":"; Digit; Digit] rest).
  { intros rest. destruct (z <? 0); reflexivity. }
  rewrite Hsign.
  rewrite after_2_digits by now apply appendInt_2_digits.
  change (":" +:+ gofmt.appendInt (Z.rem (Z.abs z) 60) 2)
    with (String ":" (gofmt.appendInt (Z.rem (Z.abs z) 60) 2)).
  rewrite after_byte.
  now apply appendInt_2_digits.
Qed.

(** A well-formed time is written in the layout of RFC 3339. *)
Lemma FormatRFC3339_layout (a : t) :
  wf a -> is_rfc3339 (FormatRFC3339 a) = true.
Proof.
  intros (Hy & Hmo & Hd & Hh & Hmi & Hs & Hoff).
  unfold is_rfc3339, FormatRFC3339.
  rewrite after_4_digits by (apply appendInt_4_digits; lia).
  change ("-" +:+ ?x) with (String "-" x). rewrite after_byte.
  rewrite after_2_digits by (apply appendInt_2_digits; lia).
  change ("-" +:+ ?x) with (String "-" x). rewrite after_byte.
  rewrite after_2_digits by (apply appendInt_2_digits; lia).
  change ("T" +:+ ?x) with (String "T" x). rewrite after_byte.
  rewrite after_2_digits by (apply appendInt_2_digits; lia).
  change (":" +:+ ?x) with (String ":" x). rewrite after_byte.
  rewrite after_2_digits by (apply appendInt_2_digits; lia).
  change (":" +:+ ?x) with (String ":" x). rewrite after_byte.
  rewrite after_2_digits by (apply appendInt_2_digits; lia).
  change (after [] ?x) with (Some x). cbv beta iota.
  destruct (zone_shape (offset a) Hoff) as [HZ | Hoffset].
  - rewrite HZ. reflexivity.
  - rewrite Hoffset. apply orb_true_r.
Qed.

End Layout.

(** C8, as the specification words it: numeric cells have full decimal
    precision, nothing is rounded. The culm length 1.00000011920928955078125
    (that is [1 + 2^-23]) is written [1.000000]: the cell is rounded, and the
    row is the row of the submission whose culm length is 1. *)
Lemma CulmLength_cell_is_rounded :
  let s := sample.submission "s-1" "" sample.above_one in
  services.submissionToRow s "" !! 13%nat = Some "1.000000"
  /\ ~ gofmt.unrounded (TraitMeasurements.CulmLength (Submission.TraitMeasurements s))
  /\ services.submissionToRow s "" =
     services.submissionToRow (sample.submission "s-1" "" sample.one) "".
Proof.
  split; [reflexivity|]. split; [|reflexivity].
  vm_compute. discriminate.
Qed.

(** Every cell of a list of cells, one after the other. *)
Ltac cells tac :=
  repeat (apply List.Forall_cons; [cbv beta iota; tac |]); apply List.Forall_nil.

(** C8, amended: in the row of every submission, dates are written in the
    layout of RFC 3339 (whenever their fields are in range), booleans as
    [true] and [false], the two counts as their decimal numerals, from which
    they are read back unchanged, the four measurements and coordinates with
    exactly six digits after the point, rounded to the nearest millionth
    (ties to even), the multi-select maps as the keys whose value is true, in
    the order of the iteration, joined by a comma and a space, and the lists
    of media URLs joined by commas as they are. *)
Theorem submissionToRow_cell_formats :
  forall (s : Submission.t) (fieldName : string),
    let row := services.submissionToRow s fieldName in
    let conditions := Submission.PlantConditions s in
    let traits := Submission.TraitMeasurements s in
    let coordinates := Submission.Coordinates s in
    (* dates *)
    Forall (fun '(i, a) =>
              row !! i = Some (Time.FormatRFC3339 a)
              /\ (Time.wf a -> Time.is_rfc3339 (Time.FormatRFC3339 a) = true))
      [ (4%nat, Submission.Date s); (9%nat, Submission.CreatedAt s);
        (10%nat, Submission.UpdatedAt s) ]
    (* booleans *)
    /\ Forall (fun '(i, b) => row !! i = Some (if b : bool then "true" else "false"))
      [ (17%nat, PlantConditions.Healthy conditions);
        (18%nat, PlantConditions.Unhealthy conditions);
        (19%nat, PlantConditions.SignsOfPestInfestation conditions);
        (22%nat, PlantConditions.SignsOfNutrientDeficiency conditions);
        (25%nat, PlantConditions.WaterStress conditions);
        (27%nat, PlantConditions.Lodging conditions);
        (29%nat, PlantConditions.WeedInfestation conditions);
        (31%nat, PlantConditions.DiseaseSymptoms conditions);
        (34%nat, PlantConditions.Other conditions) ]
    (* counts *)
    /\ Forall (fun '(i, n) =>
                 row !! i = Some (gofmt.Itoa n)
                 /\ gofmt.Atoi (gofmt.Itoa n) = Some n)
      [ (15%nat, TraitMeasurements.PaniclesPerHill traits);
        (16%nat, TraitMeasurements.HillsObserved traits) ]
    (* measurements and coordinates *)
    /\ Forall (fun '(i, x) =>
                 row !! i = Some (gofmt.Sprintf_f x)
                 /\ forall neg mant exp, x = gofmt.Fin neg mant exp ->
                      let q := gofmt.millionths mant exp in
                      gofmt.Sprintf_f x =
                        (if neg then "-" else "") +:+ gofmt.Itoa (q / 1000000)
                          +:+ "." +:+ gofmt.fixed 6 (q mod 1000000)
                      /\ String.length (gofmt.fixed 6 (q mod 1000000)) = 6%nat
                      /\ Z.abs (2 * (q * gofmt.denominator exp
                                     - gofmt.numerator mant exp * 1000000))
                         <= gofmt.denominator exp)
      [ (11%nat, Location.Latitude coordinates);
        (12%nat, Location.Longitude coordinates);
        (13%nat, TraitMeasurements.CulmLength traits);
        (14%nat, TraitMeasurements.PanicleLength traits) ]
    (* multi-select maps *)
    /\ Forall (fun '(i, m) =>
                 row !! i = Some (gofmt.Join (map fst (List.filter snd (gomap.range m))) ", "))
      [ (20%nat, PlantConditions.PestDetails conditions);
        (23%nat, PlantConditions.NutrientDeficiencyDetails conditions);
        (32%nat, PlantConditions.DiseaseDetails conditions) ]
    (* media *)
    /\ Forall (fun '(i, urls) => row !! i = Some (String.concat "," urls))
      [ (36%nat, Submission.Images s); (37%nat, Submission.Videos s);
        (38%nat, Submission.Audio s) ].
Proof.
  intros s fieldName row conditions traits coordinates.
  repeat apply conj.
  - cells ltac:(split; [reflexivity | apply FormatRFC3339_layout]).
  - cells ltac:(reflexivity).
  - cells ltac:(split; [reflexivity | apply Atoi_Itoa]).
  - cells ltac:(split;
                [ reflexivity
                | intros neg mant exp Hx q; rewrite Hx;
                  split; [reflexivity | split; [apply fixed_length | apply millionths_nearest]] ]).
  - cells ltac:(cbn [lookup]; simpl; rewrite <- mapToString_selected; reflexivity).
  - cells ltac:(simpl; rewrite <- Join_concat; reflexivity).
Qed.

(** The amended C8 on the sample submission. *)
Lemma submissionToRow_cell_formats_witness :
  let s := sample.submission "s-1" "" sample.above_one in
  services.submissionToRow s "Lower paddy" !! 4%nat = Some "2024-03-01T10:05:09+05:30"
  /\ Time.is_rfc3339 "2024-03-01T10:05:09+05:30" = true.
Proof.
  intros s.
  pose proof (submissionToRow_cell_formats s "Lower paddy") as (Hdates & _).
  apply Forall_cons_1 in Hdates as [[Hcell Hlayout] _].
  split; [exact Hcell|].
  apply Hlayout. unfold Time.wf. simpl. lia.
Defined.

(** ** The spreadsheet mirror *)

Section Mirror.

Import sheets.

Lemma rstrip_cons {A : Type} (p : A -> bool) (x : A) (l : list A) :
  rstrip p (x :: l) =
  match rstrip p l with
  | [] => if p x then [] else [x]
  | y :: l' => x :: y :: l'
  end.
Proof. unfold rstrip. simpl. now destruct (fold_right _ _ l). Qed.

(** The empty rows at the end of the range do not matter to the scan. *)
Lemma rowIndex_rstrip (values : list (list string)) (id : string) (k : Z) :
  services.rowIndex (rstrip empty_row values) id k = services.rowIndex values id k.
Proof.
  revert k. induction values as [|row values IH]; intros k; [reflexivity|].
  rewrite rstrip_cons. specialize (IH (k + 1)).
  destruct (rstrip empty_row values) as [|y l'].
  - simpl in IH. destruct row as [|c row]; simpl; [exact IH|].
    destruct (String.eqb c id); [reflexivity | exact IH].
  - destruct row as [|c row]; simpl; [exact IH|].
    destruct (String.eqb c id); [reflexivity | exact IH].
Qed.

Lemma strip_cell (r : list string) :
  rstrip empty_cell (take 1 r) =
  match cell_A r with Some c => [c] | None => [] end.
Proof.
  destruct r as [|c r]; [reflexivity|].
  simpl. unfold cell_A. destruct (empty_cell c); reflexivity.
Qed.

(** The scan of the code finds the row the specification speaks of. *)
Lemma rowIndex_cells (g : list (list string)) (ident : string) (k : Z) :
  services.rowIndex (map (fun r => rstrip empty_cell (take 1 r)) g) ident k =
  match first_row_with ident g with
  | Some i => k + Z.of_nat i
  | None => -1
  end.
Proof.
  unfold first_row_with.
  revert k. induction g as [|r g IH]; intros k; [reflexivity|].
  cbn [map services.rowIndex list_find]. rewrite strip_cell.
  destruct (decide (cell_A r = Some ident)) as [Hhit | Hmiss].
  - rewrite Hhit, String.eqb_refl. simpl. lia.
  - assert (Hrest :
      services.rowIndex (map (fun r => rstrip empty_cell (take 1 r)) g) ident (k + 1) =
      match fst <$> (prod_map S id <$> list_find (fun r => cell_A r = Some ident) g)
      with Some i => k + Z.of_nat i | None => -1 end).
    { rewrite IH.
      destruct (list_find (fun r => cell_A r = Some ident) g) as [[i x]|]; simpl; lia. }
    destruct (cell_A r) as [c|] eqn:Hc; [|exact Hrest].
    destruct (String.eqb_spec c ident) as [-> | Hne]; [congruence | exact Hrest].
Qed.

Lemma rowIndex_column_A (g : list (list string)) (id : string) :
  services.rowIndex (column_A g) id 0 =
  match first_row_with id g with
  | Some i => Z.of_nat i
  | None => -1
  end.
Proof. unfold column_A. rewrite rowIndex_rstrip. apply rowIndex_cells. Qed.

(** The first row with an identifier is the first one. *)
Lemma first_row_with_spec (id : string) (g : list (list string)) (i : nat) :
  first_row_with id g = Some i <->
  exists old,
    g !! i = Some old /\ cell_A old = Some id /\
    forall j r, g !! j = Some r -> (j < i)%nat -> cell_A r <> Some id.
Proof.
  unfold first_row_with. split.
  - destruct (list_find _ g) as [[i' old]|] eqn:Hfind; simpl; [|discriminate].
    intros [= <-]. exists old. now apply list_find_Some in Hfind.
  - intros (old & Hfind).
    assert (Hfound : list_find (fun r => cell_A r = Some id) g = Some (i, old))
      by now apply list_find_Some.
    now rewrite Hfound.
Qed.

Lemma first_row_with_none (id : string) (g : list (list string)) :
  first_row_with id g = None <->
  forall j r, g !! j = Some r -> cell_A r <> Some id.
Proof.
  unfold first_row_with. split.
  - destruct (list_find _ g) as [[i' old]|] eqn:Hfind; simpl; [discriminate|].
    intros _ j r Hj. apply list_find_None in Hfind.
    rewrite Forall_lookup in Hfind. now apply (Hfind j).
  - intros Hnone.
    assert (Hfind : list_find (fun r => cell_A r = Some id) g = None).
    { apply list_find_None, Forall_lookup. exact Hnone. }
    now rewrite Hfind.
Qed.

(** *** A backend that answers every call *)

Lemma updateSheet_quiet (submission : Submission.t) (fieldName : string)
  (s : Service) (sheet : Sheet.t) :
  outages s = [] ->
  services.updateSheet submission fieldName s sheet =
  mk (alter (services.updated submission fieldName) (services.tab sheet) (tabs s)) [].
Proof.
  intros Hquiet.
  unfold services.updateSheet, services.appendRow, Get, Append, Update, fails, next.
  rewrite Hquiet. cbn [tail outages tabs].
  fold (services.tab sheet).
  rewrite alter_alt.
  destruct (tabs s !! services.tab sheet) as [g|] eqn:Hg; cbn [fmap option_fmap option_map];
    [|reflexivity].
  cbn [read]. rewrite rowIndex_column_A. unfold services.updated.
  destruct (first_row_with (Submission.ID submission) g) as [i|] eqn:Hrow.
  - destruct (Z.eqb_spec (Z.of_nat i) (-1)) as [Hneg|_]; [lia|].
    cbn [snd start_row write_rows].
    replace (Z.to_nat (Z.of_nat i + 1 - 1)) with i by lia.
    apply first_row_with_spec in Hrow as (old & Hold & _).
    apply lookup_lt_Some in Hold.
    unfold write_row. rewrite decide_True by exact Hold. reflexivity.
  - rewrite Z.eqb_refl. reflexivity.
Qed.

Lemma append_quiet (row : list string) (s : Service) (sheet : Sheet.t) :
  outages s = [] ->
  snd (Append (Sheet.SpreadsheetID sheet) (Sheet.SpreadsheetName sheet) [row] s) =
  mk (alter (fun g => g ++ [row]) (services.tab sheet) (tabs s)) [].
Proof.
  intros Hquiet. unfold Append, fails, next. rewrite Hquiet. cbn [tail].
  fold (services.tab sheet). rewrite alter_alt.
  now destruct (tabs s !! services.tab sheet).
Qed.

(** A loop whose body alters the tab of its sheet, on a backend that
    answers every call. *)
Lemma loop_quiet (body : Service -> Sheet.t -> Service)
  (change : list (list string) -> list (list string)) :
  (forall s sheet, outages s = [] ->
     body s sheet = mk (alter change (services.tab sheet) (tabs s)) []) ->
  forall registered s, outages s = [] ->
    fold_left body registered s =
    mk (fold_left (fun t sheet => alter change (services.tab sheet) t) registered (tabs s)) [].
Proof.
  intros Hbody registered.
  induction registered as [|sheet registered IH]; intros s Hquiet.
  - destruct s as [t o]. simpl in *. now subst.
  - cbn [fold_left]. rewrite Hbody by exact Hquiet. now rewrite IH.
Qed.

(** Tabs that are registered once are altered once, the others not at
    all. *)
Lemma altered_tabs (change : list (list string) -> list (list string))
  (registered : list Sheet.t) (t : gmap (string * string) (list (list string)))
  (k : string * string) :
  NoDup (map services.tab registered) ->
  fold_left (fun t sheet => alter change (services.tab sheet) t) registered t !! k =
  if bool_decide (k ∈ map services.tab registered)
  then change <$> t !! k else t !! k.
Proof.
  revert t. induction registered as [|sheet registered IH]; intros t Hnodup.
  - cbn [fold_left map]. rewrite bool_decide_false by apply not_elem_of_nil. reflexivity.
  - cbn [fold_left map] in *. inversion Hnodup as [|? ? Hfresh Hrest]; subst.
    rewrite <- list_elem_of_In in Hfresh.
    rewrite IH by exact Hrest.
    destruct (decide (services.tab sheet = k)) as [<- | Hother].
    + rewrite bool_decide_false by exact Hfresh.
      rewrite bool_decide_true by apply list_elem_of_here.
      apply lookup_alter_eq.
    + rewrite lookup_alter_ne by exact Hother.
      destruct (bool_decide (k ∈ map services.tab registered)) eqn:Hin.
      * apply bool_decide_eq_true in Hin.
        rewrite bool_decide_true by now apply list_elem_of_further.
        reflexivity.
      * apply bool_decide_eq_false in Hin.
        rewrite bool_decide_false; [reflexivity|].
        intros Hin'. apply elem_of_cons in Hin' as [Heq | Hin']; [now apply Hother | now apply Hin].
Qed.

End Mirror.

Section MirrorClaims.

Import sheets.

Lemma cell_A_row (submission : Submission.t) (fieldName : string) :
  Submission.ID submission <> "" ->
  cell_A (services.submissionToRow submission fieldName) = Some (Submission.ID submission).
Proof.
  intros Hid. cbn [services.submissionToRow cell_A]. unfold empty_cell.
  destruct (String.eqb_spec (Submission.ID submission) ""); [contradiction | reflexivity].
Qed.

Lemma rows_with_app (id : string) (g g' : list (list string)) :
  rows_with id (g ++ g') = (rows_with id g + rows_with id g')%nat.
Proof. unfold rows_with. now rewrite List.filter_app, length_app. Qed.

Lemma rows_with_none (id : string) (g : list (list string)) :
  rows_with id g = 0%nat ->
  forall j r, g !! j = Some r -> cell_A r <> Some id.
Proof.
  unfold rows_with. induction g as [|x g IH]; intros Hnone j r Hj; [discriminate|].
  cbn [List.filter] in Hnone.
  destruct (bool_decide (cell_A x = Some id)) eqn:Hx; [discriminate|].
  apply bool_decide_eq_false in Hx.
  destruct j as [|j]; simpl in Hj; [now injection Hj as <- | now apply (IH Hnone j)].
Qed.

(** After an append on a tab without the identifier, the update finds the
    appended row and overwrites it. *)
Lemma updated_appended (created updated : Submission.t) (fieldName fieldName' : string)
  (g : list (list string)) :
  Submission.ID updated = Submission.ID created ->
  Submission.ID created <> "" ->
  rows_with (Submission.ID created) g = 0%nat ->
  services.updated updated fieldName' (g ++ [services.submissionToRow created fieldName]) =
  g ++ [services.submissionToRow updated fieldName'].
Proof.
  intros Hsame Hid Hnone. unfold services.updated. rewrite Hsame.
  assert (Hrow : first_row_with (Submission.ID created)
                   (g ++ [services.submissionToRow created fieldName]) = Some (length g)).
  { apply first_row_with_spec.
    exists (services.submissionToRow created fieldName). split; [|split].
    - now rewrite list_lookup_middle.
    - now apply cell_A_row.
    - intros j r Hj Hlt. rewrite lookup_app_l in Hj by exact Hlt.
      now apply (rows_with_none _ _ Hnone j). }
  rewrite Hrow.
  replace (length g) with (length g + 0)%nat at 1 by lia.
  rewrite alter_app_r. reflexivity.
Qed.

(** A row with the identifier that is replaced by a row with the
    identifier: as many rows have it as before. *)
Lemma rows_with_alter (id : string) (change : list string -> list string)
  (g : list (list string)) (i : nat) (old : list string) :
  g !! i = Some old ->
  cell_A old = Some id -> cell_A (change old) = Some id ->
  rows_with id (alter change i g) = rows_with id g.
Proof.
  unfold rows_with. revert i.
  induction g as [|r g IH]; intros i Hold Hid Hchanged; [discriminate|].
  destruct i as [|i]; simpl in Hold.
  - injection Hold as ->. cbn [alter list_alter List.filter].
    now rewrite !bool_decide_true by assumption.
  - cbn [alter list_alter List.filter].
    destruct (bool_decide (cell_A r = Some id)); cbn [length];
      [f_equal|]; now apply IH.
Qed.

(** After an append, the update adds no row and no row with the
    identifier. *)
Lemma updated_after_append (created updated : Submission.t) (fieldName fieldName' : string)
  (g : list (list string)) :
  Submission.ID updated = Submission.ID created ->
  Submission.ID created <> "" ->
  let g' :=
    services.updated updated fieldName' (g ++ [services.submissionToRow created fieldName]) in
  length g' = S (length g)
  /\ rows_with (Submission.ID created) g' = S (rows_with (Submission.ID created) g).
Proof.
  intros Hsame Hid g'. subst g'. unfold services.updated. rewrite Hsame.
  set (row := services.submissionToRow created fieldName).
  assert (Hrow : cell_A row = Some (Submission.ID created)) by now apply cell_A_row.
  assert (Hcount : rows_with (Submission.ID created) (g ++ [row])
                   = S (rows_with (Submission.ID created) g)).
  { rewrite rows_with_app. unfold rows_with at 2. cbn [List.filter].
    rewrite bool_decide_true by exact Hrow. simpl. lia. }
  destruct (first_row_with (Submission.ID created) (g ++ [row])) as [i|] eqn:Hfirst.
  - apply first_row_with_spec in Hfirst as (old & Hold & Hmatch & _).
    split.
    + rewrite length_alter, length_app. simpl. lia.
    + rewrite (rows_with_alter _ _ _ i old Hold Hmatch); [exact Hcount|].
      cbn [services.submissionToRow app cell_A]. unfold empty_cell.
      rewrite Hsame.
      destruct (String.eqb_spec (Submission.ID created) ""); [contradiction | reflexivity].
  - exfalso.
    apply (proj1 (first_row_with_none _ _) Hfirst (length g) row);
      [now rewrite list_lookup_middle | exact Hrow].
Qed.

(** Whatever the backend does, one turn of the loop of an update either
    leaves every tab as it is or makes of the tab of its sheet what the
    update is to make of it. *)
Lemma updateSheet_best_effort (submission : Submission.t) (fieldName : string)
  (s : Service) (sheet : Sheet.t) :
  tabs (services.updateSheet submission fieldName s sheet) = tabs s
  \/ tabs (services.updateSheet submission fieldName s sheet) =
     alter (services.updated submission fieldName) (services.tab sheet) (tabs s).
Proof.
  unfold services.updateSheet, services.appendRow, Get, Append, Update.
  fold (services.tab sheet).
  destruct (fails s); [now left|].
  destruct (tabs s !! services.tab sheet) as [g|] eqn:Hg;
    cbn [fmap option_fmap option_map]; [|now left].
  cbn [read]. rewrite rowIndex_column_A.
  rewrite alter_alt, Hg. unfold services.updated.
  destruct (first_row_with (Submission.ID submission) g) as [i|] eqn:Hrow.
  - destruct (Z.eqb_spec (Z.of_nat i) (-1)) as [Hneg|_]; [lia|].
    destruct (fails (next s)); [now left|].
    cbn [tabs next]. rewrite Hg. right. cbn [snd tabs start_row write_rows].
    replace (Z.to_nat (Z.of_nat i + 1 - 1)) with i by lia.
    apply first_row_with_spec in Hrow as (old & Hold & _).
    apply lookup_lt_Some in Hold.
    unfold write_row. now rewrite decide_True by exact Hold.
  - rewrite Z.eqb_refl.
    destruct (fails (next s)); [now left|].
    cbn [tabs next]. rewrite Hg. now right.
Qed.

(** A loop whose turns alter the tab of their sheet or nothing: a tab is
    as it was or, if its sheet is registered, altered. *)
Lemma loop_best_effort (body : Service -> Sheet.t -> Service)
  (change : list (list string) -> list (list string)) :
  (forall s sheet,
     tabs (body s sheet) = tabs s
     \/ tabs (body s sheet) = alter change (services.tab sheet) (tabs s)) ->
  forall (registered : list Sheet.t) (s : Service) (k : string * string),
    NoDup (map services.tab registered) ->
    tabs (fold_left body registered s) !! k = tabs s !! k
    \/ (k ∈ map services.tab registered
        /\ tabs (fold_left body registered s) !! k = change <$> tabs s !! k).
Proof.
  intros Hbody registered.
  induction registered as [|sheet registered IH]; intros s k Hnodup; [now left|].
  cbn [fold_left map] in *. inversion Hnodup as [|? ? Hfresh Hrest]; subst.
  rewrite <- list_elem_of_In in Hfresh.
  destruct (IH (body s sheet) k Hrest) as [Hsame | [Hin Hchanged]];
    destruct (Hbody s sheet) as [Hturn | Hturn]; rewrite Hturn in *.
  - now left.
  - destruct (decide (services.tab sheet = k)) as [<- | Hother].
    + right. split; [apply list_elem_of_here|]. now rewrite Hsame, lookup_alter_eq.
    + left. now rewrite Hsame, lookup_alter_ne.
  - right. split; [now apply list_elem_of_further | exact Hchanged].
  - destruct (decide (services.tab sheet = k)) as [<- | Hother]; [contradiction|].
    right. split; [now apply list_elem_of_further|].
    now rewrite Hchanged, lookup_alter_ne.
Qed.

End MirrorClaims.

(** C2: once the registered sheets are read, [UpdateSubmission] returns no
    error, whatever the backend does. Its scan of column A yields the index
    of the first row whose cell in column A is the identifier, [-1] when
    there is none. In every sheet that is registered (once), that row is
    overwritten in place, at the index of the scan, by the 39 cells of the
    submission, and when no row has the identifier the row of the submission
    is appended below the last row: always so on a backend that answers, and
    otherwise the tab is left as it was. *)
Theorem UpdateSubmission_overwrites_or_appends :
  forall (docs : list services.SheetDoc) (registered : list Sheet.t)
         (submission : Submission.t) (fieldName : string) (s : sheets.Service),
    services.fetchSheets docs = Some registered ->
    let ident := Submission.ID submission in
    let row := services.submissionToRow submission fieldName in
    let result := services.UpdateSubmission docs submission fieldName s in
    let updated (g : list (list string)) :=
      match sheets.first_row_with ident g with
      | Some i => alter (fun old => row ++ drop 39 old) i g
      | None => g ++ [row]
      end in
    fst result = None
    /\ (forall g : list (list string),
          services.rowIndex (sheets.read sheets.A_A g) ident 0 =
          match sheets.first_row_with ident g with
          | Some i => Z.of_nat i
          | None => -1
          end)
    /\ (forall (g : list (list string)) (i : nat),
          sheets.first_row_with ident g = Some i <->
          exists old,
            g !! i = Some old /\ sheets.cell_A old = Some ident /\
            forall j r, g !! j = Some r -> (j < i)%nat -> sheets.cell_A r <> Some ident)
    /\ (NoDup (map services.tab registered) ->
        forall (sheet : Sheet.t) (g : list (list string)),
          sheet ∈ registered ->
          sheets.tabs s !! services.tab sheet = Some g ->
          (sheets.tabs (snd result) !! services.tab sheet = Some g
           \/ sheets.tabs (snd result) !! services.tab sheet = Some (updated g))
          /\ (sheets.outages s = [] ->
              sheets.tabs (snd result) !! services.tab sheet = Some (updated g))).
Proof.
  intros docs registered submission fieldName s Hfetch ident row result updated.
  subst result. unfold services.UpdateSubmission. rewrite Hfetch. cbn [fst snd].
  split; [reflexivity|]. split; [intros g; apply rowIndex_column_A|].
  split; [intros g i; apply first_row_with_spec|].
  intros Hnodup sheet g Hin Hg.
  assert (Hreg : services.tab sheet ∈ map services.tab registered)
    by (apply list_elem_of_fmap; now exists sheet).
  split.
  - destruct (loop_best_effort (services.updateSheet submission fieldName)
                (services.updated submission fieldName)
                (updateSheet_best_effort submission fieldName)
                registered s (services.tab sheet) Hnodup)
      as [Hsame | [_ Hchanged]].
    + left. now rewrite Hsame.
    + right. now rewrite Hchanged, Hg.
  - intros Hquiet.
    rewrite (loop_quiet _ (services.updated submission fieldName))
      by (try exact Hquiet; intros; now apply updateSheet_quiet).
    cbn [sheets.tabs]. rewrite altered_tabs by exact Hnodup.
    rewrite bool_decide_true by exact Hreg.
    now rewrite Hg.
Qed.

(** C2 on the sample tab: the stale row of [s-1] is overwritten where it is,
    the remark beyond the 39 cells stays, and so do the other rows. *)
Lemma UpdateSubmission_overwrites_or_appends_witness :
  let submission := sample.submission "s-1" "" sample.one in
  let result :=
    services.UpdateSubmission sample.docs submission "Lower paddy"
      (sample.service sample.stale) in
  fst result = None
  /\ sheets.tabs (snd result) !! services.tab sample.sheet =
     Some [ services.headers;
            services.submissionToRow submission "Lower paddy" ++ ["checked"];
            ["s-2"] ].
Proof.
  intros submission result.
  destruct (UpdateSubmission_overwrites_or_appends
              sample.docs [sample.sheet] submission "Lower paddy"
              (sample.service sample.stale) eq_refl)
    as (Hnil & _ & _ & Htab).
  split; [exact Hnil|]. subst result.
  assert (Honce : List.NoDup (map services.tab [sample.sheet])).
  { constructor; [intros [] | constructor]. }
  destruct (Htab Honce sample.sheet sample.stale
              (list_elem_of_here _ _) (lookup_singleton_eq _ _)) as [_ Hquiet].
  rewrite (Hquiet eq_refl).
  reflexivity.
Defined.

(** C3: on a backend that answers, for sheets that are registered once and
    an identifier that is not empty, appending a submission and then
    updating it adds one row to every registered tab, and one row with the
    identifier in column A: the update adds none. A tab that had no row with
    the identifier ends as the rows it had and below them the row of the
    update, so that exactly one of its rows has the identifier. *)
Theorem AppendSubmission_then_UpdateSubmission_one_row :
  forall (docs : list services.SheetDoc) (registered : list Sheet.t)
         (created updated : Submission.t) (fieldName fieldName' : string)
         (s : sheets.Service),
    services.fetchSheets docs = Some registered ->
    NoDup (map services.tab registered) ->
    sheets.outages s = [] ->
    Submission.ID updated = Submission.ID created ->
    Submission.ID created <> "" ->
    let s1 := snd (services.AppendSubmission docs created fieldName s) in
    let s2 := snd (services.UpdateSubmission docs updated fieldName' s1) in
    forall (sheet : Sheet.t) (g : list (list string)),
      sheet ∈ registered ->
      sheets.tabs s !! services.tab sheet = Some g ->
      exists g',
        sheets.tabs s2 !! services.tab sheet = Some g'
        /\ length g' = S (length g)
        /\ sheets.rows_with (Submission.ID created) g'
           = S (sheets.rows_with (Submission.ID created) g)
        /\ (sheets.rows_with (Submission.ID created) g = 0%nat ->
            g' = g ++ [services.submissionToRow updated fieldName']
            /\ sheets.rows_with (Submission.ID created) g' = 1%nat).
Proof.
  intros docs registered created updated fieldName fieldName' s
    Hfetch Hnodup Hquiet Hsame Hid s1 s2 sheet g Hin Hg.
  assert (Hreg : bool_decide (services.tab sheet ∈ map services.tab registered) = true).
  { apply bool_decide_eq_true, list_elem_of_fmap. now exists sheet. }
  assert (Hs1 : s1 =
    sheets.mk
      (fold_left
         (fun t sheet =>
            alter (fun g => g ++ [services.submissionToRow created fieldName])
              (services.tab sheet) t)
         registered (sheets.tabs s)) []).
  { subst s1. unfold services.AppendSubmission. rewrite Hfetch. cbn [snd].
    apply (loop_quiet
             (fun s sheet =>
                snd (sheets.Append (Sheet.SpreadsheetID sheet) (Sheet.SpreadsheetName sheet)
                       [services.submissionToRow created fieldName] s))
             (fun g => g ++ [services.submissionToRow created fieldName]));
      [intros; now apply append_quiet | exact Hquiet]. }
  assert (Hs2 : sheets.tabs s2 !! services.tab sheet =
                Some (services.updated updated fieldName'
                        (g ++ [services.submissionToRow created fieldName]))).
  { subst s2. unfold services.UpdateSubmission. rewrite Hfetch. cbn [snd].
    rewrite (loop_quiet _ (services.updated updated fieldName'))
      by (try (rewrite Hs1; reflexivity); intros; now apply updateSheet_quiet).
    cbn [sheets.tabs]. rewrite altered_tabs by exact Hnodup.
    rewrite Hreg, Hs1. cbn [sheets.tabs].
    rewrite altered_tabs by exact Hnodup.
    rewrite Hreg, Hg. reflexivity. }
  destruct (updated_after_append created updated fieldName fieldName' g Hsame Hid)
    as [Hlength Hcount].
  eexists. split; [exact Hs2|]. split; [exact Hlength|]. split; [exact Hcount|].
  intros Hnone. split.
  - now apply updated_appended.
  - now rewrite Hcount, Hnone.
Qed.

(** C3 on the sample tab with the header row only. *)
Lemma AppendSubmission_then_UpdateSubmission_one_row_witness :
  let created := sample.submission "s-1" "" sample.one in
  let updated := sample.submission "s-1" "others" sample.above_one in
  let s1 := snd (services.AppendSubmission sample.docs created "" (sample.service [services.headers])) in
  let s2 := snd (services.UpdateSubmission sample.docs updated "Lower paddy" s1) in
  exists g',
    sheets.tabs s2 !! services.tab sample.sheet = Some g'
    /\ g' = [services.headers; services.submissionToRow updated "Lower paddy"]
    /\ sheets.rows_with "s-1" g' = 1%nat.
Proof.
  intros created updated s1 s2.
  assert (Honce : List.NoDup (map services.tab [sample.sheet])).
  { constructor; [intros [] | constructor]. }
  destruct (AppendSubmission_then_UpdateSubmission_one_row
              sample.docs [sample.sheet] created updated "" "Lower paddy"
              (sample.service [services.headers])
              eq_refl Honce eq_refl eq_refl ltac:(discriminate)
              sample.sheet [services.headers]
              (list_elem_of_here _ _) (lookup_singleton_eq _ _))
    as (g' & Htab & _ & _ & Hfresh).
  exists g'. split; [exact Htab|]. exact (Hfresh eq_refl).
Defined.

Section Headers.

Import sheets.

(** Once the header row is written, cell A1 reads [ID]. *)
Lemma read_written_headers (g : list (list string)) :
  read A1_A1 (write_rows 0 [services.headers] g) = [["ID"]].
Proof.
  cbn [write_rows]. unfold write_row.
  destruct g as [|r g].
  - rewrite decide_False by (simpl; lia). reflexivity.
  - rewrite decide_True by (simpl; lia). reflexivity.
Qed.

Lemma written_headers_first_row (g : list (list string)) :
  write_rows 0 [services.headers] g !! 0%nat =
  Some (services.headers ++ drop 39 (default [] (g !! 0%nat))).
Proof.
  cbn [write_rows]. unfold write_row.
  destruct g as [|r g].
  - rewrite decide_False by (simpl; lia). reflexivity.
  - rewrite decide_True by (simpl; lia). reflexivity.
Qed.

(** A tab whose cell A1 is not empty is left as it is, whatever the
    backend does. *)
Lemma ensureHeaders_present (spreadsheetID sheetName : string) (s : Service)
  (g : list (list string)) :
  tabs s !! (spreadsheetID, sheetName) = Some g ->
  services.no_header (read A1_A1 g) = false ->
  tabs (snd (services.ensureHeaders spreadsheetID sheetName s)) = tabs s.
Proof.
  intros Hg Hhead. unfold services.ensureHeaders, Get.
  destruct (fails s); [reflexivity|].
  rewrite Hg. cbn [fmap option_fmap option_map]. rewrite Hhead. reflexivity.
Qed.

(** What a call that returns no error has done. *)
Lemma ensureHeaders_done (spreadsheetID sheetName : string) (s : Service) :
  fst (services.ensureHeaders spreadsheetID sheetName s) = None ->
  exists g,
    tabs s !! (spreadsheetID, sheetName) = Some g
    /\ tabs (snd (services.ensureHeaders spreadsheetID sheetName s)) =
       if services.no_header (read A1_A1 g)
       then <[(spreadsheetID, sheetName) := write_rows 0 [services.headers] g]> (tabs s)
       else tabs s.
Proof.
  unfold services.ensureHeaders, Get, Update.
  destruct (fails s); [discriminate|].
  destruct (tabs s !! (spreadsheetID, sheetName)) as [g|] eqn:Hg;
    cbn [fmap option_fmap option_map]; [|discriminate].
  intros Hok. exists g. split; [reflexivity|].
  destruct (services.no_header (read A1_A1 g)); [|reflexivity].
  destruct (fails (next s)); [discriminate|].
  cbn [tabs next] in *. rewrite Hg. reflexivity.
Qed.

End Headers.

(** C4: when [ensureHeaders] has returned without an error, a second call
    changes no cell of any tab, whatever the backend does. The first call
    wrote the 39 headers over the first row if cell A1 was empty, and only
    then; cell A1 then reads [ID] after the first call and after the second.
    Otherwise (A1 was not empty) the first call left the tab as it was. *)
Theorem ensureHeaders_idempotent :
  forall (spreadsheetID sheetName : string) (s : sheets.Service),
    let first := services.ensureHeaders spreadsheetID sheetName s in
    let second := services.ensureHeaders spreadsheetID sheetName (snd first) in
    fst first = None ->
    sheets.tabs (snd second) = sheets.tabs (snd first)
    /\ exists g g1,
         sheets.tabs s !! (spreadsheetID, sheetName) = Some g
         /\ sheets.tabs (snd first) !! (spreadsheetID, sheetName) = Some g1
         /\ sheets.tabs (snd second) !! (spreadsheetID, sheetName) = Some g1
         /\ if services.no_header (sheets.read sheets.A1_A1 g)
            then g1 !! 0%nat = Some (services.headers ++ drop 39 (default [] (g !! 0%nat)))
                 /\ sheets.read sheets.A1_A1 g1 = [["ID"]]
                 /\ drop 1 g1 = drop 1 g
            else g1 = g /\ sheets.tabs (snd first) = sheets.tabs s.
Proof.
  intros spreadsheetID sheetName s first second Hok. subst second.
  destruct (ensureHeaders_done spreadsheetID sheetName s Hok) as (g & Hg & Hfirst).
  fold first in Hfirst.
  destruct (services.no_header (sheets.read sheets.A1_A1 g)) eqn:Hhead.
  - set (g1 := sheets.write_rows 0 [services.headers] g) in *.
    assert (Hg1 : sheets.tabs (snd first) !! (spreadsheetID, sheetName) = Some g1)
      by (rewrite Hfirst; apply lookup_insert_eq).
    assert (Hread : sheets.read sheets.A1_A1 g1 = [["ID"]])
      by apply read_written_headers.
    assert (Hsecond :
      sheets.tabs (snd (services.ensureHeaders spreadsheetID sheetName (snd first))) =
      sheets.tabs (snd first)).
    { apply (ensureHeaders_present _ _ _ g1 Hg1). now rewrite Hread. }
    split; [exact Hsecond|].
    exists g, g1. split; [exact Hg|]. split; [exact Hg1|].
    split; [now rewrite Hsecond|]. rewrite Hhead.
    split; [apply written_headers_first_row|]. split; [exact Hread|].
    subst g1. cbn [sheets.write_rows]. unfold sheets.write_row.
    destruct g as [|r g].
    + rewrite decide_False by (simpl; lia). reflexivity.
    + rewrite decide_True by (simpl; lia). reflexivity.
  - assert (Hg1 : sheets.tabs (snd first) !! (spreadsheetID, sheetName) = Some g)
      by now rewrite Hfirst.
    assert (Hsecond :
      sheets.tabs (snd (services.ensureHeaders spreadsheetID sheetName (snd first))) =
      sheets.tabs (snd first))
      by apply (ensureHeaders_present _ _ _ g Hg1 Hhead).
    split; [exact Hsecond|].
    exists g, g. split; [exact Hg|]. split; [exact Hg1|].
    split; [now rewrite Hsecond|]. rewrite Hhead.
    split; [reflexivity | exact Hfirst].
Qed.

(** C4 on a tab without any row: after the two calls the tab has the header
    row and nothing else. *)
Lemma ensureHeaders_idempotent_witness :
  let first := services.ensureHeaders "sheet-1" "Observations" (sample.service []) in
  let second := services.ensureHeaders "sheet-1" "Observations" (snd first) in
  fst first = None
  /\ sheets.tabs (snd second) = sheets.tabs (snd first)
  /\ sheets.tabs (snd second) !! ("sheet-1", "Observations") = Some [services.headers].
Proof.
  intros first second.
  assert (Hok : fst first = None) by (vm_compute; reflexivity).
  destruct (ensureHeaders_idempotent "sheet-1" "Observations" (sample.service []) Hok)
    as (Hsame & _).
  split; [exact Hok|]. split; [exact Hsame|].
  vm_compute. reflexivity.
Defined.

(** ** The media handler *)

Lemma ValidateMediaType_no_type (filename : string) :
  utils.ValidateMediaType filename "" = false.
Proof. reflexivity. Qed.

Lemma prefix_short (s : string) (n : nat) :
  (String.length s < n)%nat -> handlers.prefix s n = None.
Proof. intros Hshort. unfold handlers.prefix. now rewrite decide_False by lia. Qed.

Lemma prefix_long (s : string) (n : nat) :
  (n <= String.length s)%nat -> handlers.prefix s n = Some (substring 0 n s).
Proof. intros Hlong. unfold handlers.prefix. now rewrite decide_True by lia. Qed.

Lemma eqb_empty_length (s : string) :
  String.eqb s "" = false <-> (0 < String.length s)%nat.
Proof. destruct s; simpl; split; intros; try reflexivity; try discriminate; lia. Qed.

(** C9: an upload whose [submission_id] is not empty and shorter than five
    bytes panics on the slice [submissionID[:5]] as soon as the file has
    been accepted and written (and nothing is recorded on the submission),
    so that for every such [submission_id] there is an upload on which the
    handler panics; with an empty [submission_id] or one of five bytes or
    more the handler always writes a response. *)
Theorem UploadMedia_short_submission_id_panics :
  forall (bucketName submissionID generated : string) (uploaded stored : Time.t)
         (c : firestore.Client),
    ((0 < String.length submissionID < 5)%nat ->
     forall (fileType : string) (header : handlers.FileHeader) (up : handlers.Upload),
       utils.ValidateMediaType (handlers.Filename header) fileType = true ->
       handlers.copied up = true -> handlers.closed up = true ->
       handlers.UploadMedia bucketName submissionID fileType (Some header)
         generated uploaded stored up c
       = (http.Panics "slice bounds out of range", c))
    /\ ((0 < String.length submissionID < 5)%nat ->
        exists (fileType : string) (file : option handlers.FileHeader) (up : handlers.Upload),
          fst (handlers.UploadMedia bucketName submissionID fileType file
                 generated uploaded stored up c)
          = http.Panics "slice bounds out of range")
    /\ (String.length submissionID = 0%nat \/ (5 <= String.length submissionID)%nat ->
        forall (fileType : string) (file : option handlers.FileHeader) (up : handlers.Upload),
        exists r,
          fst (handlers.UploadMedia bucketName submissionID fileType file
                 generated uploaded stored up c) = http.Responds r).
Proof.
  intros bucketName submissionID generated uploaded stored c.
  assert (Hpanic :
    (0 < String.length submissionID < 5)%nat ->
    forall (fileType : string) (header : handlers.FileHeader) (up : handlers.Upload),
      utils.ValidateMediaType (handlers.Filename header) fileType = true ->
      handlers.copied up = true -> handlers.closed up = true ->
      handlers.UploadMedia bucketName submissionID fileType (Some header)
        generated uploaded stored up c
      = (http.Panics "slice bounds out of range", c)).
  { intros [Hnonempty Hshort] fileType header up Hvalid Hcopied Hclosed.
    unfold handlers.UploadMedia.
    apply eqb_empty_length in Hnonempty. rewrite Hnonempty.
    destruct (String.eqb_spec fileType "") as [-> | _];
      [now rewrite ValidateMediaType_no_type in Hvalid|].
    rewrite Hvalid, Hcopied, Hclosed. cbn [negb].
    now rewrite prefix_short. }
  split; [exact Hpanic|]. split.
  - intros Hshort.
    exists "image", (Some (handlers.mkFile "leaf.jpg" "image/jpeg")),
      (handlers.mkUpload true true true).
    now rewrite (Hpanic Hshort "image" (handlers.mkFile "leaf.jpg" "image/jpeg")
                   (handlers.mkUpload true true true) eq_refl eq_refl eq_refl).
  - intros Hlen fileType file up. unfold handlers.UploadMedia.
    destruct (String.eqb submissionID "") eqn:Hempty; [eexists; reflexivity|].
    destruct Hlen as [Hzero | Hlong];
      [apply eqb_empty_length in Hempty; lia|].
    destruct (String.eqb fileType ""); [eexists; reflexivity|].
    destruct file as [header|]; [|eexists; reflexivity].
    destruct (utils.ValidateMediaType (handlers.Filename header) fileType);
      cbn [negb]; [|eexists; reflexivity].
    destruct (handlers.copied up); cbn [negb]; [|eexists; reflexivity].
    destruct (handlers.closed up); cbn [negb]; [|eexists; reflexivity].
    rewrite prefix_long by exact Hlong.
    destruct (negb (String.eqb (substring 0 5 submissionID) "temp_"));
      [|eexists; reflexivity].
    destruct (handlers.addMediaToSubmission _ _ _ _ _) as [[|] c1];
      eexists; reflexivity.
Qed.

(** C9 on the upload of [leaf.JPG] as an image for submission [ab12]. *)
Lemma UploadMedia_short_submission_id_panics_witness :
  handlers.UploadMedia "rice-media" "ab12" "image"
    (Some (handlers.mkFile "leaf.JPG" "image/jpeg"))
    "3f2c" sample.march sample.march (handlers.mkUpload true true true)
    (sample.client [] [])
  = (http.Panics "slice bounds out of range", sample.client [] []).
Proof.
  destruct (UploadMedia_short_submission_id_panics
              "rice-media" "ab12" "3f2c" sample.march sample.march
              (sample.client [] [])) as (Hpanic & _ & _).
  apply Hpanic; [simpl; lia | reflexivity | reflexivity | reflexivity].
Defined.

(** ** The submission handlers *)

Lemma denied_stranger (user : User.t) (submission : Submission.t) :
  User.Role user <> "admin" ->
  Submission.UserID submission <> User.ID user ->
  handlers.denied user submission = true.
Proof.
  intros Hrole Howner. unfold handlers.denied.
  destruct (String.eqb_spec (User.Role user) "admin"); [contradiction|].
  destruct (String.eqb_spec (Submission.UserID submission) (User.ID user));
    [contradiction | reflexivity].
Qed.

Lemma denied_owner (user : User.t) (submission : Submission.t) :
  Submission.UserID submission = User.ID user ->
  handlers.denied user submission = false.
Proof.
  intros Howner. unfold handlers.denied.
  rewrite Howner, String.eqb_refl. apply andb_false_r.
Qed.

(** C6, as the specification words it: whatever the payload, a requester who
    is neither an administrator nor the owner gets a forbidden error. Bob's
    update of Alice's submission with a body that is not JSON is answered
    400, not 403: the body is bound before the submission is read. *)
Lemma UpdateSubmission_malformed_not_forbidden :
  let submission := sample.submission "s-1" "" sample.one in
  let c := sample.client [submission] [] in
  firestore.submissions c !! "s-1" = Some submission
  /\ User.Role sample.bob <> "admin"
  /\ Submission.UserID submission <> User.ID sample.bob
  /\ handlers.UpdateSubmission sample.bob "s-1"
       (http.Malformed "unexpected end of JSON input") sample.march c
     = (http.JSON http.StatusBadRequest
          (http.ErrorResponse "invalid_request" "unexpected end of JSON input"),
        c, None)
  /\ http.StatusBadRequest <> http.StatusForbidden.
Proof.
  intros submission c.
  split; [reflexivity|]. split; [discriminate|]. split; [discriminate|].
  split; [reflexivity | discriminate].
Qed.

(** C6, amended: for a submission that the store hands out and a requester
    who is neither an administrator nor its owner, the read and the delete
    are answered 403, and so is every update whose body binds; an update
    whose body does not bind is answered 400. No document is changed in any of
    these cases and no work is left to the spreadsheet mirror. *)
Theorem stranger_is_forbidden :
  forall (user : User.t) (submissionID : string) (submission : Submission.t)
         (c : firestore.Client),
    firestore.submissions c !! submissionID = Some submission ->
    firestore.fails c = false ->
    User.Role user <> "admin" ->
    Submission.UserID submission <> User.ID user ->
    handlers.GetSubmission user submissionID c = (handlers.forbidden, firestore.next c)
    /\ handlers.DeleteSubmission user submissionID c
       = (handlers.forbidden, firestore.next c)
    /\ (forall (req : UpdateSubmissionRequest.t) (now : Time.t),
          handlers.UpdateSubmission user submissionID (http.Parsed req) now c
          = (handlers.forbidden, firestore.next c, None))
    /\ (forall (err : string) (now : Time.t),
          handlers.UpdateSubmission user submissionID (http.Malformed err) now c
          = (http.JSON http.StatusBadRequest (http.ErrorResponse "invalid_request" err),
             c, None))
    /\ http.Code handlers.forbidden = 403
    /\ firestore.submissions (firestore.next c) = firestore.submissions c.
Proof.
  intros user submissionID submission c Hdoc Hup Hrole Howner.
  pose proof (denied_stranger user submission Hrole Howner) as Hdenied.
  unfold handlers.GetSubmission, handlers.DeleteSubmission, handlers.UpdateSubmission,
    firestore.GetSubmission.
  cbn [handlers.ShouldBindJSON_update].
  rewrite Hup, Hdoc. cbn [fmap option_fmap option_map].
  change (handlers.denied user (firestore.decoded submission))
    with (handlers.denied user submission).
  rewrite Hdenied.
  repeat split.
Qed.

(** The amended C6 on Bob and Alice's submission. *)
Lemma stranger_is_forbidden_witness :
  let submission := sample.submission "s-1" "" sample.one in
  let c := sample.client [submission] [] in
  handlers.GetSubmission sample.bob "s-1" c = (handlers.forbidden, firestore.next c)
  /\ handlers.DeleteSubmission sample.bob "s-1" c = (handlers.forbidden, firestore.next c).
Proof.
  intros submission c.
  destruct (stranger_is_forbidden sample.bob "s-1" submission c)
    as (Hget & Hdelete & _).
  - reflexivity.
  - reflexivity.
  - discriminate.
  - discriminate.
  - split; [exact Hget | exact Hdelete].
Defined.

Section Patch.

Import firestore.

Lemma apply_app (updates : list Update) (u : Update) (d : Submission.t) :
  apply (updates ++ [u]) d = set u (apply updates d).
Proof. unfold apply. now rewrite fold_left_app. Qed.

Lemma apply_when {A : Type} (member : option A) (path : string)
  (value : A -> Value) (updates : list Update) (d : Submission.t) :
  apply (handlers.when member path value updates) d =
  perhaps member path value (apply updates d).
Proof. destruct member; [apply apply_app | reflexivity]. Qed.

(** A member that is set to what it is stays what it is, so an update
    that may be absent is the update to the new value or else the old. *)
Lemma perhaps_default {A : Type} (member : option A) (path : string)
  (value : A -> Value) (get : Submission.t -> A) (d : Submission.t) :
  (forall d, set (mkUpdate path (value (get d))) d = d) ->
  perhaps member path value d =
  set (mkUpdate path (value (default (get d) member))) d.
Proof. intros Hsame. destruct member; [reflexivity | symmetry; apply Hsame]. Qed.

Ltac member path value get :=
  rewrite (perhaps_default _ path value get) by (intros []; reflexivity); simpl.

(** The updates of a request make the patched document of the stored one. *)
Lemma apply_updatesOf (req : UpdateSubmissionRequest.t) (now : Time.t)
  (old : Submission.t) :
  apply (handlers.updatesOf req now) old = handlers.patched req now old.
Proof.
  destruct req as [field_id other date stage conditions traits coordinates
                     notes images videos audio status].
  destruct old.
  unfold handlers.updatesOf, handlers.patched.
  cbn [UpdateSubmissionRequest.FieldID UpdateSubmissionRequest.OtherFieldName
       UpdateSubmissionRequest.Date UpdateSubmissionRequest.GrowthStage
       UpdateSubmissionRequest.PlantConditions UpdateSubmissionRequest.TraitMeasurements
       UpdateSubmissionRequest.Coordinates UpdateSubmissionRequest.Notes
       UpdateSubmissionRequest.Images UpdateSubmissionRequest.Videos
       UpdateSubmissionRequest.Audio UpdateSubmissionRequest.Status].
  rewrite apply_app.
  destruct other as [name|].
  - rewrite !apply_app, !apply_when. cbn [apply fold_left].
    member "date" VTime Submission.Date.
    member "growth_stage" VString Submission.GrowthStage.
    member "plant_conditions" VPlantConditions Submission.PlantConditions.
    member "trait_measurements" VTraitMeasurements Submission.TraitMeasurements.
    member "coordinates" VLocation Submission.Coordinates.
    member "notes" VString Submission.Notes.
    member "images" VStrings Submission.Images.
    member "videos" VStrings Submission.Videos.
    member "audio" VStrings Submission.Audio.
    member "status" VString Submission.Status.
    reflexivity.
  - rewrite !apply_when. cbn [apply fold_left].
    member "date" VTime Submission.Date.
    member "growth_stage" VString Submission.GrowthStage.
    member "plant_conditions" VPlantConditions Submission.PlantConditions.
    member "trait_measurements" VTraitMeasurements Submission.TraitMeasurements.
    member "coordinates" VLocation Submission.Coordinates.
    member "notes" VString Submission.Notes.
    member "images" VStrings Submission.Images.
    member "videos" VStrings Submission.Videos.
    member "audio" VStrings Submission.Audio.
    member "status" VString Submission.Status.
    member "field_id" VString Submission.FieldID.
    reflexivity.
Qed.

End Patch.

Lemma next_quiet (c : firestore.Client) :
  firestore.outages c = [] -> firestore.next c = c.
Proof. destruct c as [s f o]. simpl. now intros ->. Qed.

Lemma sheetFieldName_quiet (submission : Submission.t) (c : firestore.Client) :
  firestore.outages c = [] -> snd (handlers.sheetFieldName submission c) = c.
Proof.
  intros Hquiet. unfold handlers.sheetFieldName, firestore.GetField, firestore.fails.
  rewrite Hquiet, (next_quiet c Hquiet).
  destruct (_ && _); [|reflexivity].
  now destruct (firestore.fields c !! Submission.FieldID submission).
Qed.

(** Through [DataTo] a requester has the access to a document that it has to
    the document as written. *)
Lemma denied_decoded (user : User.t) (d : Submission.t) :
  handlers.denied user (firestore.decoded d) = handlers.denied user d.
Proof. reflexivity. Qed.

(** An authorized update of a stored submission, on a store that answers:
    the stored document becomes the patched one; the response and the
    spreadsheet mirror get the struct of the first read after the patched
    document has been decoded into it. *)
Lemma UpdateSubmission_done (user : User.t) (submissionID : string)
  (req : UpdateSubmissionRequest.t) (now : Time.t) (c : firestore.Client)
  (old : Submission.t) :
  firestore.outages c = [] ->
  firestore.submissions c !! submissionID = Some old ->
  handlers.denied user old = false ->
  let stored := handlers.patched req now old in
  let c' :=
    firestore.mk (<[submissionID := stored]> (firestore.submissions c))
      (firestore.fields c) [] in
  let answered := firestore.DataTo (firestore.decoded old) (firestore.decoded stored) in
  handlers.UpdateSubmission user submissionID (http.Parsed req) now c =
  (http.JSON http.StatusOK
     (http.SuccessResponse (http.OfSubmission answered) "Submission updated successfully"),
   c', Some (http.UpdateJob answered (fst (handlers.sheetFieldName answered c')))).
Proof.
  intros Hquiet Hdoc Hallowed stored c' answered.
  unfold handlers.UpdateSubmission, firestore.GetSubmission, firestore.UpdateSubmission,
    firestore.fails, firestore.next.
  cbn [handlers.ShouldBindJSON_update].
  rewrite Hquiet. cbn [tail firestore.outages firestore.submissions].
  rewrite Hdoc. cbn [fmap option_fmap option_map].
  rewrite denied_decoded, Hallowed.
  cbn [firestore.outages firestore.submissions firestore.fields tail].
  rewrite lookup_insert_eq, apply_updatesOf. cbn [fmap option_fmap option_map].
  fold stored. fold answered. fold c'.
  pose proof (sheetFieldName_quiet answered c' eq_refl) as Hsame.
  destruct (handlers.sheetFieldName answered c') as [fieldName c4].
  cbn [fst snd] in *. now subst c4.
Qed.

(** C7, as the specification words it: every member that the payload does
    not carry is left as it was. An update of Alice's submission that carries
    [other_field_name] only changes its [field_id] from [f-1] to [others]. *)
Lemma UpdateSubmission_changes_absent_field_id :
  let old := sample.submission "s-1" "f-1" sample.one in
  let req := sample.rename "Upper paddy" in
  let result :=
    handlers.UpdateSubmission sample.alice "s-1" (http.Parsed req) sample.march
      (sample.client [old] []) in
  UpdateSubmissionRequest.FieldID req = None
  /\ Submission.FieldID old = "f-1"
  /\ Submission.FieldID <$> firestore.submissions (snd (fst result)) !! "s-1"
     = Some "others".
Proof. intros old req result. repeat split. Qed.

(** C7, amended: an authorized update of a stored submission, on a store
    that answers, is answered 200 and replaces the stored document by one in
    which [updated_at] is the time of the update, every member that the
    payload carries has the value of the payload, and every member that it
    does not carry is as it was, but for [field_id], which is [others]
    whenever the payload carries [other_field_name]. The identifier, the
    owner, the observer name and [created_at] are never changed. *)
Theorem UpdateSubmission_applies_present_members :
  forall (user : User.t) (submissionID : string) (req : UpdateSubmissionRequest.t)
         (now : Time.t) (c : firestore.Client) (old : Submission.t),
    firestore.outages c = [] ->
    firestore.submissions c !! submissionID = Some old ->
    handlers.denied user old = false ->
    let result := handlers.UpdateSubmission user submissionID (http.Parsed req) now c in
    exists (new : Submission.t),
      http.Code (fst (fst result)) = 200
      /\ firestore.submissions (snd (fst result))
         = <[submissionID := new]> (firestore.submissions c)
      /\ Submission.UpdatedAt new = now
      /\ Submission.ID new = Submission.ID old
      /\ Submission.UserID new = Submission.UserID old
      /\ Submission.ObserverName new = Submission.ObserverName old
      /\ Submission.CreatedAt new = Submission.CreatedAt old
      /\ Submission.Date new =
         default (Submission.Date old) (UpdateSubmissionRequest.Date req)
      /\ Submission.GrowthStage new =
         default (Submission.GrowthStage old) (UpdateSubmissionRequest.GrowthStage req)
      /\ Submission.PlantConditions new =
         default (Submission.PlantConditions old) (UpdateSubmissionRequest.PlantConditions req)
      /\ Submission.TraitMeasurements new =
         default (Submission.TraitMeasurements old) (UpdateSubmissionRequest.TraitMeasurements req)
      /\ Submission.Coordinates new =
         default (Submission.Coordinates old) (UpdateSubmissionRequest.Coordinates req)
      /\ Submission.Notes new =
         default (Submission.Notes old) (UpdateSubmissionRequest.Notes req)
      /\ Submission.Images new =
         default (Submission.Images old) (UpdateSubmissionRequest.Images req)
      /\ Submission.Videos new =
         default (Submission.Videos old) (UpdateSubmissionRequest.Videos req)
      /\ Submission.Audio new =
         default (Submission.Audio old) (UpdateSubmissionRequest.Audio req)
      /\ Submission.Status new =
         default (Submission.Status old) (UpdateSubmissionRequest.Status req)
      /\ Submission.OtherFieldName new =
         default (Submission.OtherFieldName old) (UpdateSubmissionRequest.OtherFieldName req)
      /\ Submission.FieldID new =
         match UpdateSubmissionRequest.OtherFieldName req with
         | Some _ => "others"
         | None => default (Submission.FieldID old) (UpdateSubmissionRequest.FieldID req)
         end.
Proof.
  intros user submissionID req now c old Hquiet Hdoc Hallowed result. subst result.
  rewrite (UpdateSubmission_done user submissionID req now c old Hquiet Hdoc Hallowed).
  exists (handlers.patched req now old).
  repeat split.
Qed.

(** The amended C7 on Alice's update of the notes of her submission. *)
Lemma UpdateSubmission_applies_present_members_witness :
  let old := sample.submission "s-1" "f-1" sample.one in
  let req :=
    UpdateSubmissionRequest.mk None None None None None None None
      (Some "Leaf folder seen") None None None None in
  let result :=
    handlers.UpdateSubmission sample.alice "s-1" (http.Parsed req)
      (Time.mk 2024 3 2 8 0 0 0) (sample.client [old] []) in
  exists new,
    http.Code (fst (fst result)) = 200
    /\ firestore.submissions (snd (fst result)) !! "s-1" = Some new
    /\ Submission.Notes new = "Leaf folder seen"
    /\ Submission.GrowthStage new = "Tillering"
    /\ Submission.FieldID new = "f-1"
    /\ Submission.UpdatedAt new = Time.mk 2024 3 2 8 0 0 0.
Proof.
  intros old req result.
  destruct (UpdateSubmission_applies_present_members sample.alice "s-1" req
              (Time.mk 2024 3 2 8 0 0 0) (sample.client [old] []) old
              eq_refl eq_refl eq_refl)
    as (new & Hcode & Hstore & Hat & _ & _ & _ & _ & _ & Hstage & _ & _ & _
        & Hnotes & _ & _ & _ & _ & _ & Hfield).
  exists new.
  split; [exact Hcode|]. split; [subst result; rewrite Hstore; apply lookup_insert_eq|].
  split; [exact Hnotes|]. split; [exact Hstage|].
  split; [exact Hfield | exact Hat].
Defined.

(** C10: an authorized update whose payload carries [other_field_name]
    stores [others] as the [field_id] of the submission, whatever [field_id]
    the payload carries besides, and the name as its [other_field_name]; the
    [field_id] of the payload is stored only when the payload carries no
    [other_field_name], and then the stored [field_id] is that of the payload
    or, without one, the one it was. *)
Theorem UpdateSubmission_other_field_name_sets_others :
  forall (user : User.t) (submissionID : string) (req : UpdateSubmissionRequest.t)
         (now : Time.t) (c : firestore.Client) (old : Submission.t),
    firestore.outages c = [] ->
    firestore.submissions c !! submissionID = Some old ->
    handlers.denied user old = false ->
    exists (new : Submission.t),
      firestore.submissions
        (snd (fst (handlers.UpdateSubmission user submissionID (http.Parsed req) now c)))
        !! submissionID = Some new
      /\ (forall name,
            UpdateSubmissionRequest.OtherFieldName req = Some name ->
            Submission.FieldID new = "others"
            /\ Submission.OtherFieldName new = name)
      /\ (UpdateSubmissionRequest.OtherFieldName req = None ->
          (forall field_id,
             UpdateSubmissionRequest.FieldID req = Some field_id ->
             Submission.FieldID new = field_id)
          /\ (UpdateSubmissionRequest.FieldID req = None ->
              Submission.FieldID new = Submission.FieldID old)).
Proof.
  intros user submissionID req now c old Hquiet Hdoc Hallowed.
  rewrite (UpdateSubmission_done user submissionID req now c old Hquiet Hdoc Hallowed).
  exists (handlers.patched req now old).
  cbn [fst snd firestore.submissions]. rewrite lookup_insert_eq.
  split; [reflexivity|]. cbn [handlers.patched Submission.FieldID Submission.OtherFieldName].
  split.
  - intros name ->. split; reflexivity.
  - intros ->. split; [intros field_id ->; reflexivity | intros ->; reflexivity].
Qed.

(** C10 on an update of Alice's submission that carries both [field_id] and
    [other_field_name]. *)
Lemma UpdateSubmission_other_field_name_sets_others_witness :
  let old := sample.submission "s-1" "f-1" sample.one in
  let req := sample.relink "f-2" "Upper paddy" in
  exists new,
    firestore.submissions
      (snd (fst (handlers.UpdateSubmission sample.alice "s-1" (http.Parsed req)
                   sample.march (sample.client [old] []))))
      !! "s-1" = Some new
    /\ Submission.FieldID new = "others"
    /\ Submission.OtherFieldName new = "Upper paddy".
Proof.
  intros old req.
  destruct (UpdateSubmission_other_field_name_sets_others sample.alice "s-1" req
              sample.march (sample.client [old] []) old eq_refl eq_refl eq_refl)
    as (new & Hnew & Hother & _).
  exists new. split; [exact Hnew|]. exact (Hother "Upper paddy" eq_refl).
Defined.

(** C5, as the specification words it: after every valid create request a
    GET by the new identifier returns the growth stage and the observer name
    of the request. Alice's request for field [f-404], which the store does
    not have, is answered 201, and her GET of the new submission 500. *)
Lemma GetSubmission_after_create_unknown_field :
  let c := sample.client [] [] in
  let created :=
    handlers.CreateSubmission sample.alice (http.Parsed (sample.request "f-404"))
      sample.uuid sample.march sample.march c in
  handlers.required_failures (sample.request "f-404") = []
  /\ http.Code (fst (fst created)) = http.StatusCreated
  /\ fst (handlers.GetSubmission sample.alice sample.uuid (snd (fst created)))
     = http.JSON http.StatusInternalServerError
         (http.ErrorResponse "internal_error" "Failed to retrieve associated field data").
Proof. intros c created. repeat split. Qed.

(** C5, amended: a create request without a date, a growth stage or an
    observer name is answered 400 and stores nothing. A valid one, on a store
    that answers, with an identifier from the generator that is not empty and
    not the identifier of a stored submission, is answered 201 with the new
    submission: its identifier is the generated one, its status [submitted],
    its owner the requester, [created_at] and [updated_at] the readings of
    the clock, growth stage and observer name those of the request; it is
    stored under its identifier and every other document stays. A GET of the
    identifier by the requester then returns the same growth stage and
    observer name, and the date and the two timestamps as the same instants
    in UTC, when the [field_id] of the request is empty, [others] or the
    identifier of a stored field, and is answered 500 otherwise. *)
Theorem CreateSubmission_validates_and_stores :
  forall (user : User.t) (req : CreateSubmissionRequest.t) (generated : string)
         (created updated : Time.t) (c : firestore.Client),
    (Time.IsZero (CreateSubmissionRequest.Date req) = true
     \/ CreateSubmissionRequest.GrowthStage req = ""
     \/ CreateSubmissionRequest.ObserverName req = "" ->
     exists err,
       handlers.CreateSubmission user (http.Parsed req) generated created updated c
       = (http.JSON http.StatusBadRequest (http.ErrorResponse "invalid_request" err),
          c, None))
    /\ (Time.IsZero (CreateSubmissionRequest.Date req) = false ->
        CreateSubmissionRequest.GrowthStage req <> "" ->
        CreateSubmissionRequest.ObserverName req <> "" ->
        firestore.outages c = [] ->
        generated <> "" ->
        firestore.submissions c !! generated = None ->
        exists (new : Submission.t) (fieldName : string),
          handlers.CreateSubmission user (http.Parsed req) generated created updated c
          = (http.JSON http.StatusCreated
               (http.SuccessResponse (http.OfSubmission new)
                  "Submission created successfully"),
             firestore.mk (<[generated := new]> (firestore.submissions c))
               (firestore.fields c) [],
             Some (http.AppendJob new fieldName))
          /\ Submission.ID new = generated
          /\ Submission.ID new <> ""
          /\ Submission.Status new = "submitted"
          /\ Submission.UserID new = User.ID user
          /\ Submission.CreatedAt new = created
          /\ Submission.UpdatedAt new = updated
          /\ Submission.GrowthStage new = CreateSubmissionRequest.GrowthStage req
          /\ Submission.ObserverName new = CreateSubmissionRequest.ObserverName req
          /\ (forall other old,
                firestore.submissions c !! other = Some old ->
                other <> generated
                /\ <[generated := new]> (firestore.submissions c) !! other = Some old)
          /\ let get :=
               fst (handlers.GetSubmission user generated
                      (firestore.mk (<[generated := new]> (firestore.submissions c))
                         (firestore.fields c) [])) in
             if String.eqb (CreateSubmissionRequest.FieldID req) ""
                || String.eqb (CreateSubmissionRequest.FieldID req) "others"
                || bool_decide (is_Some (firestore.fields c !! CreateSubmissionRequest.FieldID req))
             then
               exists r,
                 get = http.JSON http.StatusOK
                         (http.SuccessResponse (http.OfSubmissionResponse r) "")
                 /\ SubmissionResponse.ID r = generated
                 /\ SubmissionResponse.GrowthStage r = CreateSubmissionRequest.GrowthStage req
                 /\ SubmissionResponse.ObserverName r = CreateSubmissionRequest.ObserverName req
                 /\ SubmissionResponse.Date r
                    = Time.UTC (Time.view (CreateSubmissionRequest.Date req))
                 /\ SubmissionResponse.CreatedAt r = Time.UTC created
                 /\ SubmissionResponse.UpdatedAt r = Time.UTC updated
             else
               get = http.JSON http.StatusInternalServerError
                       (http.ErrorResponse "internal_error"
                          "Failed to retrieve associated field data")).
Proof.
  intros user req generated created updated c. split.
  - intros Hmissing. unfold handlers.CreateSubmission, handlers.ShouldBindJSON_create.
    destruct (handlers.required_failures req) as [|failed rest] eqn:Hfailed.
    + exfalso. unfold handlers.required_failures in Hfailed.
      destruct Hmissing as [Hdate | [Hstage | Hobserver]].
      * rewrite Hdate in Hfailed. discriminate.
      * rewrite Hstage in Hfailed. simpl in Hfailed.
        destruct (Time.IsZero _); discriminate.
      * rewrite Hobserver in Hfailed. simpl in Hfailed.
        destruct (Time.IsZero _), (String.eqb _ ""); discriminate.
    + eexists. reflexivity.
  - intros Hdate Hstage Hobserver Hquiet Hgenerated Hfresh.
    apply String.eqb_neq in Hstage, Hobserver.
    unfold handlers.CreateSubmission, handlers.ShouldBindJSON_create,
      handlers.required_failures.
    rewrite Hdate, Hstage, Hobserver. cbn [app].
    unfold firestore.SetSubmission, firestore.fails. rewrite Hquiet.
    cbn [tail Submission.ID].
    match goal with
    | |- context [handlers.sheetFieldName ?s ?c1] =>
        pose proof (sheetFieldName_quiet s c1 eq_refl) as Hname;
        destruct (handlers.sheetFieldName s c1) as [fieldName c2];
        cbn [snd] in Hname; subst c2;
        exists s, fieldName
    end.
    split; [reflexivity|]. split; [reflexivity|]. split; [exact Hgenerated|].
    do 6 (split; [reflexivity|]).
    split.
    { intros other old Hother.
      assert (Hne : other <> generated) by (intros ->; congruence).
      split; [exact Hne|]. now rewrite lookup_insert_ne. }
    unfold handlers.GetSubmission, firestore.GetSubmission, firestore.GetField,
      firestore.fails, firestore.next.
    cbn [firestore.outages firestore.submissions firestore.fields tail].
    rewrite lookup_insert_eq. cbn [fmap option_fmap option_map].
    rewrite denied_owner by reflexivity.
    cbn [Submission.FieldID Submission.OtherFieldName firestore.decoded].
    destruct (String.eqb_spec (CreateSubmissionRequest.FieldID req) "") as [Hnone | Hsome].
    { rewrite andb_false_r. cbn [orb fst].
      destruct (negb (String.eqb (CreateSubmissionRequest.OtherFieldName req) ""));
        eexists; repeat split. }
    destruct (String.eqb_spec (CreateSubmissionRequest.FieldID req) "others") as [Hothers | Hfield].
    { cbn [negb andb orb fst].
      destruct (negb (String.eqb (CreateSubmissionRequest.OtherFieldName req) ""));
        eexists; repeat split. }
    cbn [negb andb orb].
    destruct (firestore.fields c !! CreateSubmissionRequest.FieldID req) as [field|] eqn:Hlookup.
    + rewrite bool_decide_true by (now exists field). cbn [fst].
      eexists; repeat split.
    + rewrite bool_decide_false by (intros [? ?]; discriminate). reflexivity.
Qed.

(** The amended C5 on the create request of the scenario of the
    specification, without a field. *)
Lemma CreateSubmission_validates_and_stores_witness :
  exists new fieldName c1 r,
    handlers.CreateSubmission sample.alice (http.Parsed (sample.request ""))
      sample.uuid sample.march sample.march (sample.client [] [])
    = (http.JSON http.StatusCreated
         (http.SuccessResponse (http.OfSubmission new) "Submission created successfully"),
       c1, Some (http.AppendJob new fieldName))
    /\ Submission.ID new = sample.uuid
    /\ Submission.Status new = "submitted"
    /\ fst (handlers.GetSubmission sample.alice sample.uuid c1)
       = http.JSON http.StatusOK (http.SuccessResponse (http.OfSubmissionResponse r) "")
    /\ SubmissionResponse.GrowthStage r = "Tillering"
    /\ SubmissionResponse.ObserverName r = "Alice"
    /\ Submission.CreatedAt new = Time.mk 2024 3 1 10 5 9 19800
    /\ SubmissionResponse.CreatedAt r = Time.mk 2024 3 1 4 35 9 0.
Proof.
  destruct (CreateSubmission_validates_and_stores sample.alice (sample.request "")
              sample.uuid sample.march sample.march (sample.client [] []))
    as [_ Hvalid].
  destruct Hvalid
    as (new & fieldName & Hrun & Hid & _ & Hstatus & _ & Hcreated & _ & _ & _ & _ & Hget);
    [reflexivity | discriminate | discriminate | reflexivity | discriminate | reflexivity |].
  cbn [CreateSubmissionRequest.FieldID sample.request String.eqb orb] in Hget.
  destruct Hget as (r & Hget & _ & Hstage & Hobserver & _ & Hread & _).
  eexists new, fieldName, _, r.
  split; [exact Hrun|]. split; [exact Hid|]. split; [exact Hstatus|].
  split; [exact Hget|]. split; [exact Hstage|]. split; [exact Hobserver|].
  split; [exact Hcreated | exact Hread].
Defined.

(** * Further properties of the code *)

(** ** The spreadsheet mirror, sheet by sheet *)

Section MirrorLoops.

Import sheets.

(** What [DataTo] made of a document of the iteration. *)
Lemma fetchSheets_error (docs : list services.SheetDoc) :
  services.fetchSheets docs = None <-> services.IterError ∈ docs.
Proof.
  induction docs as [|[[sheet|]|] docs IH]; cbn [services.fetchSheets].
  - split; [discriminate | intros H; now apply elem_of_nil in H].
  - destruct (services.fetchSheets docs); cbn [fmap option_fmap option_map].
    + split; [discriminate|]. intros H. apply elem_of_cons in H as [H|H]; [discriminate|].
      now apply IH in H.
    + split; [intros _; apply list_elem_of_further; now apply IH | reflexivity].
  - rewrite IH. split; [apply list_elem_of_further|].
    intros H. apply elem_of_cons in H as [H|H]; [discriminate | exact H].
  - split; [intros _; apply list_elem_of_here | reflexivity].
Qed.

Lemma fetchSheets_decoded (docs : list services.SheetDoc) (registered : list Sheet.t) :
  services.fetchSheets docs = Some registered ->
  registered =
  omap (fun d => match d with services.Doc decoded => decoded | services.IterError => None end)
    docs.
Proof.
  revert registered.
  induction docs as [|[[sheet|]|] docs IH]; intros registered;
    cbn [services.fetchSheets omap list_omap].
  - now intros [= <-].
  - destruct (services.fetchSheets docs) as [rest|]; cbn [fmap option_fmap option_map];
      [|discriminate].
    intros [= <-]. now rewrite <- (IH rest eq_refl).
  - apply IH.
  - discriminate.
Qed.

(** One append, whatever the backend does. *)
Lemma append_turn (row : list string) (s : Service) (sheet : Sheet.t) :
  snd (Append (Sheet.SpreadsheetID sheet) (Sheet.SpreadsheetName sheet) [row] s) =
  mk (if fails s then tabs s
      else alter (fun g => g ++ [row]) (services.tab sheet) (tabs s))
     (tail (outages s)).
Proof.
  unfold Append, next. fold (services.tab sheet).
  destruct (fails s); [reflexivity|].
  rewrite alter_alt. now destruct (tabs s !! services.tab sheet).
Qed.

(** A loop whose turns leave the tabs of the other sheets alone leaves the
    tabs of the sheets that are not registered alone. *)
Lemma loop_frame (body : Service -> Sheet.t -> Service) :
  (forall s sheet k, k <> services.tab sheet -> tabs (body s sheet) !! k = tabs s !! k) ->
  forall (registered : list Sheet.t) (s : Service) (k : string * string),
    k ∉ map services.tab registered ->
    tabs (fold_left body registered s) !! k = tabs s !! k.
Proof.
  intros Hbody registered.
  induction registered as [|sheet registered IH]; intros s k Hout; [reflexivity|].
  cbn [fold_left map] in *. apply not_elem_of_cons in Hout as [Hhead Hrest].
  rewrite IH by exact Hrest. now apply Hbody.
Qed.

Lemma append_other (row : list string) (s : Service) (sheet : Sheet.t) (k : string * string) :
  k <> services.tab sheet ->
  tabs (snd (Append (Sheet.SpreadsheetID sheet) (Sheet.SpreadsheetName sheet) [row] s)) !! k
  = tabs s !! k.
Proof.
  intros Hother. rewrite append_turn. cbn [tabs].
  destruct (fails s); [reflexivity|]. now rewrite lookup_alter_ne.
Qed.

Lemma updateSheet_other (submission : Submission.t) (fieldName : string)
  (s : Service) (sheet : Sheet.t) (k : string * string) :
  k <> services.tab sheet ->
  tabs (services.updateSheet submission fieldName s sheet) !! k = tabs s !! k.
Proof.
  intros Hother.
  destruct (updateSheet_best_effort submission fieldName s sheet) as [-> | ->];
    [reflexivity | now rewrite lookup_alter_ne].
Qed.

Lemma ensureHeaders_other (spreadsheetID sheetName : string) (s : Service)
  (k : string * string) :
  k <> (spreadsheetID, sheetName) ->
  tabs (snd (services.ensureHeaders spreadsheetID sheetName s)) !! k = tabs s !! k.
Proof.
  intros Hother. unfold services.ensureHeaders, Get, Update.
  destruct (fails s); [reflexivity|].
  destruct (tabs s !! (spreadsheetID, sheetName)) as [g|];
    cbn [fmap option_fmap option_map]; [|reflexivity].
  destruct (services.no_header (read A1_A1 g)); [|reflexivity].
  destruct (fails (next s)); [reflexivity|].
  destruct (tabs (next s) !! (spreadsheetID, sheetName)); [|reflexivity].
  cbn [snd tabs next]. now rewrite lookup_insert_ne.
Qed.

End MirrorLoops.

(** X1: [fetchSheets] returns an error exactly when the iteration over the
    registrations yields one; otherwise it returns the registrations that
    decode, in the order of the iteration, and leaves out those that do
    not. *)
Theorem fetchSheets_skips_undecodable :
  forall docs : list services.SheetDoc,
    (services.fetchSheets docs = None <-> services.IterError ∈ docs)
    /\ (services.IterError ∉ docs ->
        services.fetchSheets docs =
        Some (omap (fun d =>
                      match d with
                      | services.Doc decoded => decoded
                      | services.IterError => None
                      end) docs)).
Proof.
  intros docs. split; [apply fetchSheets_error|].
  intros Hclean.
  destruct (services.fetchSheets docs) as [registered|] eqn:Hfetch.
  - now rewrite (fetchSheets_decoded docs registered Hfetch).
  - now apply fetchSheets_error in Hfetch.
Qed.

(** X1 on an iteration with a registration that does not decode. *)
Lemma fetchSheets_skips_undecodable_witness :
  services.fetchSheets
    [services.Doc (Some sample.sheet); services.Doc None;
     services.Doc (Some (Sheet.mk "sheet-2" "Archive"))]
  = Some [sample.sheet; Sheet.mk "sheet-2" "Archive"].
Proof.
  destruct (fetchSheets_skips_undecodable
              [services.Doc (Some sample.sheet); services.Doc None;
               services.Doc (Some (Sheet.mk "sheet-2" "Archive"))]) as [_ Hclean].
  rewrite Hclean; [reflexivity|].
  intros Hin. repeat (apply elem_of_cons in Hin as [Hin|Hin]; [discriminate|]).
  now apply elem_of_nil in Hin.
Defined.

(** X2: once the registrations are read, [AppendSubmission] returns no error,
    and a failure of the backend on one sheet does not keep the row from the
    others: with sheets registered once, the sheet at position [k] makes the
    [k]-th call on the backend, and its tab gets the row of the submission
    below its last row unless that very call fails. *)
Theorem AppendSubmission_isolates_failures :
  forall (docs : list services.SheetDoc) (registered : list Sheet.t)
         (submission : Submission.t) (fieldName : string) (s : sheets.Service),
    services.fetchSheets docs = Some registered ->
    NoDup (map services.tab registered) ->
    let result := services.AppendSubmission docs submission fieldName s in
    fst result = None
    /\ forall (k : nat) (sheet : Sheet.t) (g : list (list string)),
         registered !! k = Some sheet ->
         sheets.tabs s !! services.tab sheet = Some g ->
         sheets.tabs (snd result) !! services.tab sheet =
         Some (if default false (sheets.outages s !! k) then g
               else g ++ [services.submissionToRow submission fieldName]).
Proof.
  intros docs registered submission fieldName s Hfetch Hnodup result.
  subst result. unfold services.AppendSubmission. rewrite Hfetch. cbn [fst snd].
  split; [reflexivity|].
  set (row := services.submissionToRow submission fieldName).
  set (body := fun (s : sheets.Service) (sheet : Sheet.t) =>
                 snd (sheets.Append (Sheet.SpreadsheetID sheet)
                        (Sheet.SpreadsheetName sheet) [row] s)).
  clear Hfetch. revert s Hnodup.
  induction registered as [|head registered IH]; intros s Hnodup k sheet g Hk Hg;
    [discriminate|].
  cbn [fold_left map] in *. inversion Hnodup as [|? ? Hfresh Hrest]; subst.
  rewrite <- list_elem_of_In in Hfresh.
  destruct k as [|k]; cbn [lookup list_lookup] in Hk.
  - injection Hk as ->.
    rewrite (loop_frame body) by (try exact Hfresh; intros; now apply append_other).
    unfold body. rewrite append_turn. cbn [sheets.tabs].
    unfold sheets.fails.
    destruct (sheets.outages s) as [|[|] rest]; cbn [lookup list_lookup default];
      try exact Hg; now rewrite lookup_alter_eq, Hg.
  - assert (Hother : services.tab sheet <> services.tab head).
    { intros Heq. apply Hfresh. rewrite <- Heq.
      apply list_elem_of_fmap. exists sheet. split; [reflexivity|].
      now apply list_elem_of_lookup_2 in Hk. }
    rewrite (IH (body s head) Hrest k sheet g Hk).
    + unfold body. rewrite append_turn. cbn [sheets.outages].
      now destruct (sheets.outages s).
    + unfold body. now rewrite append_other.
Qed.

(** X2 on two sheets and a backend whose first call fails. *)
Lemma AppendSubmission_isolates_failures_witness :
  let archive := Sheet.mk "sheet-2" "Archive" in
  let s :=
    sheets.mk {[ services.tab sample.sheet := [services.headers];
                 services.tab archive := [services.headers] ]} [true] in
  let result :=
    services.AppendSubmission [services.Doc (Some sample.sheet); services.Doc (Some archive)]
      (sample.submission "s-1" "" sample.one) "" s in
  sheets.tabs (snd result) !! services.tab sample.sheet = Some [services.headers]
  /\ sheets.tabs (snd result) !! services.tab archive =
     Some [services.headers; services.submissionToRow (sample.submission "s-1" "" sample.one) ""].
Proof.
  intros archive s result.
  assert (Honce : List.NoDup (map services.tab [sample.sheet; archive])).
  { constructor; [|constructor; [intros [] | constructor]].
    intros [Heq | []]. discriminate. }
  destruct (AppendSubmission_isolates_failures
              [services.Doc (Some sample.sheet); services.Doc (Some archive)]
              [sample.sheet; archive] (sample.submission "s-1" "" sample.one) "" s
              eq_refl Honce) as [_ Hrows].
  split.
  - exact (Hrows 0%nat sample.sheet [services.headers] eq_refl eq_refl).
  - exact (Hrows 1%nat archive [services.headers] eq_refl eq_refl).
Defined.

Section MirrorHeaders.

Import sheets.

(** What [ensureHeaders] is to make of a tab. *)
Lemma ensureHeaders_quiet (spreadsheetID sheetName : string) (s : Service) :
  outages s = [] ->
  snd (services.ensureHeaders spreadsheetID sheetName s) =
  mk (alter (fun g => if services.no_header (read A1_A1 g)
                      then write_rows 0 [services.headers] g else g)
        (spreadsheetID, sheetName) (tabs s)) [].
Proof.
  intros Hquiet. unfold services.ensureHeaders, Get, Update, fails, next.
  rewrite Hquiet. cbn [tail outages tabs]. rewrite alter_alt.
  destruct (tabs s !! (spreadsheetID, sheetName)) as [g|] eqn:Hg;
    cbn [fmap option_fmap option_map]; [|reflexivity].
  destruct (services.no_header (read A1_A1 g)); [reflexivity|].
  now rewrite insert_id.
Qed.

(** Tabs are altered by a change that changes nothing the second time as
    if their sheets were registered once. *)
Lemma altered_tabs_again (change : list (list string) -> list (list string))
  (registered : list Sheet.t) (t : gmap (string * string) (list (list string)))
  (k : string * string) :
  (forall g, change (change g) = change g) ->
  fold_left (fun t sheet => alter change (services.tab sheet) t) registered t !! k =
  if bool_decide (k ∈ map services.tab registered)
  then change <$> t !! k else t !! k.
Proof.
  intros Hagain. revert t.
  induction registered as [|sheet registered IH]; intros t.
  - cbn [fold_left map]. rewrite bool_decide_false by apply not_elem_of_nil. reflexivity.
  - cbn [fold_left map]. rewrite IH.
    destruct (decide (services.tab sheet = k)) as [<- | Hother].
    + rewrite (bool_decide_true (_ ∈ _ :: _)) by apply list_elem_of_here.
      rewrite lookup_alter_eq.
      destruct (bool_decide _); [|reflexivity].
      destruct (t !! services.tab sheet); cbn [fmap option_fmap option_map];
        [now rewrite Hagain | reflexivity].
    + rewrite lookup_alter_ne by exact Hother.
      destruct (bool_decide (k ∈ map services.tab registered)) eqn:Hin.
      * apply bool_decide_eq_true in Hin.
        rewrite bool_decide_true by now apply list_elem_of_further.
        reflexivity.
      * apply bool_decide_eq_false in Hin.
        rewrite bool_decide_false; [reflexivity|].
        intros Hin'. apply elem_of_cons in Hin' as [Heq | Hin'];
          [now apply Hother | now apply Hin].
Qed.

Lemma headers_once (g : list (list string)) :
  let ensure g :=
    if services.no_header (read A1_A1 g) then write_rows 0 [services.headers] g else g in
  services.no_header (read A1_A1 (ensure g)) = false
  /\ ensure (ensure g) = ensure g.
Proof.
  intros ensure.
  assert (Hhas : services.no_header (read A1_A1 (ensure g)) = false).
  { unfold ensure. destruct (services.no_header (read A1_A1 g)) eqn:Hhead;
      [now rewrite read_written_headers | exact Hhead]. }
  split; [exact Hhas|]. unfold ensure at 1. now rewrite Hhas.
Qed.

End MirrorHeaders.

(** X3: once the registrations are read, [ensureAllHeaders] returns no error
    whatever the backend does. On a backend that answers, every registered tab
    (registered once or more) whose cell A1 is empty gets the header row over
    its first row, every other registered tab is left as it is, and cell A1
    of every registered tab is then not empty. *)
Theorem ensureAllHeaders_writes_missing_headers :
  forall (docs : list services.SheetDoc) (registered : list Sheet.t)
         (s : sheets.Service),
    services.fetchSheets docs = Some registered ->
    let result := services.ensureAllHeaders docs s in
    fst result = None
    /\ (sheets.outages s = [] ->
        forall (sheet : Sheet.t) (g : list (list string)),
          sheet ∈ registered ->
          sheets.tabs s !! services.tab sheet = Some g ->
          exists g',
            sheets.tabs (snd result) !! services.tab sheet = Some g'
            /\ g' = (if services.no_header (sheets.read sheets.A1_A1 g)
                     then sheets.write_rows 0 [services.headers] g else g)
            /\ services.no_header (sheets.read sheets.A1_A1 g') = false).
Proof.
  intros docs registered s Hfetch result. subst result.
  unfold services.ensureAllHeaders. rewrite Hfetch. cbn [fst snd].
  split; [reflexivity|].
  intros Hquiet sheet g Hin Hg.
  set (ensure := fun g => if services.no_header (sheets.read sheets.A1_A1 g)
                          then sheets.write_rows 0 [services.headers] g else g).
  rewrite (loop_quiet _ ensure)
    by (try exact Hquiet; intros s' sheet' Hq; now apply ensureHeaders_quiet).
  cbn [sheets.tabs].
  rewrite altered_tabs_again by (intros g0; apply (headers_once g0)).
  rewrite bool_decide_true by (apply list_elem_of_fmap; now exists sheet).
  rewrite Hg. exists (ensure g). split; [reflexivity|]. split; [reflexivity|].
  apply (headers_once g).
Qed.

(** X3 on a sheet that is registered twice and has no row. *)
Lemma ensureAllHeaders_writes_missing_headers_witness :
  let result :=
    services.ensureAllHeaders [services.Doc (Some sample.sheet); services.Doc (Some sample.sheet)]
      (sample.service []) in
  fst result = None
  /\ sheets.tabs (snd result) !! services.tab sample.sheet = Some [services.headers].
Proof.
  intros result.
  destruct (ensureAllHeaders_writes_missing_headers
              [services.Doc (Some sample.sheet); services.Doc (Some sample.sheet)]
              [sample.sheet; sample.sheet] (sample.service []) eq_refl) as [Hnil Htabs].
  split; [exact Hnil|].
  destruct (Htabs eq_refl sample.sheet [] (list_elem_of_here _ _) (lookup_singleton_eq _ _))
    as (g' & Hg' & -> & _).
  exact Hg'.
Defined.

(** X4: none of [ensureAllHeaders], [AppendSubmission] and [UpdateSubmission]
    ever changes a tab that is not the tab of a registered sheet, whatever
    the backend does. *)
Theorem mirror_writes_registered_tabs_only :
  forall (docs : list services.SheetDoc) (registered : list Sheet.t)
         (submission : Submission.t) (fieldName : string) (s : sheets.Service)
         (k : string * string),
    services.fetchSheets docs = Some registered ->
    k ∉ map services.tab registered ->
    sheets.tabs (snd (services.ensureAllHeaders docs s)) !! k = sheets.tabs s !! k
    /\ sheets.tabs (snd (services.AppendSubmission docs submission fieldName s)) !! k
       = sheets.tabs s !! k
    /\ sheets.tabs (snd (services.UpdateSubmission docs submission fieldName s)) !! k
       = sheets.tabs s !! k.
Proof.
  intros docs registered submission fieldName s k Hfetch Hout.
  unfold services.ensureAllHeaders, services.AppendSubmission, services.UpdateSubmission.
  rewrite Hfetch. cbn [snd].
  split; [|split].
  - apply (loop_frame
             (fun s sheet =>
                snd (services.ensureHeaders (Sheet.SpreadsheetID sheet)
                       (Sheet.SpreadsheetName sheet) s))); [|exact Hout].
    intros s' sheet k' Hother. now apply ensureHeaders_other.
  - apply (loop_frame
             (fun s sheet =>
                snd (sheets.Append (Sheet.SpreadsheetID sheet) (Sheet.SpreadsheetName sheet)
                       [services.submissionToRow submission fieldName] s))); [|exact Hout].
    intros s' sheet k' Hother. now apply append_other.
  - apply (loop_frame (services.updateSheet submission fieldName)); [|exact Hout].
    intros s' sheet k' Hother. now apply updateSheet_other.
Qed.

(** X4 on a backend with a tab that no sheet registers. *)
Lemma mirror_writes_registered_tabs_only_witness :
  let s :=
    sheets.mk {[ services.tab sample.sheet := [services.headers];
                 ("sheet-9", "Private") := [["secret"]] ]} [] in
  sheets.tabs
    (snd (services.UpdateSubmission sample.docs (sample.submission "s-1" "" sample.one) "" s))
    !! ("sheet-9", "Private") = Some [["secret"]].
Proof.
  intros s.
  destruct (mirror_writes_registered_tabs_only sample.docs [sample.sheet]
              (sample.submission "s-1" "" sample.one) "" s ("sheet-9", "Private") eq_refl)
    as (_ & _ & Hupdate).
  - intros Hin. apply elem_of_cons in Hin as [Hin|Hin]; [discriminate|].
    now apply elem_of_nil in Hin.
  - rewrite Hupdate. reflexivity.
Defined.

Section MirrorUpdates.

Import sheets.

(** An update after an update of the same identifier leaves what the later
    alone would have left. *)
Lemma updated_over (submission submission' : Submission.t) (fieldName fieldName' : string)
  (g : list (list string)) :
  Submission.ID submission' = Submission.ID submission ->
  Submission.ID submission <> "" ->
  services.updated submission' fieldName' (services.updated submission fieldName g)
  = services.updated submission' fieldName' g.
Proof.
  intros Hsame Hid.
  set (row := services.submissionToRow submission fieldName).
  set (row' := services.submissionToRow submission' fieldName').
  assert (Hrow : cell_A row = Some (Submission.ID submission)) by now apply cell_A_row.
  assert (Hrow' : forall rest, cell_A (row' ++ rest) = Some (Submission.ID submission)).
  { intros rest. rewrite <- Hsame. cbn [row' services.submissionToRow app cell_A].
    unfold empty_cell. rewrite Hsame.
    destruct (String.eqb_spec (Submission.ID submission) ""); [contradiction | reflexivity]. }
  assert (Hunfold : forall g,
    services.updated submission fieldName g =
    match first_row_with (Submission.ID submission) g with
    | Some i => alter (fun old => row ++ drop 39 old) i g
    | None => g ++ [row]
    end) by reflexivity.
  assert (Hunfold' : forall g,
    services.updated submission' fieldName' g =
    match first_row_with (Submission.ID submission) g with
    | Some i => alter (fun old => row' ++ drop 39 old) i g
    | None => g ++ [row']
    end) by (intros g0; unfold services.updated; now rewrite Hsame).
  rewrite (Hunfold g), (Hunfold' g).
  destruct (first_row_with (Submission.ID submission) g) as [i|] eqn:Hfirst.
  - apply first_row_with_spec in Hfirst as (old & Hold & Hmatch & Hbefore).
    assert (Hagain : first_row_with (Submission.ID submission)
                       (alter (fun old => row ++ drop 39 old) i g) = Some i).
    { apply first_row_with_spec. exists (row ++ drop 39 old). split; [|split].
      - now rewrite list_lookup_alter_eq, Hold.
      - exact Hrow.
      - intros j r Hj Hlt. rewrite list_lookup_alter_ne in Hj by lia.
        now apply (Hbefore j). }
    rewrite Hunfold', Hagain, list_alter_alter_eq.
    apply list_alter_ext; [|reflexivity].
    intros x _. reflexivity.
  - assert (Hagain : first_row_with (Submission.ID submission) (g ++ [row])
                     = Some (length g)).
    { apply first_row_with_spec. exists row. split; [|split].
      - now rewrite list_lookup_middle.
      - exact Hrow.
      - intros j r Hj Hlt. rewrite lookup_app_l in Hj by exact Hlt.
        now apply (proj1 (first_row_with_none _ _) Hfirst j). }
    rewrite Hunfold', Hagain.
    replace (length g) with (length g + 0)%nat at 1 by lia.
    rewrite alter_app_r. reflexivity.
Qed.

(** Two updates that write the same row for the same identifier are the
    same update. *)
Lemma updateSheet_same_row (submission submission' : Submission.t)
  (fieldName fieldName' : string) (registered : list Sheet.t) (s : Service) :
  Submission.ID submission' = Submission.ID submission ->
  services.submissionToRow submission' fieldName'
  = services.submissionToRow submission fieldName ->
  fold_left (services.updateSheet submission' fieldName') registered s
  = fold_left (services.updateSheet submission fieldName) registered s.
Proof.
  intros Hsame Hrow. revert s.
  induction registered as [|sheet registered IH]; intros s; [reflexivity|].
  cbn [fold_left]. rewrite IH. f_equal.
  unfold services.updateSheet. now rewrite Hsame, Hrow.
Qed.

(** An update leaves the rows of the other identifiers where and as they
    are, and takes no row away. *)
Lemma updated_other_rows (submission : Submission.t) (fieldName : string)
  (g : list (list string)) (j : nat) (r : list string) :
  g !! j = Some r ->
  cell_A r <> Some (Submission.ID submission) ->
  services.updated submission fieldName g !! j = Some r.
Proof.
  intros Hj Hother. unfold services.updated.
  destruct (first_row_with (Submission.ID submission) g) as [i|] eqn:Hfirst.
  - apply first_row_with_spec in Hfirst as (old & Hold & Hmatch & _).
    rewrite list_lookup_alter_ne; [exact Hj|].
    intros ->. congruence.
  - rewrite lookup_app_l; [exact Hj|]. now apply lookup_lt_Some in Hj.
Qed.

Lemma updated_length (submission : Submission.t) (fieldName : string)
  (g : list (list string)) :
  (length g <= length (services.updated submission fieldName g) <= S (length g))%nat.
Proof.
  unfold services.updated.
  destruct (first_row_with (Submission.ID submission) g).
  - rewrite length_alter. lia.
  - rewrite length_app. simpl. lia.
Qed.

(** The scan of an update returns [-1] or the index of a row of the values
    that begins with the identifier. *)
Lemma rowIndex_range (values : list (list string)) (id : string) (k : Z) :
  0 <= k ->
  services.rowIndex values id k = -1
  \/ (k <= services.rowIndex values id k < k + Z.of_nat (length values)
      /\ exists rest,
           values !! Z.to_nat (services.rowIndex values id k - k) = Some (id :: rest)).
Proof.
  revert k. induction values as [|row values IH]; intros k Hk; [now left|].
  cbn [services.rowIndex length].
  assert (Hnext :
    services.rowIndex values id (k + 1) = -1
    \/ (k <= services.rowIndex values id (k + 1) < k + Z.of_nat (S (length values))
        /\ exists rest,
             (row :: values) !! Z.to_nat (services.rowIndex values id (k + 1) - k)
             = Some (id :: rest))).
  { destruct (IH (k + 1) ltac:(lia)) as [Hnone | [Hrange [rest Hrow]]]; [now left | right].
    split; [lia|]. exists rest.
    replace (Z.to_nat (services.rowIndex values id (k + 1) - k))
      with (S (Z.to_nat (services.rowIndex values id (k + 1) - (k + 1)))) by lia.
    exact Hrow. }
  destruct row as [|cell row]; [exact Hnext|].
  destruct (String.eqb_spec cell id) as [-> | _]; [|exact Hnext].
  right. split; [lia|]. exists row. now rewrite Z.sub_diag.
Qed.

Lemma rowIndex_none (values : list (list string)) (id : string) (k : Z) :
  0 <= k ->
  services.rowIndex values id k = -1 ->
  forall j rest, values !! j <> Some (id :: rest).
Proof.
  revert k. induction values as [|row values IH]; intros k Hk Hnone j rest; [easy|].
  cbn [services.rowIndex] in Hnone.
  destruct row as [|cell row].
  - destruct j as [|j]; [discriminate|]. now apply (IH (k + 1) ltac:(lia) Hnone).
  - destruct (String.eqb_spec cell id) as [-> | Hne]; [lia|].
    destruct j as [|j]; [simpl; congruence|]. now apply (IH (k + 1) ltac:(lia) Hnone).
Qed.

End MirrorUpdates.

(** X5: on a backend that answers, an [UpdateSubmission] after an
    [UpdateSubmission] for the same identifier, one that is not empty, leaves
    every tab as the second alone would have left it, whatever the two
    submissions and field names are and however often a sheet is registered:
    the later update wins. A second update that writes the row of the first
    changes nothing; a second rendering of the same submission, whose maps
    are ranged anew, leaves its own row. *)
Theorem UpdateSubmission_later_update_wins :
  forall (docs : list services.SheetDoc) (registered : list Sheet.t)
         (submission submission' : Submission.t) (fieldName fieldName' : string)
         (s : sheets.Service),
    services.fetchSheets docs = Some registered ->
    sheets.outages s = [] ->
    Submission.ID submission' = Submission.ID submission ->
    Submission.ID submission <> "" ->
    let once := snd (services.UpdateSubmission docs submission fieldName s) in
    let twice := snd (services.UpdateSubmission docs submission' fieldName' once) in
    twice = snd (services.UpdateSubmission docs submission' fieldName' s)
    /\ (services.submissionToRow submission' fieldName'
        = services.submissionToRow submission fieldName ->
        twice = once).
Proof.
  intros docs registered submission submission' fieldName fieldName' s
    Hfetch Hquiet Hsame Hid once twice.
  assert (Hid' : Submission.ID submission' <> "") by now rewrite Hsame.
  assert (Hlater : twice = snd (services.UpdateSubmission docs submission' fieldName' s)).
  { subst twice once. unfold services.UpdateSubmission. rewrite Hfetch. cbn [snd].
    rewrite (loop_quiet _ (services.updated submission fieldName) (fun s0 sheet H =>
               updateSheet_quiet submission fieldName s0 sheet H) registered s Hquiet).
    rewrite (loop_quiet _ (services.updated submission' fieldName') (fun s0 sheet H =>
               updateSheet_quiet submission' fieldName' s0 sheet H) registered
               (sheets.mk _ []) eq_refl).
    rewrite (loop_quiet _ (services.updated submission' fieldName') (fun s0 sheet H =>
               updateSheet_quiet submission' fieldName' s0 sheet H) registered s Hquiet).
    f_equal. cbn [sheets.tabs]. apply map_eq. intros k.
    rewrite !altered_tabs_again
      by (intros g; apply updated_over; [reflexivity | assumption]).
    destruct (bool_decide _); [|reflexivity].
    destruct (sheets.tabs s !! k) as [g|]; cbn [fmap option_fmap option_map]; [|reflexivity].
    now rewrite updated_over. }
  split; [exact Hlater|].
  intros Hrow. rewrite Hlater. subst once.
  unfold services.UpdateSubmission. rewrite Hfetch. cbn [snd].
  now apply updateSheet_same_row.
Qed.

(** X5 on the sample tab with a stale row, and a second rendering that ranges
    the pests in another order: the row of the tab lists them in that order. *)
Lemma UpdateSubmission_later_update_wins_witness :
  let submission := sample.submission "s-1" "" sample.one in
  let conditions :=
    PlantConditions.mk true false true
      (gomap.Map [("Birds", true); ("Rats", false); ("Stem borer", true)])
      "" false (gomap.Map []) "" false "" false "" false "" false (gomap.Map []) "" false "" in
  let submission' :=
    Submission.mk "s-1" "u-1" "" "Lower paddy"
      (Location.mk (gofmt.Fin false 0 0) (gofmt.Fin true 0 0))
      sample.march "Tillering" conditions (sample.traits sample.one) "" "Alice"
      ["a,b"; "c"] [] [] "submitted" sample.march sample.march in
  let once :=
    snd (services.UpdateSubmission sample.docs submission "Lower paddy"
           (sample.service sample.stale)) in
  let twice := snd (services.UpdateSubmission sample.docs submission' "Lower paddy" once) in
  exists row,
    sheets.tabs twice !! services.tab sample.sheet
    = Some [services.headers; row ++ ["checked"]; ["s-2"]]
    /\ row !! 20%nat = Some "Birds, Stem borer".
Proof.
  intros submission conditions submission' once twice.
  destruct (UpdateSubmission_later_update_wins sample.docs [sample.sheet] submission
              submission' "Lower paddy" "Lower paddy" (sample.service sample.stale)
              eq_refl eq_refl eq_refl ltac:(discriminate)) as [Hlater _].
  fold once twice in Hlater. rewrite Hlater.
  exists (services.submissionToRow submission' "Lower paddy").
  split; reflexivity.
Defined.

(** X6: whatever the backend does, [UpdateSubmission] keeps, in every tab of a
    sheet that is registered (once), each row whose cell in column A is not
    the identifier of the submission where it is and as it is, and the tab
    has afterwards the rows it had or one more. *)
Theorem UpdateSubmission_keeps_other_rows :
  forall (docs : list services.SheetDoc) (registered : list Sheet.t)
         (submission : Submission.t) (fieldName : string) (s : sheets.Service),
    services.fetchSheets docs = Some registered ->
    NoDup (map services.tab registered) ->
    forall (sheet : Sheet.t) (g : list (list string)),
      sheet ∈ registered ->
      sheets.tabs s !! services.tab sheet = Some g ->
      exists g',
        sheets.tabs (snd (services.UpdateSubmission docs submission fieldName s))
          !! services.tab sheet = Some g'
        /\ (length g <= length g' <= S (length g))%nat
        /\ forall (j : nat) (r : list string),
             g !! j = Some r ->
             sheets.cell_A r <> Some (Submission.ID submission) ->
             g' !! j = Some r.
Proof.
  intros docs registered submission fieldName s Hfetch Hnodup sheet g Hin Hg.
  unfold services.UpdateSubmission. rewrite Hfetch. cbn [snd].
  destruct (loop_best_effort (services.updateSheet submission fieldName)
              (services.updated submission fieldName)
              (updateSheet_best_effort submission fieldName)
              registered s (services.tab sheet) Hnodup)
    as [Hsame | [_ Hchanged]].
  - exists g. split; [now rewrite Hsame|]. split; [lia|]. now intros j r Hj _.
  - exists (services.updated submission fieldName g).
    split; [now rewrite Hchanged, Hg|]. split; [apply updated_length|].
    intros j r. apply updated_other_rows.
Qed.

(** X6 on the sample tab: the header row and the row of [s-2] stay. *)
Lemma UpdateSubmission_keeps_other_rows_witness :
  exists g',
    sheets.tabs
      (snd (services.UpdateSubmission sample.docs (sample.submission "s-1" "" sample.one)
              "Lower paddy" (sample.service sample.stale)))
      !! services.tab sample.sheet = Some g'
    /\ g' !! 0%nat = Some services.headers
    /\ g' !! 2%nat = Some ["s-2"].
Proof.
  assert (Honce : List.NoDup (map services.tab [sample.sheet])).
  { constructor; [intros [] | constructor]. }
  destruct (UpdateSubmission_keeps_other_rows sample.docs [sample.sheet]
              (sample.submission "s-1" "" sample.one) "Lower paddy"
              (sample.service sample.stale) eq_refl Honce sample.sheet sample.stale
              (list_elem_of_here _ _) (lookup_singleton_eq _ _))
    as (g' & Htab & _ & Hrows).
  exists g'. split; [exact Htab|]. split.
  - apply Hrows; [reflexivity | discriminate].
  - apply Hrows; [reflexivity | discriminate].
Defined.

(** X7: the scan of [UpdateSubmission] over the values it read returns [-1]
    or the index of a row of the values whose first cell is the identifier,
    so that the row it then writes is a row it has read; it returns [-1]
    only when no row of the values begins with the identifier. *)
Theorem rowIndex_is_a_row_or_minus_one :
  forall (values : list (list string)) (id : string),
    let found := services.rowIndex values id 0 in
    (found = -1 /\ forall j rest, values !! j <> Some (id :: rest))
    \/ (0 <= found < Z.of_nat (length values)
        /\ exists rest, values !! Z.to_nat found = Some (id :: rest)).
Proof.
  intros values id found. subst found.
  destruct (rowIndex_range values id 0 ltac:(lia)) as [Hnone | [Hrange [rest Hrow]]].
  - left. split; [exact Hnone|]. now apply (rowIndex_none values id 0).
  - right. split; [lia|]. exists rest. now rewrite Z.sub_0_r in Hrow.
Qed.

(** ** Further properties of the media handler *)

Section MediaNames.

Import utils.

Lemma list_ascii_of_string_append (a b : string) :
  list_ascii_of_string (a +:+ b) = list_ascii_of_string a ++ list_ascii_of_string b.
Proof. induction a as [|c a IH]; simpl; [reflexivity | now rewrite IH]. Qed.

(** The scan goes through bytes that are neither a dot nor a slash. *)
Lemma ext_scan_through (l rest suffix : list ascii) :
  Forall (fun c => c <> dot /\ c <> slash) l ->
  ext_scan (l ++ rest) suffix = ext_scan rest (rev l ++ suffix).
Proof.
  intros Hclean. revert suffix.
  induction Hclean as [|c l [Hdot Hslash] _ IH]; intros suffix; [reflexivity|].
  cbn [app ext_scan rev].
  apply Ascii.eqb_neq in Hdot, Hslash. rewrite Hdot, Hslash.
  rewrite IH, <- app_assoc. reflexivity.
Qed.

(** The scan finds nothing when it meets a slash, or the start of the path,
    before a dot. *)
Lemma ext_scan_no_dot (l rest suffix : list ascii) :
  Forall (fun c => c <> dot) l ->
  ext_scan l suffix = [] /\ ext_scan (l ++ slash :: rest) suffix = [].
Proof.
  intros Hclean. revert suffix.
  induction Hclean as [|c l Hdot _ IH]; intros suffix; [now split|].
  cbn [app ext_scan].
  apply Ascii.eqb_neq in Hdot. rewrite Hdot.
  destruct (Ascii.eqb c slash); [now split | apply IH].
Qed.

Lemma Ext_extension (base e : string) :
  Forall (fun c => c <> dot /\ c <> slash) (list_ascii_of_string e) ->
  Ext (base +:+ "." +:+ e) = "." +:+ e.
Proof.
  intros Hclean. unfold Ext.
  rewrite list_ascii_of_string_append.
  change (list_ascii_of_string ("." +:+ e)) with ("."%char :: list_ascii_of_string e).
  rewrite rev_app_distr. cbn [rev]. rewrite <- app_assoc.
  rewrite ext_scan_through by now apply Forall_rev.
  rewrite rev_involutive, app_nil_r. cbn [app ext_scan].
  change (Ascii.eqb "."%char slash) with false.
  change (Ascii.eqb "."%char dot) with true. cbn [string_of_list_ascii].
  now rewrite string_of_list_ascii_of_string.
Qed.

Lemma Ext_no_dot (dir leaf : string) :
  Forall (fun c => c <> dot) (list_ascii_of_string leaf) ->
  Ext leaf = "" /\ Ext (dir +:+ "/" +:+ leaf) = "".
Proof.
  intros Hclean. unfold Ext.
  rewrite list_ascii_of_string_append.
  change (list_ascii_of_string ("/" +:+ leaf)) with (slash :: list_ascii_of_string leaf).
  rewrite rev_app_distr. cbn [rev]. rewrite <- app_assoc. cbn [app].
  apply Forall_rev in Hclean.
  destruct (ext_scan_no_dot _ (rev (list_ascii_of_string dir)) [] Hclean) as [-> ->].
  now split.
Qed.

Lemma ToLower_extension (e : string) : ToLower ("." +:+ e) = "." +:+ ToLower e.
Proof. reflexivity. Qed.

End MediaNames.

(** X8: whatever precedes the last dot of the name of the file, and in
    whatever letter case its extension is written, [ValidateMediaType] accepts
    the file for a type exactly when the extension in lower case is one of
    the extensions of the type. *)
Theorem ValidateMediaType_by_lowercase_extension :
  forall (base e fileType : string),
    Forall (fun c => c <> utils.dot /\ c <> utils.slash) (list_ascii_of_string e) ->
    utils.ValidateMediaType (base +:+ "." +:+ e) fileType = true <->
    (fileType = "image" /\ In (utils.ToLower e) ["jpg"; "jpeg"; "png"; "webp"])
    \/ (fileType = "video" /\ In (utils.ToLower e) ["mp4"; "mov"; "webm"])
    \/ (fileType = "audio" /\ In (utils.ToLower e) ["mp3"; "wav"; "ogg"; "webm"]).
Proof.
  intros base e fileType Hclean.
  unfold utils.ValidateMediaType, utils.IsImageFile, utils.IsVideoFile, utils.IsAudioFile,
    utils.checkExtension.
  rewrite Ext_extension by exact Hclean. rewrite ToLower_extension.
  remember (utils.ToLower e) as x eqn:Hx. clear Hx.
  change ("." +:+ x) with (String "."%char x).
  cbn [existsb String.eqb].
  change (Ascii.eqb "."%char "."%char) with true. cbn [andb].
  destruct (String.eqb_spec fileType "image") as [-> | Himage];
    [|destruct (String.eqb_spec fileType "video") as [-> | Hvideo];
      [|destruct (String.eqb_spec fileType "audio") as [-> | Haudio]]].
  4: { split; [discriminate|]. intros [[? _] | [[? _] | [? _]]]; contradiction. }
  all: repeat match goal with
              | |- context [String.eqb ?y ?s] =>
                  destruct (String.eqb_spec y s)
              end; cbn [orb].
  all: split;
    [ try discriminate; intros _;
      first [ left; split; [reflexivity | cbn [In]; auto 10 using eq_sym]
            | right; left; split; [reflexivity | cbn [In]; auto 10 using eq_sym]
            | right; right; split; [reflexivity | cbn [In]; auto 10 using eq_sym] ]
    | try reflexivity;
      intros [[Htype Hin] | [[Htype Hin] | [Htype Hin]]]; try discriminate Htype;
      cbn [In] in Hin; intuition congruence ].
Qed.

(** X8 on a photograph of a camera that writes its extensions in capitals. *)
Lemma ValidateMediaType_by_lowercase_extension_witness :
  utils.ValidateMediaType ("2024.03/IMG_0001" +:+ "." +:+ "JPEG") "image" = true.
Proof.
  apply (ValidateMediaType_by_lowercase_extension "2024.03/IMG_0001" "JPEG" "image").
  - repeat constructor; discriminate.
  - left. split; [reflexivity|]. right. left. reflexivity.
Defined.

(** X9: a file whose name has no dot in its last element is accepted for no
    type, whether the name is that element alone or has directories before
    it, with dots or without. *)
Theorem ValidateMediaType_rejects_no_extension :
  forall (dir leaf fileType : string),
    Forall (fun c => c <> utils.dot) (list_ascii_of_string leaf) ->
    utils.ValidateMediaType leaf fileType = false
    /\ utils.ValidateMediaType (dir +:+ "/" +:+ leaf) fileType = false.
Proof.
  intros dir leaf fileType Hclean.
  destruct (Ext_no_dot dir leaf Hclean) as [Hleaf Hpath].
  unfold utils.ValidateMediaType, utils.IsImageFile, utils.IsVideoFile, utils.IsAudioFile,
    utils.checkExtension.
  rewrite Hleaf, Hpath.
  split; repeat (destruct (String.eqb fileType _); [reflexivity|]); reflexivity.
Qed.

(** X9 on a file in a directory whose name ends like a picture. *)
Lemma ValidateMediaType_rejects_no_extension_witness :
  utils.ValidateMediaType ("plots.jpg" +:+ "/" +:+ "README") "image" = false.
Proof.
  apply (ValidateMediaType_rejects_no_extension "plots.jpg" "README" "image").
  repeat constructor; discriminate.
Defined.

Section MediaStore.

Import firestore.

(** The transaction on the submission changes nothing or replaces the one
    document it has read. *)
Lemma addMediaToSubmission_frame (submissionID mediaURL fileType : string)
  (now : Time.t) (c : Client) :
  let c' := snd (handlers.addMediaToSubmission submissionID mediaURL fileType now c) in
  fields c' = fields c
  /\ (submissions c' = submissions c
      \/ exists d d',
           submissions c !! submissionID = Some d
           /\ submissions c' = <[submissionID := d']> (submissions c)).
Proof.
  unfold handlers.addMediaToSubmission, GetSubmission, SetSubmission.
  destruct (fails c); cbn [fst snd]; [now split; [|left]|].
  destruct (submissions c !! submissionID) as [d|] eqn:Hd; [|now split; [|left]].
  destruct d. destruct (fails (next c)); cbn [snd submissions fields next].
  - now split; [|left].
  - split; [reflexivity|]. right. eexists _, _. split; reflexivity.
Qed.

Lemma prefix_temp (rest : string) :
  handlers.prefix ("temp_" +:+ rest) 5 = Some "temp_".
Proof.
  unfold handlers.prefix.
  change ("temp_" +:+ rest)
    with (String "t" (String "e" (String "m" (String "p" (String "_" rest))))).
  cbn [String.length]. rewrite decide_True by lia. cbn [substring]. now destruct rest.
Qed.

Lemma ValidateMediaType_type (filename fileType : string) :
  utils.ValidateMediaType filename fileType = true ->
  fileType = "image" \/ fileType = "video" \/ fileType = "audio".
Proof.
  unfold utils.ValidateMediaType.
  destruct (String.eqb_spec fileType "image"); [tauto|].
  destruct (String.eqb_spec fileType "video"); [tauto|].
  destruct (String.eqb_spec fileType "audio"); [tauto | discriminate].
Qed.

End MediaStore.

(** X10: an upload for a submission whose identifier begins with [temp_] never
    calls the document store, whatever the form holds; once the file is
    accepted and written it is answered 200 with the name of the object and
    its public URL, whether the object could be made public or not. *)
Theorem UploadMedia_temp_never_calls_the_store :
  forall (bucketName rest fileType generated : string) (file : option handlers.FileHeader)
         (uploaded stored : Time.t) (up : handlers.Upload) (c : firestore.Client),
    let submissionID := "temp_" +:+ rest in
    let result :=
      handlers.UploadMedia bucketName submissionID fileType file generated uploaded stored
        up c in
    snd result = c
    /\ (forall header,
          file = Some header ->
          utils.ValidateMediaType (handlers.Filename header) fileType = true ->
          handlers.copied up = true -> handlers.closed up = true ->
          let filename :=
            submissionID +:+ "/" +:+ generated +:+ "_" +:+ handlers.stamp uploaded +:+
            utils.Ext (handlers.Filename header) in
          fst result =
          http.Responds
            (http.JSON http.StatusOK
               (http.SuccessResponse
                  (http.OfMedia filename
                     ("https://storage.googleapis.com/" +:+ bucketName +:+ "/" +:+ filename)
                     fileType)
                  "Media uploaded successfully"))).
Proof.
  intros bucketName rest fileType generated file uploaded stored up c submissionID result.
  subst result. unfold handlers.UploadMedia.
  assert (Hid : String.eqb submissionID "" = false) by reflexivity.
  rewrite Hid. cbn [negb]. subst submissionID. rewrite prefix_temp.
  rewrite String.eqb_refl. cbn [negb].
  split.
  - destruct (String.eqb fileType ""); [reflexivity|].
    destruct file as [header|]; [|reflexivity].
    destruct (utils.ValidateMediaType _ _); cbn [negb]; [|reflexivity].
    destruct (handlers.copied up); cbn [negb]; [|reflexivity].
    destruct (handlers.closed up); reflexivity.
  - intros header -> Hvalid Hcopied Hclosed.
    destruct (String.eqb_spec fileType "") as [-> | _];
      [now rewrite ValidateMediaType_no_type in Hvalid|].
    rewrite Hvalid, Hcopied, Hclosed. reflexivity.
Qed.

(** X10 on a recording for a form that is not submitted yet, with an object
    that could not be made public. *)
Lemma UploadMedia_temp_never_calls_the_store_witness :
  let c := firestore.mk ∅ ∅ [true; true] in
  handlers.UploadMedia "rice-media" ("temp_" +:+ "42") "audio"
    (Some (handlers.mkFile "note.WebM" "audio/webm")) sample.uuid sample.march sample.march
    (handlers.mkUpload true true false) c
  = (http.Responds
       (http.JSON 200
          (http.SuccessResponse
             (http.OfMedia
                "temp_42/0b0e7a54-7c1c-4f0e-9d53-0c0a4f6f2a11_20240301_100509.WebM"
                "https://storage.googleapis.com/rice-media/temp_42/0b0e7a54-7c1c-4f0e-9d53-0c0a4f6f2a11_20240301_100509.WebM"
                "audio")
             "Media uploaded successfully")), c).
Proof.
  intros c.
  destruct (UploadMedia_temp_never_calls_the_store "rice-media" "42" "audio" sample.uuid
              (Some (handlers.mkFile "note.WebM" "audio/webm")) sample.march sample.march
              (handlers.mkUpload true true false) c) as [Hstore Hanswer].
  apply injective_projections; [|exact Hstore].
  rewrite (Hanswer _ eq_refl eq_refl eq_refl eq_refl). reflexivity.
Defined.

(** X11: an upload for a stored submission, on a store that answers, with a
    file that is accepted and written: the answer is 200 with the public URL
    of the object, the URL is added at the end of the list of the submission
    that the type names and of no other, [updated_at] is the time of the
    transaction, and no other member of the document changes: the document
    that is written back is the one that was read, so that [date] and
    [created_at] are the instants they were, in UTC. Whether the object could
    be made public makes no difference. *)
Theorem UploadMedia_records_the_url :
  forall (bucketName submissionID fileType generated : string) (header : handlers.FileHeader)
         (uploaded stored : Time.t) (up : handlers.Upload) (c : firestore.Client)
         (d : Submission.t),
    (5 <= String.length submissionID)%nat ->
    substring 0 5 submissionID <> "temp_" ->
    firestore.outages c = [] ->
    firestore.submissions c !! submissionID = Some d ->
    utils.ValidateMediaType (handlers.Filename header) fileType = true ->
    handlers.copied up = true -> handlers.closed up = true ->
    let filename :=
      submissionID +:+ "/" +:+ generated +:+ "_" +:+ handlers.stamp uploaded +:+
      utils.Ext (handlers.Filename header) in
    let url := "https://storage.googleapis.com/" +:+ bucketName +:+ "/" +:+ filename in
    let result :=
      handlers.UploadMedia bucketName submissionID fileType (Some header) generated
        uploaded stored up c in
    fst result =
    http.Responds
      (http.JSON http.StatusOK
         (http.SuccessResponse (http.OfMedia filename url fileType)
            "Media uploaded successfully"))
    /\ firestore.fields (snd result) = firestore.fields c
    /\ exists d',
         firestore.submissions (snd result) = <[submissionID := d']> (firestore.submissions c)
         /\ Submission.UpdatedAt d' = stored
         /\ ((fileType = "image" /\ Submission.Images d' = Submission.Images d ++ [url]
              /\ Submission.Videos d' = Submission.Videos d
              /\ Submission.Audio d' = Submission.Audio d)
             \/ (fileType = "video" /\ Submission.Images d' = Submission.Images d
                 /\ Submission.Videos d' = Submission.Videos d ++ [url]
                 /\ Submission.Audio d' = Submission.Audio d)
             \/ (fileType = "audio" /\ Submission.Images d' = Submission.Images d
                 /\ Submission.Videos d' = Submission.Videos d
                 /\ Submission.Audio d' = Submission.Audio d ++ [url]))
         /\ Submission.ID d' = Submission.ID d
         /\ Submission.UserID d' = Submission.UserID d
         /\ Submission.FieldID d' = Submission.FieldID d
         /\ Submission.OtherFieldName d' = Submission.OtherFieldName d
         /\ Submission.Coordinates d' = Submission.Coordinates d
         /\ Submission.Date d' = Time.UTC (Submission.Date d)
         /\ Submission.GrowthStage d' = Submission.GrowthStage d
         /\ Submission.PlantConditions d' = Submission.PlantConditions d
         /\ Submission.TraitMeasurements d' = Submission.TraitMeasurements d
         /\ Submission.Notes d' = Submission.Notes d
         /\ Submission.ObserverName d' = Submission.ObserverName d
         /\ Submission.Status d' = Submission.Status d
         /\ Submission.CreatedAt d' = Time.UTC (Submission.CreatedAt d).
Proof.
  intros bucketName submissionID fileType generated header uploaded stored up c d
    Hlong Hreal Hquiet Hdoc Hvalid Hcopied Hclosed filename url result.
  subst result. unfold handlers.UploadMedia.
  assert (Hid : String.eqb submissionID "" = false) by (apply eqb_empty_length; lia).
  rewrite Hid.
  destruct (String.eqb_spec fileType "") as [-> | _];
    [now rewrite ValidateMediaType_no_type in Hvalid|].
  rewrite Hvalid, Hcopied, Hclosed. cbn [negb].
  rewrite prefix_long by exact Hlong.
  destruct (String.eqb_spec (substring 0 5 submissionID) "temp_") as [|_]; [contradiction|].
  cbn [negb].
  unfold handlers.addMediaToSubmission, firestore.GetSubmission, firestore.SetSubmission,
    firestore.fails, firestore.next.
  rewrite Hquiet. cbn [tail firestore.outages firestore.submissions firestore.fields].
  rewrite Hdoc. destruct d.
  cbn [fst snd firestore.submissions firestore.fields fmap option_fmap option_map
       firestore.decoded Submission.ID Submission.UserID Submission.FieldID
       Submission.OtherFieldName Submission.Coordinates Submission.Date
       Submission.GrowthStage Submission.PlantConditions Submission.TraitMeasurements
       Submission.Notes Submission.ObserverName Submission.Images Submission.Videos
       Submission.Audio Submission.Status Submission.CreatedAt Submission.UpdatedAt].
  fold filename. fold url.
  split; [reflexivity|]. split; [reflexivity|].
  eexists. split; [reflexivity|]. split; [reflexivity|].
  split; [|repeat split].
  cbn [Submission.Images Submission.Videos Submission.Audio].
  destruct (ValidateMediaType_type _ _ Hvalid) as [-> | [-> | ->]];
    [left | right; left | right; right]; repeat split.
Qed.

(** X11 on a photograph for Alice's submission, with an object that could not
    be made public. *)
Lemma UploadMedia_records_the_url_witness :
  let d := sample.submission "s-0001" "" sample.one in
  let result :=
    handlers.UploadMedia "rice-media" "s-0001" "image"
      (Some (handlers.mkFile "leaf.JPG" "image/jpeg")) "3f2c" sample.march sample.march
      (handlers.mkUpload true true false) (sample.client [d] []) in
  Submission.Images <$> firestore.submissions (snd result) !! "s-0001" =
  Some ["a,b"; "c";
        "https://storage.googleapis.com/rice-media/s-0001/3f2c_20240301_100509.JPG"].
Proof.
  intros d result.
  destruct (UploadMedia_records_the_url "rice-media" "s-0001" "image" "3f2c"
              (handlers.mkFile "leaf.JPG" "image/jpeg") sample.march sample.march
              (handlers.mkUpload true true false) (sample.client [d] []) d)
    as (_ & _ & d' & Hstore & _ & Hlists & _).
  - simpl. lia.
  - discriminate.
  - reflexivity.
  - reflexivity.
  - reflexivity.
  - reflexivity.
  - reflexivity.
  - subst result. rewrite Hstore, lookup_insert_eq. cbn [fmap option_fmap option_map].
    destruct Hlists as [(_ & -> & _) | [(Hno & _) | (Hno & _)]];
      [reflexivity | discriminate | discriminate].
Defined.

(** X12: whatever the form holds and whatever the store does, an upload
    creates no document and deletes none, changes no field and no submission
    other than the one it is for. *)
Theorem UploadMedia_touches_one_document :
  forall (bucketName submissionID fileType generated : string)
         (file : option handlers.FileHeader) (uploaded stored : Time.t)
         (up : handlers.Upload) (c : firestore.Client),
    let c' :=
      snd (handlers.UploadMedia bucketName submissionID fileType file generated
             uploaded stored up c) in
    firestore.fields c' = firestore.fields c
    /\ (is_Some (firestore.submissions c' !! submissionID)
        <-> is_Some (firestore.submissions c !! submissionID))
    /\ forall other,
         other <> submissionID ->
         firestore.submissions c' !! other = firestore.submissions c !! other.
Proof.
  intros bucketName submissionID fileType generated file uploaded stored up c c'.
  assert (Hframe :
    firestore.fields c' = firestore.fields c
    /\ (firestore.submissions c' = firestore.submissions c
        \/ exists d d',
             firestore.submissions c !! submissionID = Some d
             /\ firestore.submissions c' = <[submissionID := d']> (firestore.submissions c))).
  { subst c'. unfold handlers.UploadMedia.
    destruct (String.eqb submissionID ""); [now split; [|left]|].
    destruct (String.eqb fileType ""); [now split; [|left]|].
    destruct file as [header|]; [|now split; [|left]].
    destruct (utils.ValidateMediaType _ _); cbn [negb]; [|now split; [|left]].
    destruct (handlers.copied up); cbn [negb]; [|now split; [|left]].
    destruct (handlers.closed up); cbn [negb]; [|now split; [|left]].
    destruct (handlers.prefix submissionID 5) as [head|]; [|now split; [|left]].
    destruct (negb (String.eqb head "temp_")); [|now split; [|left]].
    pose proof (addMediaToSubmission_frame submissionID
                  ("https://storage.googleapis.com/" +:+ bucketName +:+ "/" +:+
                   (submissionID +:+ "/" +:+ generated +:+ "_" +:+ handlers.stamp uploaded
                    +:+ utils.Ext (handlers.Filename header)))
                  fileType stored c) as Hmedia.
    cbn zeta in Hmedia.
    destruct (handlers.addMediaToSubmission _ _ _ _ _) as [[|] c1]; exact Hmedia. }
  destruct Hframe as [Hfields [Hsame | (d & d' & Hd & Hchanged)]].
  - rewrite Hsame. now split.
  - rewrite Hchanged. split; [exact Hfields|]. split.
    + rewrite lookup_insert_eq, Hd. split; intros _; eexists; reflexivity.
    + intros other Hother. now rewrite lookup_insert_ne.
Qed.

(** X12 on an upload for a submission that the store does not have: the
    answer is 500 and the store has as many documents as before. *)
Lemma UploadMedia_touches_one_document_witness :
  let d := sample.submission "s-0001" "" sample.one in
  let c := sample.client [d] [] in
  let c' :=
    snd (handlers.UploadMedia "rice-media" "s-0002" "image"
           (Some (handlers.mkFile "leaf.jpg" "image/jpeg")) "3f2c" sample.march
           sample.march (handlers.mkUpload true true true) c) in
  firestore.submissions c' !! "s-0001" = Some d
  /\ firestore.submissions c' !! "s-0002" = None.
Proof.
  intros d c c'.
  destruct (UploadMedia_touches_one_document "rice-media" "s-0002" "image" "3f2c"
              (Some (handlers.mkFile "leaf.jpg" "image/jpeg")) sample.march sample.march
              (handlers.mkUpload true true true) c) as (_ & Hsame & Hother).
  split.
  - rewrite Hother by discriminate. reflexivity.
  - apply eq_None_not_Some. intros Hsome. apply Hsame in Hsome.
    now destruct Hsome.
Defined.

(** ** Further properties of the submission handlers *)

Section HandlerStore.

Import firestore.

(** Looking up the name of the field changes no document. *)
Lemma sheetFieldName_frame (submission : Submission.t) (c : Client) :
  submissions (snd (handlers.sheetFieldName submission c)) = submissions c
  /\ fields (snd (handlers.sheetFieldName submission c)) = fields c.
Proof.
  unfold handlers.sheetFieldName, GetField.
  destruct (_ && _); [|now split].
  destruct (fails c); [now split|].
  destruct (fields c !! _); now split.
Qed.

Lemma exportFieldName_frame (submission : Submission.t) (c : Client) :
  submissions (snd (handlers.exportFieldName submission c)) = submissions c
  /\ fields (snd (handlers.exportFieldName submission c)) = fields c
  /\ (fst (handlers.exportFieldName submission c) = ""
      \/ exists field,
           fields c !! Submission.FieldID submission = Some field
           /\ fst (handlers.exportFieldName submission c) = Field.Name field).
Proof.
  unfold handlers.exportFieldName, GetField.
  destruct (negb _); [|now repeat split; left].
  destruct (fails c); [now repeat split; left|].
  destruct (fields c !! _) as [field|] eqn:Hfield; [|now repeat split; left].
  repeat split. right. now exists field.
Qed.

Lemma allowed_decoded (user : User.t) (d : Submission.t) :
  handlers.denied user (decoded d) = handlers.denied user d.
Proof. reflexivity. Qed.

Lemma allowed (user : User.t) (submissionID : string) (c : Client) :
  User.Role user = "admin"
  \/ (forall d, submissions c !! submissionID = Some d -> Submission.UserID d = User.ID user) ->
  forall d, submissions c !! submissionID = Some d -> handlers.denied user d = false.
Proof.
  intros [Hadmin | Howner] d Hd.
  - unfold handlers.denied. now rewrite Hadmin.
  - apply denied_owner. now apply Howner.
Qed.

(** The patch of a request is a projection: made again, later, it leaves
    what the later patch alone would have left. *)
Lemma patched_again (req : UpdateSubmissionRequest.t) (now later : Time.t)
  (old : Submission.t) :
  handlers.patched req later (handlers.patched req now old) = handlers.patched req later old.
Proof.
  destruct req as [field_id other date stage conditions traits coordinates
                     notes images videos audio status].
  unfold handlers.patched. cbn. f_equal;
    repeat match goal with
           | |- context [default _ ?m] => is_var m; destruct m
           | |- context [match ?m with _ => _ end] => is_var m; destruct m
           end; reflexivity.
Qed.

Lemma denied_patched (user : User.t) (req : UpdateSubmissionRequest.t) (now : Time.t)
  (old : Submission.t) :
  handlers.denied user (handlers.patched req now old) = handlers.denied user old.
Proof. reflexivity. Qed.

(** The outcomes of an update, whatever the store does. *)
Lemma UpdateSubmission_outcomes (user : User.t) (submissionID : string)
  (body : http.Decoded UpdateSubmissionRequest.t) (now : Time.t) (c : Client) :
  let result := handlers.UpdateSubmission user submissionID body now c in
  (exists err,
     body = http.Malformed err
     /\ result = (http.JSON 400 (http.ErrorResponse "invalid_request" err), c, None))
  \/ (exists c', result = (handlers.not_found, c', None)
                 /\ submissions c' = submissions c /\ fields c' = fields c)
  \/ (exists old c',
        submissions c !! submissionID = Some old
        /\ handlers.denied user old = true
        /\ result = (handlers.forbidden, c', None)
        /\ submissions c' = submissions c /\ fields c' = fields c)
  \/ (exists c',
        result = (http.JSON 500
                    (http.ErrorResponse "internal_error" "Failed to update submission"),
                  c', None)
        /\ submissions c' = submissions c /\ fields c' = fields c)
  \/ (exists req old c',
        body = http.Parsed req
        /\ submissions c !! submissionID = Some old
        /\ handlers.denied user old = false
        /\ result = (http.JSON 500
                       (http.ErrorResponse "internal_error"
                          "Failed to retrieve updated submission"),
                     c', None)
        /\ submissions c' = <[submissionID := handlers.patched req now old]> (submissions c)
        /\ fields c' = fields c)
  \/ (exists req old fieldName c',
        body = http.Parsed req
        /\ submissions c !! submissionID = Some old
        /\ handlers.denied user old = false
        /\ (let answered :=
              DataTo (decoded old) (decoded (handlers.patched req now old)) in
            result = (http.JSON 200
                        (http.SuccessResponse (http.OfSubmission answered)
                           "Submission updated successfully"),
                      c', Some (http.UpdateJob answered fieldName)))
        /\ submissions c' = <[submissionID := handlers.patched req now old]> (submissions c)
        /\ fields c' = fields c).
Proof.
  intros result. subst result. unfold handlers.UpdateSubmission.
  destruct body as [err|req]; cbn [handlers.ShouldBindJSON_update].
  { left. now exists err. }
  right. unfold GetSubmission.
  destruct (fails c) eqn:Hfails.
  { left. now exists (next c). }
  destruct (submissions c !! submissionID) as [old|] eqn:Hold;
    cbn [fmap option_fmap option_map].
  2: { left. now exists (next c). }
  right. rewrite allowed_decoded. destruct (handlers.denied user old) eqn:Hdenied.
  { left. now exists old, (next c). }
  right. unfold UpdateSubmission.
  destruct (fails (next c)).
  { left. now exists (next (next c)). }
  cbn [submissions next]. rewrite Hold.
  right. rewrite apply_updatesOf.
  set (c2 := mk _ _ _).
  destruct (fails c2).
  { left. exists req, old, (next c2). repeat split. exact Hdenied. }
  right. cbn [submissions c2]. rewrite lookup_insert_eq.
  cbn [fmap option_fmap option_map].
  destruct (handlers.sheetFieldName _ _) as [fieldName c4] eqn:Hname.
  exists req, old, fieldName, c4. repeat split; try exact Hdenied.
  - pose proof (sheetFieldName_frame
                  (DataTo (decoded old) (decoded (handlers.patched req now old)))
                  (next c2)) as [Hs _].
    rewrite Hname in Hs. exact Hs.
  - pose proof (sheetFieldName_frame
                  (DataTo (decoded old) (decoded (handlers.patched req now old)))
                  (next c2)) as [_ Hf].
    rewrite Hname in Hf. exact Hf.
Qed.


End HandlerStore.

(** X13: a store that does not answer the read of the submission is reported
    as a submission that does not exist: the read, the update and the delete
    are all answered 404, also for a submission that exists and for a
    requester who has no access to it, and no document is changed. *)
Theorem unavailable_store_is_not_found :
  forall (user : User.t) (submissionID : string) (req : UpdateSubmissionRequest.t)
         (now : Time.t) (c : firestore.Client),
    firestore.fails c = true ->
    handlers.GetSubmission user submissionID c = (handlers.not_found, firestore.next c)
    /\ handlers.DeleteSubmission user submissionID c
       = (handlers.not_found, firestore.next c)
    /\ handlers.UpdateSubmission user submissionID (http.Parsed req) now c
       = (handlers.not_found, firestore.next c, None)
    /\ http.Code handlers.not_found = 404
    /\ firestore.submissions (firestore.next c) = firestore.submissions c
    /\ firestore.fields (firestore.next c) = firestore.fields c.
Proof.
  intros user submissionID req now c Hfails.
  unfold handlers.GetSubmission, handlers.DeleteSubmission, handlers.UpdateSubmission,
    firestore.GetSubmission.
  cbn [handlers.ShouldBindJSON_update]. rewrite Hfails. repeat split.
Qed.

(** X13 on Bob's delete of Alice's submission while the store is down. *)
Lemma unavailable_store_is_not_found_witness :
  let d := sample.submission "s-1" "" sample.one in
  let c := firestore.mk {[ "s-1" := d ]} ∅ [true] in
  handlers.DeleteSubmission sample.bob "s-1" c
  = (handlers.not_found, firestore.mk {[ "s-1" := d ]} ∅ []).
Proof.
  intros d c.
  destruct (unavailable_store_is_not_found sample.bob "s-1" (sample.rename "x")
              sample.march c eq_refl) as (_ & Hdelete & _).
  exact Hdelete.
Defined.

(** X14: an administrator, and the owner of the submission that the store
    holds under the identifier, are never answered 403 by the read, the
    update or the delete, whatever the body of the request and whatever the
    store does. *)
Theorem owner_and_admin_are_never_forbidden :
  forall (user : User.t) (submissionID : string)
         (body : http.Decoded UpdateSubmissionRequest.t) (now : Time.t)
         (c : firestore.Client),
    User.Role user = "admin"
    \/ (forall d, firestore.submissions c !! submissionID = Some d ->
                  Submission.UserID d = User.ID user) ->
    http.Code (fst (handlers.GetSubmission user submissionID c)) <> 403
    /\ http.Code (fst (handlers.DeleteSubmission user submissionID c)) <> 403
    /\ http.Code (fst (fst (handlers.UpdateSubmission user submissionID body now c))) <> 403.
Proof.
  intros user submissionID body now c Hwho.
  pose proof (allowed user submissionID c Hwho) as Hallowed.
  split; [|split].
  - unfold handlers.GetSubmission, firestore.GetSubmission.
    destruct (firestore.fails c); [discriminate|].
    destruct (firestore.submissions c !! submissionID) as [d|];
      cbn [fmap option_fmap option_map]; [|discriminate].
    rewrite allowed_decoded, (Hallowed d eq_refl).
    destruct (_ && _).
    + destruct (firestore.GetField _ _) as [[field|] c2]; discriminate.
    + destruct (negb _); discriminate.
  - unfold handlers.DeleteSubmission, firestore.GetSubmission.
    destruct (firestore.fails c); [discriminate|].
    destruct (firestore.submissions c !! submissionID) as [d|];
      cbn [fmap option_fmap option_map]; [|discriminate].
    rewrite allowed_decoded, (Hallowed d eq_refl).
    destruct (firestore.DeleteSubmission _ _) as [[|] c2]; discriminate.
  - destruct (UpdateSubmission_outcomes user submissionID body now c)
      as [(err & _ & ->) | [(c' & -> & _) | [(old & c' & Hold & Hdenied & _)
          | [(c' & -> & _) | [(req & old & c' & _ & _ & _ & -> & _)
          | (req & old & name & c' & _ & _ & _ & -> & _)]]]]];
      try discriminate.
    rewrite (Hallowed old Hold) in Hdenied. discriminate.
Qed.

(** X14 on an administrator's delete of Alice's submission. *)
Lemma owner_and_admin_are_never_forbidden_witness :
  let root := User.mk "u-0" "root@example.org" "Root" "" "admin" Time.zero Time.zero Time.zero in
  let c := sample.client [sample.submission "s-1" "" sample.one] [] in
  http.Code (fst (handlers.DeleteSubmission root "s-1" c)) <> 403.
Proof.
  intros root c.
  destruct (owner_and_admin_are_never_forbidden root "s-1" (http.Malformed "") sample.march
              c (or_introl eq_refl)) as (_ & Hdelete & _).
  exact Hdelete.
Defined.

(** X15: a delete by the owner or an administrator, on a store that answers,
    is answered 200 and removes the document and no other: every later read
    or delete of the identifier, by anyone, is answered 404, and the read of
    any other identifier is answered as before. *)
Theorem DeleteSubmission_then_not_found :
  forall (user : User.t) (submissionID : string) (c : firestore.Client) (d : Submission.t),
    firestore.outages c = [] ->
    firestore.submissions c !! submissionID = Some d ->
    User.Role user = "admin" \/ Submission.UserID d = User.ID user ->
    let c' := firestore.mk (delete submissionID (firestore.submissions c))
                (firestore.fields c) [] in
    handlers.DeleteSubmission user submissionID c
    = (http.JSON 200 (http.SuccessResponse http.NoData "Submission deleted successfully"),
       c')
    /\ (forall anyone, handlers.GetSubmission anyone submissionID c' = (handlers.not_found, c'))
    /\ (forall anyone,
          handlers.DeleteSubmission anyone submissionID c' = (handlers.not_found, c'))
    /\ (forall anyone other,
          other <> submissionID ->
          fst (handlers.GetSubmission anyone other c')
          = fst (handlers.GetSubmission anyone other c)).
Proof.
  intros user submissionID c d Hquiet Hdoc Hwho c'.
  assert (Hallowed : handlers.denied user d = false).
  { apply (allowed user submissionID c); [|exact Hdoc].
    destruct Hwho as [Hadmin | Howner]; [now left | right].
    intros d' Hd'. congruence. }
  split; [|split; [|split]].
  - unfold handlers.DeleteSubmission, firestore.GetSubmission, firestore.DeleteSubmission,
      firestore.fails, firestore.next.
    rewrite Hquiet. cbn [tail firestore.outages firestore.submissions firestore.fields].
    rewrite Hdoc. cbn [fmap option_fmap option_map].
    now rewrite allowed_decoded, Hallowed.
  - intros anyone. unfold handlers.GetSubmission, firestore.GetSubmission.
    cbn. now rewrite lookup_delete_eq.
  - intros anyone. unfold handlers.DeleteSubmission, firestore.GetSubmission.
    cbn. now rewrite lookup_delete_eq.
  - intros anyone other Hother.
    unfold handlers.GetSubmission, firestore.GetSubmission, firestore.GetField,
      firestore.fails, firestore.next.
    rewrite Hquiet. cbn [tail firestore.outages firestore.submissions firestore.fields c'].
    rewrite lookup_delete_ne by congruence.
    destruct (firestore.submissions c !! other) as [o|];
      cbn [fmap option_fmap option_map]; [|reflexivity].
    rewrite allowed_decoded.
    destruct (handlers.denied anyone o); [reflexivity|].
    destruct (_ && _); [|now destruct (negb _)].
    now destruct (firestore.fields c !! _).
Qed.

(** X15 on Alice's delete of her submission [s-1], with [s-2] beside it. *)
Lemma DeleteSubmission_then_not_found_witness :
  let c := sample.client [sample.submission "s-1" "" sample.one;
                          sample.submission "s-2" "" sample.one] [] in
  let c' := snd (handlers.DeleteSubmission sample.alice "s-1" c) in
  fst (handlers.GetSubmission sample.alice "s-1" c') = handlers.not_found
  /\ fst (handlers.GetSubmission sample.alice "s-2" c')
     = fst (handlers.GetSubmission sample.alice "s-2" c).
Proof.
  intros c c'.
  destruct (DeleteSubmission_then_not_found sample.alice "s-1" c
              (sample.submission "s-1" "" sample.one) eq_refl eq_refl (or_intror eq_refl))
    as (Hdelete & Hget & _ & Hother).
  subst c'. rewrite Hdelete. cbn [snd]. split.
  - now rewrite Hget.
  - apply Hother. discriminate.
Defined.

(** X16: whatever the body of the request and whatever the store does, an
    update leaves work to the spreadsheet mirror exactly when it is answered
    200; the job then carries the document of the response. That document is
    the struct of the first read after the stored document, read again, has
    been decoded into it: its members are those that the store holds under
    the identifier, the timestamps in UTC, but for the three maps of the
    plant conditions: one that is stored as a map keeps besides the stored
    keys the keys that only the document before the update had, one that is
    stored as [nil] is [nil]. An update never changes a field or another
    submission, and changes nothing at all when it is answered 400, 403 or
    404. *)
Theorem UpdateSubmission_mirrors_what_it_answers :
  forall (user : User.t) (submissionID : string)
         (body : http.Decoded UpdateSubmissionRequest.t) (now : Time.t)
         (c : firestore.Client),
    let result := handlers.UpdateSubmission user submissionID body now c in
    let r := fst (fst result) in
    let c' := snd (fst result) in
    (is_Some (snd result) <-> http.Code r = 200)
    /\ (forall job,
          snd result = Some job ->
          exists old stored fieldName,
            firestore.submissions c !! submissionID = Some old
            /\ firestore.submissions c' !! submissionID = Some stored
            /\ let answered :=
                 firestore.DataTo (firestore.decoded old) (firestore.decoded stored) in
               job = http.UpdateJob answered fieldName
               /\ r = http.JSON 200
                        (http.SuccessResponse (http.OfSubmission answered)
                           "Submission updated successfully")
               /\ Submission.ID answered = Submission.ID stored
               /\ Submission.FieldID answered = Submission.FieldID stored
               /\ Submission.OtherFieldName answered = Submission.OtherFieldName stored
               /\ Submission.GrowthStage answered = Submission.GrowthStage stored
               /\ Submission.Notes answered = Submission.Notes stored
               /\ Submission.Status answered = Submission.Status stored
               /\ Submission.Images answered = Submission.Images stored
               /\ Submission.UpdatedAt answered = Time.UTC (Submission.UpdatedAt stored)
               /\ PlantConditions.PestDetails (Submission.PlantConditions answered)
                  = firestore.populateMap
                      (PlantConditions.PestDetails (Submission.PlantConditions old))
                      (PlantConditions.PestDetails (Submission.PlantConditions stored)))
    /\ firestore.fields c' = firestore.fields c
    /\ (forall other,
          other <> submissionID ->
          firestore.submissions c' !! other = firestore.submissions c !! other)
    /\ (http.Code r = 400 \/ http.Code r = 403 \/ http.Code r = 404 ->
        firestore.submissions c' = firestore.submissions c).
Proof.
  intros user submissionID body now c result r c'. subst r c'.
  destruct (UpdateSubmission_outcomes user submissionID body now c)
    as [(err & _ & Hrun) | [(c' & Hrun & Hs & Hf) | [(old & c' & _ & _ & Hrun & Hs & Hf)
        | [(c' & Hrun & Hs & Hf) | [(req & old & c' & _ & _ & _ & Hrun & Hs & Hf)
        | (req & old & name & c' & _ & Hold & _ & Hrun & Hs & Hf)]]]]];
    cbn zeta in Hrun; fold result in Hrun; rewrite Hrun;
    cbn [fst snd http.Code handlers.not_found handlers.forbidden].
  1-5: split; [split; [intros [? ?]; discriminate | discriminate]|];
       split; [discriminate|].
  1: now repeat split.
  1-3: split; [exact Hf|]; split; [intros; now rewrite Hs | intros; exact Hs].
  - split; [exact Hf|]. split.
    + intros other Hother. now rewrite Hs, lookup_insert_ne.
    + intros [Hcode | [Hcode | Hcode]]; discriminate.
  - split; [split; [reflexivity | intros _; now eexists]|].
    split.
    { intros job [= <-]. exists old, (handlers.patched req now old), name.
      split; [exact Hold|]. split; [now rewrite Hs, lookup_insert_eq|].
      repeat split. }
    split; [exact Hf|]. split.
    + intros other Hother. now rewrite Hs, lookup_insert_ne.
    + intros [Hcode | [Hcode | Hcode]]; discriminate.
Qed.

(** X16 on Alice's update of the pests of her submission to snails alone,
    with no map of diseases: the store holds the snails, the response and
    the job hold the pests that the submission had and the snails, and no
    map of diseases. *)
Lemma UpdateSubmission_mirrors_what_it_answers_witness :
  let c := sample.client [sample.submission "s-1" "" sample.one] [] in
  let conditions :=
    PlantConditions.mk false false true (gomap.Map [("Snails", true)]) "" false gomap.Nil
      "" false "" false "" false "" false gomap.Nil "" false "" in
  let req :=
    UpdateSubmissionRequest.mk None None None None (Some conditions) None None None
      None None None None in
  let result := handlers.UpdateSubmission sample.alice "s-1" (http.Parsed req) sample.march c in
  exists stored answered fieldName,
    firestore.submissions (snd (fst result)) !! "s-1" = Some stored
    /\ snd result = Some (http.UpdateJob answered fieldName)
    /\ PlantConditions.PestDetails (Submission.PlantConditions stored)
       = gomap.Map [("Snails", true)]
    /\ PlantConditions.PestDetails (Submission.PlantConditions answered)
       = gomap.Map [("Stem borer", true); ("Rats", false); ("Birds", true); ("Snails", true)]
    /\ PlantConditions.DiseaseDetails (Submission.PlantConditions answered) = gomap.Nil.
Proof.
  intros c conditions req result.
  destruct (UpdateSubmission_mirrors_what_it_answers sample.alice "s-1" (http.Parsed req)
              sample.march c) as (_ & Hjob & _).
  destruct (Hjob (http.UpdateJob
                    (firestore.DataTo
                       (firestore.decoded (sample.submission "s-1" "" sample.one))
                       (firestore.decoded
                          (handlers.patched req sample.march
                             (sample.submission "s-1" "" sample.one))))
                    "Lower paddy") eq_refl)
    as (old & stored & fieldName & Hold & Hstored & Hrun & _).
  exists (handlers.patched req sample.march (sample.submission "s-1" "" sample.one)),
    (firestore.DataTo
       (firestore.decoded (sample.submission "s-1" "" sample.one))
       (firestore.decoded
          (handlers.patched req sample.march (sample.submission "s-1" "" sample.one)))),
    "Lower paddy".
  repeat split.
Defined.

(** X17: an update whose write goes through and whose read of the written
    document then fails is answered 500, although the store holds the
    updated document, and leaves no work to the spreadsheet mirror. *)
Theorem UpdateSubmission_unread_write_is_not_mirrored :
  forall (user : User.t) (submissionID : string) (req : UpdateSubmissionRequest.t)
         (now : Time.t) (c : firestore.Client) (old : Submission.t) (rest : list bool),
    firestore.outages c = false :: false :: true :: rest ->
    firestore.submissions c !! submissionID = Some old ->
    User.Role user = "admin" \/ Submission.UserID old = User.ID user ->
    handlers.UpdateSubmission user submissionID (http.Parsed req) now c
    = (http.JSON 500
         (http.ErrorResponse "internal_error" "Failed to retrieve updated submission"),
       firestore.mk (<[submissionID := handlers.patched req now old]> (firestore.submissions c))
         (firestore.fields c) rest,
       None).
Proof.
  intros user submissionID req now c old rest Houtages Hdoc Hwho.
  assert (Hallowed : handlers.denied user old = false).
  { apply (allowed user submissionID c); [|exact Hdoc].
    destruct Hwho as [Hadmin | Howner]; [now left | right].
    intros d' Hd'. congruence. }
  unfold handlers.UpdateSubmission, firestore.GetSubmission, firestore.UpdateSubmission,
    firestore.fails, firestore.next.
  cbn [handlers.ShouldBindJSON_update].
  rewrite Houtages. cbn [tail firestore.outages firestore.submissions].
  rewrite Hdoc. cbn [fmap option_fmap option_map].
  rewrite allowed_decoded, Hallowed.
  cbn [tail firestore.outages firestore.submissions firestore.fields].
  now rewrite apply_updatesOf.
Qed.

(** X17 on Alice's change of the name of her field. *)
Lemma UpdateSubmission_unread_write_is_not_mirrored_witness :
  let old := sample.submission "s-1" "f-1" sample.one in
  let c := firestore.mk {[ "s-1" := old ]} ∅ [false; false; true] in
  let result :=
    handlers.UpdateSubmission sample.alice "s-1" (http.Parsed (sample.rename "Upper paddy"))
      sample.march c in
  http.Code (fst (fst result)) = 500
  /\ snd result = None
  /\ Submission.OtherFieldName <$> firestore.submissions (snd (fst result)) !! "s-1"
     = Some "Upper paddy".
Proof.
  intros old c result. subst result.
  rewrite (UpdateSubmission_unread_write_is_not_mirrored sample.alice "s-1"
             (sample.rename "Upper paddy") sample.march c old []
             eq_refl eq_refl (or_intror eq_refl)).
  repeat split.
Defined.

(** X18: on a store that answers, an authorized update that is made a second
    time with the same body is answered 200 as the first, and leaves the
    store as the second update alone would have left it: the repetition
    changes [updated_at] in the store, and nothing when the clock reads the
    same. *)
Theorem UpdateSubmission_repeated_stores_the_later :
  forall (user : User.t) (submissionID : string) (req : UpdateSubmissionRequest.t)
         (now later : Time.t) (c : firestore.Client) (old : Submission.t),
    firestore.outages c = [] ->
    firestore.submissions c !! submissionID = Some old ->
    User.Role user = "admin" \/ Submission.UserID old = User.ID user ->
    let once := handlers.UpdateSubmission user submissionID (http.Parsed req) now c in
    let twice :=
      handlers.UpdateSubmission user submissionID (http.Parsed req) later (snd (fst once)) in
    let alone := handlers.UpdateSubmission user submissionID (http.Parsed req) later c in
    http.Code (fst (fst once)) = 200
    /\ http.Code (fst (fst twice)) = 200
    /\ snd (fst twice) = snd (fst alone)
    /\ firestore.submissions (snd (fst twice))
       = <[submissionID := handlers.patched req later old]> (firestore.submissions c).
Proof.
  intros user submissionID req now later c old Hquiet Hdoc Hwho once twice alone.
  assert (Hallowed : handlers.denied user old = false).
  { apply (allowed user submissionID c); [|exact Hdoc].
    destruct Hwho as [Hadmin | Howner]; [now left | right].
    intros d' Hd'. congruence. }
  subst twice alone once.
  rewrite !(UpdateSubmission_done user submissionID req _ c old Hquiet Hdoc Hallowed).
  cbn [fst snd].
  rewrite (UpdateSubmission_done user submissionID req later
             (firestore.mk
                (<[submissionID := handlers.patched req now old]> (firestore.submissions c))
                (firestore.fields c) [])
             (handlers.patched req now old)
             eq_refl (lookup_insert_eq _ _ _)
             (eq_trans (denied_patched user req now old) Hallowed)).
  cbn [fst snd firestore.submissions firestore.fields http.Code].
  rewrite patched_again, insert_insert_eq. repeat split.
Qed.

(** X18 on Alice's change of the name of her field, made again a day
    later. *)
Lemma UpdateSubmission_repeated_stores_the_later_witness :
  let c := sample.client [sample.submission "s-1" "f-1" sample.one] [] in
  let later := Time.mk 2024 3 2 10 5 9 19800 in
  let once :=
    handlers.UpdateSubmission sample.alice "s-1" (http.Parsed (sample.rename "Upper paddy"))
      sample.march c in
  let twice :=
    handlers.UpdateSubmission sample.alice "s-1" (http.Parsed (sample.rename "Upper paddy"))
      later (snd (fst once)) in
  Submission.UpdatedAt <$> firestore.submissions (snd (fst twice)) !! "s-1" = Some later
  /\ Submission.OtherFieldName <$> firestore.submissions (snd (fst twice)) !! "s-1"
     = Some "Upper paddy".
Proof.
  intros c later once twice.
  destruct (UpdateSubmission_repeated_stores_the_later sample.alice "s-1"
              (sample.rename "Upper paddy") sample.march later c
              (sample.submission "s-1" "f-1" sample.one) eq_refl eq_refl (or_intror eq_refl))
    as (_ & _ & _ & Hstore).
  fold once twice in Hstore. rewrite Hstore, lookup_insert_eq. now split.
Defined.

(** ** The export and the mirror *)

Section ExportRows.

Import firestore.

Lemma exportRecords_rows (docs : list Submission.t) (c : Client) :
  submissions (snd (handlers.exportRecords docs c)) = submissions c
  /\ fields (snd (handlers.exportRecords docs c)) = fields c
  /\ Forall2
       (fun d row =>
          exists name,
            row = services.submissionToRow d name
            /\ (name = ""
                \/ exists field,
                     fields c !! Submission.FieldID d = Some field
                     /\ name = Field.Name field))
       docs (fst (handlers.exportRecords docs c)).
Proof.
  revert c. induction docs as [|d docs IH]; intros c.
  - repeat split. constructor.
  - cbn [handlers.exportRecords].
    pose proof (exportFieldName_frame d c) as (Hs & Hf & Hname).
    destruct (handlers.exportFieldName d c) as [name c1]. cbn [fst snd] in *.
    specialize (IH c1) as (Hs' & Hf' & Hrows).
    destruct (handlers.exportRecords docs c1) as [records c2]. cbn [fst snd] in *.
    split; [congruence|]. split; [congruence|].
    constructor.
    + exists name. split; [reflexivity | exact Hname].
    + rewrite Hf in Hrows. exact Hrows.
Qed.

End ExportRows.

(** X19: for the documents that its query yields, [ExportSubmissions] hands
    the CSV writer the header and then one record for each document, in the
    order of the documents; every row has 39 cells, and the record of a
    document is the row of the spreadsheet mirror for it, with a field name
    that is empty or the name of the stored field of its [field_id]. The
    export changes no document, whatever the store does. *)
Theorem ExportSubmissions_one_record_for_each_document :
  forall (docs : list Submission.t) (c : firestore.Client),
    let rows := fst (handlers.ExportSubmissions docs c) in
    let c' := snd (handlers.ExportSubmissions docs c) in
    rows !! 0%nat = Some handlers.header
    /\ length rows = S (length docs)
    /\ Forall (fun row => length row = 39%nat) rows
    /\ Forall2
         (fun d row =>
            exists name,
              row = services.submissionToRow d name
              /\ (name = ""
                  \/ exists field,
                       firestore.fields c !! Submission.FieldID d = Some field
                       /\ name = Field.Name field))
         docs (tail rows)
    /\ firestore.submissions c' = firestore.submissions c
    /\ firestore.fields c' = firestore.fields c.
Proof.
  intros docs c rows c'. subst rows c'. unfold handlers.ExportSubmissions.
  pose proof (exportRecords_rows docs c) as (Hs & Hf & Hrows).
  destruct (handlers.exportRecords docs c) as [records c1]. cbn [fst snd tail] in *.
  split; [reflexivity|].
  split; [cbn [length]; f_equal; symmetry; eapply Forall2_length, Hrows|].
  split; [|now repeat split].
  constructor; [reflexivity|].
  clear Hs Hf. induction Hrows as [|d row docs records (name & -> & _) _ IH];
    constructor; [reflexivity | exact IH].
Qed.

(** X20: the field name of the export and the field name of the spreadsheet
    mirror. For a submission whose [field_id] is neither empty nor [others]
    the two handlers make the same call on the store and get the same name.
    For an empty [field_id] the export leaves the cell empty and calls
    nothing, where the mirror writes [other_field_name]; for [others] the
    mirror writes [other_field_name] and the export the name of a stored
    field [others], if there is one. *)
Theorem export_and_mirror_field_names :
  forall (submission : Submission.t) (c : firestore.Client),
    (Submission.FieldID submission <> "" ->
     Submission.FieldID submission <> "others" ->
     handlers.exportFieldName submission c = handlers.sheetFieldName submission c)
    /\ (Submission.FieldID submission = "" ->
        handlers.exportFieldName submission c = ("", c)
        /\ handlers.sheetFieldName submission c
           = (Submission.OtherFieldName submission, c))
    /\ (Submission.FieldID submission = "others" ->
        handlers.sheetFieldName submission c = (Submission.OtherFieldName submission, c)
        /\ handlers.exportFieldName submission c
           = (if firestore.fails c then ""
              else default "" (Field.Name <$> firestore.fields c !! "others"),
              firestore.next c)).
Proof.
  intros submission c.
  unfold handlers.exportFieldName, handlers.sheetFieldName.
  split; [|split].
  - intros Hfield Hothers. apply String.eqb_neq in Hfield, Hothers.
    now rewrite Hfield, Hothers.
  - intros ->. now split.
  - intros ->. split; [reflexivity|]. cbn [String.eqb Ascii.eqb negb].
    unfold firestore.GetField.
    destruct (firestore.fails c); [reflexivity|].
    now destruct (firestore.fields c !! "others").
Qed.

(** X20 on a submission without a field: the export has no field name for
    it, the mirror has. *)
Lemma export_and_mirror_field_names_witness :
  let submission := sample.submission "s-1" "" sample.one in
  let c := sample.client [submission] [] in
  fst (handlers.exportFieldName submission c) = ""
  /\ fst (handlers.sheetFieldName submission c) = "Lower paddy".
Proof.
  intros submission c.
  destruct (export_and_mirror_field_names submission c) as (_ & Hnone & _).
  destruct (Hnone eq_refl) as [-> ->]. now split.
Defined.

(** X21: whatever the body of the request and whatever the store does, a
    create request is answered 400, 500 or 201, and leaves work to the
    spreadsheet mirror exactly when it is answered 201; the job then carries
    the document that the store holds under the generated identifier, which
    is the document of the response, with the requester as owner and the
    status [submitted]. A create request never changes a field or a
    submission with another identifier, and changes nothing at all unless it
    is answered 201. *)
Theorem CreateSubmission_mirrors_what_it_stored :
  forall (user : User.t) (body : http.Decoded CreateSubmissionRequest.t)
         (generated : string) (created updated : Time.t) (c : firestore.Client),
    let result := handlers.CreateSubmission user body generated created updated c in
    let r := fst (fst result) in
    let c' := snd (fst result) in
    (http.Code r = 400 \/ http.Code r = 500 \/ http.Code r = 201)
    /\ (is_Some (snd result) <-> http.Code r = 201)
    /\ (forall job,
          snd result = Some job ->
          exists new fieldName,
            job = http.AppendJob new fieldName
            /\ firestore.submissions c' !! generated = Some new
            /\ r = http.JSON 201
                     (http.SuccessResponse (http.OfSubmission new)
                        "Submission created successfully")
            /\ Submission.ID new = generated
            /\ Submission.UserID new = User.ID user
            /\ Submission.Status new = "submitted")
    /\ firestore.fields c' = firestore.fields c
    /\ (forall other,
          other <> generated ->
          firestore.submissions c' !! other = firestore.submissions c !! other)
    /\ (http.Code r <> 201 -> firestore.submissions c' = firestore.submissions c).
Proof.
  intros user body generated created updated c result r c'. subst r c' result.
  unfold handlers.CreateSubmission.
  destruct (handlers.ShouldBindJSON_create body) as [err|req].
  { cbn [fst snd http.Code].
    split; [now left|]. split; [split; [intros [? ?]; discriminate | discriminate]|].
    split; [discriminate|]. now repeat split. }
  unfold firestore.SetSubmission. cbn [Submission.ID].
  destruct (firestore.fails c).
  { cbn [fst snd http.Code].
    split; [now right; left|]. split; [split; [intros [? ?]; discriminate | discriminate]|].
    split; [discriminate|]. now repeat split. }
  match goal with
  | |- context [handlers.sheetFieldName ?s ?c1] =>
      pose proof (sheetFieldName_frame s c1) as [Hs Hf];
      destruct (handlers.sheetFieldName s c1) as [fieldName c2]
  end.
  cbn [fst snd http.Code firestore.submissions firestore.fields] in *.
  split; [now right; right|]. split; [split; [reflexivity | intros _; now eexists]|].
  split.
  { intros job [= <-]. eexists _, _. split; [reflexivity|].
    split; [now rewrite Hs, lookup_insert_eq|]. repeat split. }
  split; [exact Hf|]. split.
  - intros other Hother. now rewrite Hs, lookup_insert_ne.
  - intros Hcode. now contradiction Hcode.
Qed.

(** X21 on a create request that the store does not take: 500, no job, no
    document. *)
Lemma CreateSubmission_mirrors_what_it_stored_witness :
  let c := firestore.mk ∅ ∅ [true] in
  let result :=
    handlers.CreateSubmission sample.alice (http.Parsed (sample.request "")) sample.uuid
      sample.march sample.march c in
  http.Code (fst (fst result)) = 500
  /\ snd result = None
  /\ firestore.submissions (snd (fst result)) = ∅.
Proof.
  intros c result.
  destruct (CreateSubmission_mirrors_what_it_stored sample.alice
              (http.Parsed (sample.request "")) sample.uuid sample.march sample.march c)
    as (_ & Hjob & _ & _ & _ & Hsame).
  split; [reflexivity|]. split.
  - apply eq_None_not_Some. intros Hsome. apply Hjob in Hsome. discriminate Hsome.
  - apply Hsame. discriminate.
Defined.

Section EndToEnd.

Import sheets.



End EndToEnd.



(** ** Access, headers and media cells *)

(** X23: whatever the body of the request and whatever the store does, a
    requester who is not an administrator and does not own the submission
    that the store holds under the identifier is never answered 200 by the
    read, the update or the delete; the update and the delete then change no
    submission, and the update leaves no work to the spreadsheet mirror. *)
Theorem stranger_reads_and_changes_nothing :
  forall (user : User.t) (submissionID : string)
         (body : http.Decoded UpdateSubmissionRequest.t) (now : Time.t)
         (c : firestore.Client),
    User.Role user <> "admin" ->
    (forall d, firestore.submissions c !! submissionID = Some d ->
               Submission.UserID d <> User.ID user) ->
    let read := handlers.GetSubmission user submissionID c in
    let update := handlers.UpdateSubmission user submissionID body now c in
    let delete := handlers.DeleteSubmission user submissionID c in
    http.Code (fst read) <> 200
    /\ firestore.submissions (snd read) = firestore.submissions c
    /\ http.Code (fst (fst update)) <> 200
    /\ firestore.submissions (snd (fst update)) = firestore.submissions c
    /\ snd update = None
    /\ http.Code (fst delete) <> 200
    /\ firestore.submissions (snd delete) = firestore.submissions c.
Proof.
  intros user submissionID body now c Hrole Hstranger read update delete.
  assert (Hdenied : forall d, firestore.submissions c !! submissionID = Some d ->
                              handlers.denied user d = true).
  { intros d Hd. apply denied_stranger; [exact Hrole | now apply Hstranger]. }
  split; [|split; [|split; [|split; [|split; [|split]]]]].
  1-2: subst read; unfold handlers.GetSubmission, firestore.GetSubmission;
       destruct (firestore.fails c); [easy|];
       destruct (firestore.submissions c !! submissionID) as [d|];
         cbn [fmap option_fmap option_map]; [|easy];
       now rewrite allowed_decoded, (Hdenied d eq_refl).
  4-5: subst delete; unfold handlers.DeleteSubmission, firestore.GetSubmission;
       destruct (firestore.fails c); [easy|];
       destruct (firestore.submissions c !! submissionID) as [d|];
         cbn [fmap option_fmap option_map]; [|easy];
       now rewrite allowed_decoded, (Hdenied d eq_refl).
  all: destruct (UpdateSubmission_outcomes user submissionID body now c)
      as [(err & _ & Hrun) | [(c' & Hrun & Hs & _) | [(old & c' & _ & _ & Hrun & Hs & _)
          | [(c' & Hrun & Hs & _) | [(req & old & c' & _ & Hold & Hallowed & _)
          | (req & old & name & c' & _ & Hold & Hallowed & _)]]]]];
    try (rewrite (Hdenied old Hold) in Hallowed; discriminate);
    fold update in Hrun; rewrite Hrun; easy.
Qed.

(** X23 on Bob and Alice's submission, with a store that does not answer the
    first call. *)
Lemma stranger_reads_and_changes_nothing_witness :
  let d := sample.submission "s-1" "" sample.one in
  let c := firestore.mk {[ "s-1" := d ]} ∅ [true] in
  http.Code (fst (handlers.GetSubmission sample.bob "s-1" c)) <> 200
  /\ firestore.submissions (snd (handlers.DeleteSubmission sample.bob "s-1" c))
     = {[ "s-1" := d ]}.
Proof.
  intros d c.
  destruct (stranger_reads_and_changes_nothing sample.bob "s-1"
              (http.Parsed (sample.rename "x")) sample.march c)
    as (Hread & _ & _ & _ & _ & _ & Hdelete).
  - discriminate.
  - intros d' Hd'. unfold c in Hd'. cbn [firestore.submissions] in Hd'.
    apply lookup_singleton_Some in Hd' as [_ <-]. discriminate.
  - split; [exact Hread | exact Hdelete].
Defined.

(** X24: [ensureHeaders] returns one of two errors or none; when it returns
    an error it has written nothing. It cannot read, and says so, exactly
    when the backend fails on the read or the tab does not exist; with a tab
    that exists and a backend that answers it returns no error. *)
Theorem ensureHeaders_error_writes_nothing :
  forall (spreadsheetID sheetName : string) (s : sheets.Service),
    let result := services.ensureHeaders spreadsheetID sheetName s in
    (fst result = None
     \/ fst result = Some "unable to retrieve data from sheet"
     \/ fst result = Some "unable to write headers to sheet")
    /\ (fst result <> None -> sheets.tabs (snd result) = sheets.tabs s)
    /\ (fst result = Some "unable to retrieve data from sheet" <->
        sheets.fails s = true \/ sheets.tabs s !! (spreadsheetID, sheetName) = None)
    /\ (sheets.outages s = [] ->
        is_Some (sheets.tabs s !! (spreadsheetID, sheetName)) ->
        fst result = None).
Proof.
  intros spreadsheetID sheetName s result. subst result.
  unfold services.ensureHeaders, sheets.Get, sheets.Update.
  destruct (sheets.fails s) eqn:Hfails.
  { cbn [fst snd]. split; [now right; left|]. split; [reflexivity|].
    split; [split; [now left | reflexivity]|].
    intros Hquiet _. unfold sheets.fails in Hfails. now rewrite Hquiet in Hfails. }
  destruct (sheets.tabs s !! (spreadsheetID, sheetName)) as [g|] eqn:Hg;
    cbn [fmap option_fmap option_map fst snd].
  2: { split; [now right; left|]. split; [reflexivity|].
       split; [split; [now right | reflexivity]|].
       intros _ [? ?]. discriminate. }
  destruct (services.no_header _).
  2: { cbn [fst snd]. split; [now left|]. split; [easy|].
       split; [split; [discriminate |intros [? | ?]; discriminate]|]. reflexivity. }
  destruct (sheets.fails (sheets.next s)) eqn:Hnext.
  { cbn [fst snd]. split; [now right; right|]. split; [reflexivity|].
    split; [split; [discriminate |intros [? | ?]; discriminate]|].
    intros Hquiet _. unfold sheets.fails, sheets.next in Hnext.
    now rewrite Hquiet in Hnext. }
  cbn [sheets.tabs sheets.next]. rewrite Hg. cbn [fst snd].
  split; [now left|]. split; [easy|].
  split; [split; [discriminate |intros [? | ?]; discriminate]|]. reflexivity.
Qed.

(** X24 on a sheet whose tab does not exist. *)
Lemma ensureHeaders_error_writes_nothing_witness :
  let result := services.ensureHeaders "sheet-1" "Archive" (sample.service []) in
  fst result = Some "unable to retrieve data from sheet"
  /\ sheets.tabs (snd result) = sheets.tabs (sample.service []).
Proof.
  intros result.
  destruct (ensureHeaders_error_writes_nothing "sheet-1" "Archive" (sample.service []))
    as (_ & Hsame & Hread & _).
  fold result in Hsame, Hread.
  assert (Herror : fst result = Some "unable to retrieve data from sheet")
    by (apply Hread; right; reflexivity).
  split; [exact Herror|]. apply Hsame. rewrite Herror. discriminate.
Defined.

Section MediaCells.

Lemma plain_tail (c : ascii) (s : string) :
  Forall (fun c : ascii => c <> ","%char) (list_ascii_of_string (String c s)) ->
  c <> ","%char /\ Forall (fun c : ascii => c <> ","%char) (list_ascii_of_string s).
Proof. intros H. inversion H; subst. now split. Qed.

(** What precedes the first comma, and what follows it. *)
Lemma first_comma (x y a b : string) :
  Forall (fun c : ascii => c <> ","%char) (list_ascii_of_string x) ->
  Forall (fun c : ascii => c <> ","%char) (list_ascii_of_string y) ->
  x +:+ String ","%char a = y +:+ String ","%char b -> x = y /\ a = b.
Proof.
  revert y. induction x as [|c x IH]; intros [|d y] Hx Hy Heq;
    cbn [String.append] in Heq.
  - injection Heq as ->. now split.
  - injection Heq as <- _. apply plain_tail in Hy as [Hd _]. now contradiction Hd.
  - injection Heq as -> _. apply plain_tail in Hx as [Hc _]. now contradiction Hc.
  - injection Heq as -> Heq.
    apply plain_tail in Hx as [_ Hx]. apply plain_tail in Hy as [_ Hy].
    destruct (IH y Hx Hy Heq) as [-> ->]. now split.
Qed.

Lemma no_comma (x y a : string) :
  Forall (fun c : ascii => c <> ","%char) (list_ascii_of_string x) ->
  x <> y +:+ String ","%char a.
Proof.
  revert x. induction y as [|d y IH]; intros [|c x] Hx Heq;
    cbn [String.append] in Heq; try discriminate.
  - injection Heq as -> _. apply plain_tail in Hx as [Hc _]. now contradiction Hc.
  - injection Heq as -> Heq. apply plain_tail in Hx as [_ Hx]. now apply (IH x).
Qed.

Lemma Join_plain (urls urls' : list string) :
  Forall (fun url => Forall (fun c : ascii => c <> ","%char) (list_ascii_of_string url))
    urls ->
  Forall (fun url => Forall (fun c : ascii => c <> ","%char) (list_ascii_of_string url))
    urls' ->
  urls <> [] -> urls' <> [] ->
  gofmt.Join urls "," = gofmt.Join urls' "," -> urls = urls'.
Proof.
  intros Hplain. revert urls'.
  induction Hplain as [|x urls Hx Hurls IH]; intros urls' Hplain' Hsome Hsome' Heq;
    [contradiction|].
  destruct Hplain' as [|y urls' Hy Hurls']; [contradiction|].
  destruct urls as [|x' urls], urls' as [|y' urls']; cbn [gofmt.Join] in Heq.
  - now subst.
  - now apply (no_comma x y) in Heq.
  - symmetry in Heq. now apply (no_comma y x) in Heq.
  - apply (first_comma x y) in Heq as [-> Heq]; [|assumption..].
    f_equal. now apply IH.
Qed.

End MediaCells.

(** X25: the cells [Images], [Videos] and [Audio] of a row determine the URLs
    of the submission, as long as a list has a URL and no URL has a comma:
    two submissions with such lists whose rows have the same cell have the
    same list. *)
Theorem media_cells_determine_the_urls :
  forall (submission submission' : Submission.t) (fieldName fieldName' : string),
    let row := services.submissionToRow submission fieldName in
    let row' := services.submissionToRow submission' fieldName' in
    forall (get : Submission.t -> list string) (column : nat),
      (get, column) ∈ [(Submission.Images, 36%nat); (Submission.Videos, 37%nat);
                       (Submission.Audio, 38%nat)] ->
      Forall (fun url => Forall (fun c => c <> ","%char) (list_ascii_of_string url))
        (get submission) ->
      Forall (fun url => Forall (fun c => c <> ","%char) (list_ascii_of_string url))
        (get submission') ->
      get submission <> [] -> get submission' <> [] ->
      row !! column = row' !! column ->
      get submission = get submission'.
Proof.
  intros submission submission' fieldName fieldName' row row' get column Hcolumn
    Hplain Hplain' Hsome Hsome' Hcell.
  apply Join_plain; try assumption.
  subst row row'.
  repeat (apply elem_of_cons in Hcolumn as [[= -> ->] | Hcolumn];
          [now injection Hcell|]).
  now apply elem_of_nil in Hcolumn.
Qed.

(** X25 on the photographs of two submissions that differ in their
    recordings. *)
Lemma media_cells_determine_the_urls_witness :
  let urls := ["https://storage.googleapis.com/rice-media/s-1/a.jpg";
               "https://storage.googleapis.com/rice-media/s-1/b.jpg"] in
  let s := Submission.mk "s-1" "" "" "" (Location.mk gofmt.zero gofmt.zero) Time.zero ""
             sample.conditions (sample.traits sample.one) "" "" urls [] [] ""
             Time.zero Time.zero in
  let s' := Submission.mk "s-2" "" "" "" (Location.mk gofmt.zero gofmt.zero) Time.zero ""
              sample.conditions (sample.traits sample.one) "" "" urls [] ["note.webm"] ""
              Time.zero Time.zero in
  Submission.Images s = Submission.Images s'.
Proof.
  intros urls s s'.
  apply (media_cells_determine_the_urls s s' "" "" Submission.Images 36%nat).
  - apply list_elem_of_here.
  - repeat constructor; discriminate.
  - repeat constructor; discriminate.
  - discriminate.
  - discriminate.
  - reflexivity.
Defined.
